(** * keeper: a command-line time keeper (src/keeper.py)

    A shallow embedding of [keeper.py] and the properties of its
    specification.

    Modelling conventions.
    - The in-memory record store [self.__data] (a Python [dict] from
      day-keys to [Booking] objects) is a [gmap string Booking].  A booking
      taken from the store is updated in place by [__check] and written
      back under the same key; between the two only the subtraction of
      the timestamps can fail, and only when one of them carries a UTC
      offset and the other none, which the timestamps of this model never
      do (see below).  So the update is modelled as one insertion.
    - The two JSON documents are modelled by their contents: the settings
      document by a record of optional fields, a store document by the
      mapping it holds.  Serialisation is the identity.
    - Python [float]s are idealised as exact rationals ([Q]); equality of
      two floats is [Qeq].  [quarter_round] is the value the rounding
      returns; [quarter_round_call] is the call, which raises once the
      quotient passes the largest finite float.  The program itself rounds
      hours below 24 only.  Properties that would not survive the rounding
      of a float subtraction state the pause lengths they hold for.
    - [datetime.datetime] values are records of their seven integer fields,
      without [tzinfo]; the calendar arithmetic follows the reference
      implementation of the [datetime] module (proleptic Gregorian
      ordinals, years 1 to 9999).  Parsing covers the formats the command
      line documents, [YYYY-MM-DD] and [HH:MM] or [HH:MM:SS]; the library
      accepts more (basic formats, fractions of a second, UTC offsets), on
      which the model's parser returns [None].  Properties that depend on
      what is parsed state it as a hypothesis on the model's parser.
    - The wall clock is an oracle [nat -> datetime]: the [i]-th call of
      [datetime.now()] / [datetime.today()] of a process returns
      [clock i].
    - Exceptions are explicit: a computation returns [Ok v] or [Raise e]
      together with the state reached when the exception was raised.
    - The source needs Python 3.12 (its f-strings nest quotes), where
      [x in EnumClass] is [False] for a string that is no member value. *)

From stdpp Require Import gmap strings list fin_maps.
From Stdlib Require Import ZArith QArith Qround Qabs String Ascii List Lia Lqa.
Import ListNotations.

Local Open Scope string_scope.
Local Open Scope Z_scope.

(** ** The [datetime] library: calendar arithmetic *)

Module Calendar.

Definition MINYEAR : Z := 1.
Definition MAXYEAR : Z := 9999.
Definition MAXORDINAL : Z := 3652059.

Definition DAYS_IN_MONTH (month : Z) : Z :=
  match month with
  | 1 => 31 | 2 => 28 | 3 => 31 | 4 => 30 | 5 => 31 | 6 => 30
  | 7 => 31 | 8 => 31 | 9 => 30 | 10 => 31 | 11 => 30 | 12 => 31
  | _ => -1
  end.

Definition DAYS_BEFORE_MONTH (month : Z) : Z :=
  match month with
  | 1 => 0 | 2 => 31 | 3 => 59 | 4 => 90 | 5 => 120 | 6 => 151
  | 7 => 181 | 8 => 212 | 9 => 243 | 10 => 273 | 11 => 304 | 12 => 334
  | _ => -1
  end.

Definition is_leap (year : Z) : bool :=
  (year mod 4 =? 0) && (negb (year mod 100 =? 0) || (year mod 400 =? 0)).

Definition days_before_year (year : Z) : Z :=
  let y := year - 1 in y * 365 + y / 4 - y / 100 + y / 400.

Definition days_in_month (year month : Z) : Z :=
  if (month =? 2) && is_leap year then 29 else DAYS_IN_MONTH month.

Definition days_before_month (year month : Z) : Z :=
  DAYS_BEFORE_MONTH month + (if (2 <? month) && is_leap year then 1 else 0).

Definition ymd2ord (year month day : Z) : Z :=
  days_before_year year + days_before_month year month + day.

Definition DI400Y : Z := 146097.
Definition DI100Y : Z := 36524.
Definition DI4Y : Z := 1461.

Definition ord2ymd (ordinal : Z) : Z * Z * Z :=
  let n := ordinal - 1 in
  let n400 := n / DI400Y in
  let n := n mod DI400Y in
  let year := n400 * 400 + 1 in
  let n100 := n / DI100Y in
  let n := n mod DI100Y in
  let n4 := n / DI4Y in
  let n := n mod DI4Y in
  let n1 := n / 365 in
  let n := n mod 365 in
  let year := year + (n100 * 100 + n4 * 4 + n1) in
  if (n1 =? 4) || (n100 =? 4) then (year - 1, 12, 31)
  else
    let leapyear := (n1 =? 3) && (negb (n4 =? 24) || (n100 =? 3)) in
    let month := Z.shiftr (n + 50) 5 in
    let preceding :=
      DAYS_BEFORE_MONTH month + (if (2 <? month) && leapyear then 1 else 0) in
    if n <? preceding then
      let month := month - 1 in
      let preceding :=
        preceding
        - (DAYS_IN_MONTH month + (if (month =? 2) && leapyear then 1 else 0)) in
      (year, month, n - preceding + 1)
    else (year, month, n - preceding + 1).

(** [datetime.datetime] (naive: the program strips or never sets tzinfo). *)
Record datetime : Type := mkDatetime {
  year : Z; month : Z; day : Z;
  hour : Z; minute : Z; second : Z; microsecond : Z
}.

Definition valid_date (y m d : Z) : bool :=
  (MINYEAR <=? y) && (y <=? MAXYEAR) && (1 <=? m) && (m <=? 12)
  && (1 <=? d) && (d <=? days_in_month y m).

Definition valid_time (h mi s us : Z) : bool :=
  (0 <=? h) && (h <? 24) && (0 <=? mi) && (mi <? 60)
  && (0 <=? s) && (s <? 60) && (0 <=? us) && (us <? 1000000).

Definition valid_datetime (t : datetime) : bool :=
  valid_date (year t) (month t) (day t)
  && valid_time (hour t) (minute t) (second t) (microsecond t).

Definition toordinal (t : datetime) : Z := ymd2ord (year t) (month t) (day t).

(** Seconds since midnight. *)
Definition seconds_of_day (t : datetime) : Z :=
  second t + minute t * 60 + hour t * 3600.

(** [datetime.timedelta], normalised as its constructor does:
    [0 <= microseconds < 10^6] and [0 <= seconds < 86400]; [days] carries
    the sign. *)
Record timedelta : Type := mkTimedelta {
  days : Z; seconds : Z; microseconds : Z
}.

Definition timedelta_new (d s us : Z) : timedelta :=
  let s := s + us / 1000000 in
  let us := us mod 1000000 in
  let d := d + s / 86400 in
  let s := s mod 86400 in
  mkTimedelta d s us.

(** [a - b] for two datetimes. *)
Definition datetime_sub (a b : datetime) : timedelta :=
  timedelta_new (toordinal a - toordinal b)
                (seconds_of_day a - seconds_of_day b)
                (microsecond a - microsecond b).

(** [t - timedelta(days=k)]: [None] stands for [OverflowError]
    (date value out of range). *)
Definition datetime_sub_days (t : datetime) (k : Z) : option datetime :=
  let delta :=
    timedelta_new (toordinal t - k) (seconds_of_day t) (microsecond t) in
  let h := seconds delta / 3600 in
  let rem := seconds delta mod 3600 in
  if (0 <? days delta) && (days delta <=? MAXORDINAL) then
    let '(y, m, d) := ord2ymd (days delta) in
    Some (mkDatetime y m d h (rem / 60) (rem mod 60) (microseconds delta))
  else None.

(** [weekday()]: Monday is 0. *)
Definition weekday (t : datetime) : Z := (toordinal t + 6) mod 7.

(** Microseconds since the start of day 0 of the proleptic calendar: the
    position of [t] on the time line. *)
Definition abs_us (t : datetime) : Z :=
  (toordinal t * 86400 + seconds_of_day t) * 1000000 + microsecond t.

End Calendar.

(** ** The [datetime] library: formatting and parsing *)

Module Format.
Import Calendar.

Definition digit_char (d : Z) : ascii := ascii_of_nat (48 + Z.to_nat d).

Definition digit_val (c : ascii) : option Z :=
  let n := Z.of_nat (nat_of_ascii c) in
  if (48 <=? n) && (n <=? 57) then Some (n - 48) else None.

Definition two_digits (n : Z) : string :=
  String (digit_char (n / 10 mod 10)) (String (digit_char (n mod 10)) "").

Definition four_digits (n : Z) : string :=
  String (digit_char (n / 1000 mod 10))
    (String (digit_char (n / 100 mod 10)) (two_digits n)).

(** [t.strftime("%Y-%m-%d")] (years are written with four digits). *)
Definition strftime_Ymd (t : datetime) : string :=
  four_digits (year t) +:+ "-" +:+ two_digits (month t) +:+ "-"
  +:+ two_digits (day t).

(** [t.strftime("%H:%M")]. *)
Definition strftime_HM (t : datetime) : string :=
  two_digits (hour t) +:+ ":" +:+ two_digits (minute t).

(** [t.strftime("%a")] in the C locale. *)
Definition strftime_a (t : datetime) : string :=
  match weekday t with
  | 0 => "Mon" | 1 => "Tue" | 2 => "Wed" | 3 => "Thu"
  | 4 => "Fri" | 5 => "Sat" | _ => "Sun"
  end.

Definition parse2 (a b : ascii) : option Z :=
  match digit_val a, digit_val b with
  | Some x, Some y => Some (x * 10 + y)
  | _, _ => None
  end.

Definition parse4 (a b c d : ascii) : option Z :=
  match parse2 a b, parse2 c d with
  | Some x, Some y => Some (x * 100 + y)
  | _, _ => None
  end.

Definition dash : ascii := "-"%char.
Definition colon : ascii := ":"%char.

(** The time part [HH:MM] or [HH:MM:SS]. *)
Definition parse_time (s : string) : option (Z * Z * Z) :=
  match s with
  | String h1 (String h2 (String c1 (String m1 (String m2 rest)))) =>
      if Ascii.eqb c1 colon then
        match parse2 h1 h2, parse2 m1 m2 with
        | Some h, Some mi =>
            match rest with
            | EmptyString => Some (h, mi, 0)
            | String c2 (String s1 (String s2 EmptyString)) =>
                if Ascii.eqb c2 colon then
                  match parse2 s1 s2 with
                  | Some sec => Some (h, mi, sec)
                  | None => None
                  end
                else None
            | _ => None
            end
        | _, _ => None
        end
      else None
  | _ => None
  end.

(** [datetime.fromisoformat] on the formats the command line documents:
    [YYYY-MM-DD], optionally followed by one separator character and
    [HH:MM] or [HH:MM:SS].  [None] stands for [ValueError]; the other
    ISO 8601 spellings the library accepts are not modelled and are
    rejected here. *)
Definition fromisoformat (s : string) : option datetime :=
  match s with
  | String y1 (String y2 (String y3 (String y4 (String d1
      (String m1 (String m2 (String d2 (String a1 (String a2 rest))))))))) =>
      if Ascii.eqb d1 dash && Ascii.eqb d2 dash then
        match parse4 y1 y2 y3 y4, parse2 m1 m2, parse2 a1 a2 with
        | Some y, Some m, Some d =>
            if valid_date y m d then
              match rest with
              | EmptyString => Some (mkDatetime y m d 0 0 0 0)
              | String _ tm =>
                  match parse_time tm with
                  | Some (h, mi, sec) =>
                      if valid_time h mi sec 0
                      then Some (mkDatetime y m d h mi sec 0)
                      else None
                  | None => None
                  end
              end
            else None
        | _, _, _ => None
        end
      else None
  | _ => None
  end.

End Format.

(** ** Python built-ins *)

(** [round(x)] on a float: the nearest integer, ties to the even one. *)
Definition py_round (x : Q) : Z :=
  let f := Qfloor x in
  match Qcompare (x - inject_Z f) (1 # 2) with
  | Lt => f
  | Gt => f + 1
  | Eq => if Z.even f then f else f + 1
  end.

(** Truth value of a float: non-zero. *)
Definition float_truthy (x : Q) : bool := negb (Qeq_bool x 0).

(** Truth value of an optional string argument: neither [None] nor [""]. *)
Definition str_truthy (o : option string) : bool :=
  match o with
  | Some (String _ _) => true
  | _ => false
  end.

(** ** The data model *)

Inductive BookingCategory : Type :=
  VACATION | SICK | HOLIDAY | MOBILE | OFFICE.

Definition category_value (c : BookingCategory) : string :=
  match c with
  | VACATION => "VACATION" | SICK => "SICK" | HOLIDAY => "HOLIDAY"
  | MOBILE => "MOBILE" | OFFICE => "OFFICE"
  end.

(** [v in BookingCategory] for a string [v]: [v] is the value of a member. *)
Definition in_BookingCategory (v : string) : bool :=
  existsb (fun c => String.eqb v (category_value c))
          [VACATION; SICK; HOLIDAY; MOBILE; OFFICE].

Record Booking : Type := mkBooking {
  checkin_timestamp : option Calendar.datetime;
  checkout_timestamp : option Calendar.datetime;
  pause : Q;
  productive_time : Q;
  category : BookingCategory;
  description : option string
}.

(** [Booking()]: the field defaults of the dataclass. *)
Definition Booking_new : Booking :=
  mkBooking None None (1 # 2) 0 MOBILE None.

(** The settings document [keeper_settings.json]; a key may be missing. *)
Record Settings : Type := mkSettings {
  json_keeper_file : option string;
  json_contracted_working_hours : option Q;
  json_default_pause_length : option Q
}.

Definition default_settings : Settings :=
  mkSettings (Some "keeper.json") (Some 8%Q) (Some (1 # 2)).

(** What [print] writes to standard output. *)
Inductive Cell : Type :=
| CStr (s : string)
| CNum (x : Q)
| CNone.

Inductive Output : Type :=
| Line (s : string)
| Table (rows : list (list Cell)).

(** The part of the world that outlives a process: the settings document,
    the store documents by path, and standard output. *)
Record World : Type := mkWorld {
  settings_doc : option Settings;
  store_docs : gmap string (gmap string Booking);
  stdout : list Output
}.

(** A running process: the world, the number of clock reads so far, and
    the attributes of the [Keeper] object. *)
Record Keeper : Type := mkKeeper {
  world : World;
  reads : nat;
  config : Settings;
  keeper_file_path : string;
  contracted_working_hours : Q;
  default_pause_length : Q;
  data : gmap string Booking;
  day_to_work_on : Calendar.datetime
}.

Definition set_world (w : World) (k : Keeper) : Keeper :=
  mkKeeper w (reads k) (config k) (keeper_file_path k)
           (contracted_working_hours k) (default_pause_length k)
           (data k) (day_to_work_on k).

Definition set_reads (n : nat) (k : Keeper) : Keeper :=
  mkKeeper (world k) n (config k) (keeper_file_path k)
           (contracted_working_hours k) (default_pause_length k)
           (data k) (day_to_work_on k).

Definition set_data (d : gmap string Booking) (k : Keeper) : Keeper :=
  mkKeeper (world k) (reads k) (config k) (keeper_file_path k)
           (contracted_working_hours k) (default_pause_length k)
           d (day_to_work_on k).

Definition set_day_to_work_on (t : Calendar.datetime) (k : Keeper) : Keeper :=
  mkKeeper (world k) (reads k) (config k) (keeper_file_path k)
           (contracted_working_hours k) (default_pause_length k)
           (data k) t.

Definition set_checkin (t : Calendar.datetime) (b : Booking) : Booking :=
  mkBooking (Some t) (checkout_timestamp b) (pause b) (productive_time b)
            (category b) (description b).

Definition set_checkout (t : Calendar.datetime) (b : Booking) : Booking :=
  mkBooking (checkin_timestamp b) (Some t) (pause b) (productive_time b)
            (category b) (description b).

Definition set_productive_time (x : Q) (b : Booking) : Booking :=
  mkBooking (checkin_timestamp b) (checkout_timestamp b) (pause b) x
            (category b) (description b).

(** ** Computations with state and exceptions *)

Inductive Exn : Type :=
  ValueError | TypeError | AttributeError | OverflowError.

Inductive Result (A : Type) : Type :=
| Ok (a : A)
| Raise (e : Exn).
Arguments Ok {A} a.
Arguments Raise {A} e.

Definition M (A : Type) : Type := Keeper -> Result A * Keeper.

Definition ret {A} (a : A) : M A := fun k => (Ok a, k).

Definition bind {A B} (m : M A) (f : A -> M B) : M B :=
  fun k =>
    match m k with
    | (Ok a, k') => f a k'
    | (Raise e, k') => (Raise e, k')
    end.

Definition raise {A} (e : Exn) : M A := fun k => (Raise e, k).

Definition get : M Keeper := fun k => (Ok k, k).

Definition modify (f : Keeper -> Keeper) : M unit := fun k => (Ok tt, f k).

(** An optional library result, [None] raising [e]. *)
Definition lift {A} (e : Exn) (o : option A) : M A :=
  match o with
  | Some a => ret a
  | None => raise e
  end.

Declare Scope keeper_scope.
Delimit Scope keeper_scope with keeper.
Notation "x <- m ;; f" := (bind m (fun x => f))
  (at level 100, m at next level, f at level 200, right associativity)
  : keeper_scope.
Notation "m ;;; f" := (bind m (fun _ => f))
  (at level 100, f at level 200, right associativity) : keeper_scope.
Local Open Scope keeper_scope.

Definition print (o : Output) : M unit :=
  modify (fun k =>
    set_world (mkWorld (settings_doc (world k)) (store_docs (world k))
                       (stdout (world k) ++ [o])) k).

(** ** The program *)

Section Program.

(** The wall clock of the process: reading number [i] returns [clock i]. *)
Variable clock : nat -> Calendar.datetime.

(** [datetime.datetime.now()], also [datetime.datetime.today()]. *)
Definition now : M Calendar.datetime :=
  fun k => (Ok (clock (reads k)), set_reads (S (reads k)) k).

(** [Keeper.quarter_round(x, base)]; every caller leaves [base] at its
    default, 0.25. *)
Definition quarter_round_base (x base : Q) : Q :=
  (base * inject_Z (py_round (x / base)))%Q.

Definition quarter_round (x : Q) : Q := quarter_round_base x (1 # 4).

(** The largest finite float, [(2 - 2^-52) * 2^1023]. *)
Definition FLOAT_MAX : Z := 2 ^ 1024 - 2 ^ 971.

(** [Keeper.quarter_round(x)] as the call it is.  The quotient [x / base]
    is a float: once it passes the largest finite float it is infinite, and
    [round] of an infinite float raises [OverflowError].  Within that range
    the call returns [quarter_round x]. *)
Definition quarter_round_call (x : Q) : Result Q :=
  if Qle_bool (Qabs (x / (1 # 4))) (inject_Z FLOAT_MAX)
  then Ok (quarter_round x)
  else Raise OverflowError.

(** [difference.seconds / 60 / 60]. *)
Definition seconds_as_hours (difference : Calendar.timedelta) : Q :=
  (inject_Z (Calendar.seconds difference) / 60 / 60)%Q.

(** [Keeper.__save_data]: the whole mapping is rewritten. *)
Definition save_data : M unit :=
  modify (fun k =>
    set_world (mkWorld (settings_doc (world k))
                       (<[keeper_file_path k := data k]> (store_docs (world k)))
                       (stdout (world k))) k).

Definition header : list Cell :=
  [CStr "DAY"; CStr "DATE"; CStr "IN"; CStr "OUT"; CStr "PROD TIME";
   CStr "PAUSE"; CStr "CATEGORY"; CStr "DESCRIPTION"].

Definition placeholder : Cell := CStr "---".

(** The body of the loop of [Keeper.print_table] for one key. *)
Definition table_row (key : string) : M (list Cell) :=
  k <- get ;;
  match data k !! key with
  | Some day =>
      productive_time_value <-
        (if float_truthy (productive_time day) then ret (productive_time day)
         else
           t <- now ;;
           match checkin_timestamp day with
           | Some ci =>
               let difference := Calendar.datetime_sub t ci in
               ret (quarter_round (seconds_as_hours difference) - pause day)%Q
           | None => raise TypeError
           end) ;;
      match checkin_timestamp day with
      | Some ci =>
          ret [CStr (Format.strftime_a ci); CStr key;
               CStr (Format.strftime_HM ci);
               CStr (match checkout_timestamp day with
                     | Some co => Format.strftime_HM co
                     | None => ""
                     end);
               CNum productive_time_value; CNum (pause day);
               CStr (category_value (category day));
               match description day with
               | Some s => CStr s
               | None => CNone
               end]
      | None => raise AttributeError
      end
  | None =>
      d <- lift ValueError (Format.fromisoformat key) ;;
      ret [CStr (Format.strftime_a d); CStr key; placeholder; placeholder;
           placeholder; placeholder; placeholder; placeholder]
  end.

Fixpoint table_rows (keys : list string) (table : list (list Cell))
  : M (list (list Cell)) :=
  match keys with
  | [] => ret table
  | key :: keys' =>
      row <- table_row key ;;
      table_rows keys' (table ++ [row])
  end.

(** [Keeper.print_table]: nothing is printed before every row is built. *)
Definition print_table (keys : list string) : M unit :=
  table <- table_rows keys [header] ;;
  print (Table table).

(** [Keeper.__check]. *)
Definition check (checkin : bool) (booking_time : option string) : M unit :=
  k <- get ;;
  let key := Format.strftime_Ymd (day_to_work_on k) in
  booking_date <-
    (if str_truthy booking_time then
       lift ValueError
         (Format.fromisoformat
            (key +:+ " " +:+ default "" booking_time))
     else ret (day_to_work_on k)) ;;
  let booking :=
    match data k !! key with
    | Some b => b
    | None => Booking_new
    end in
  let booking :=
    if checkin then set_checkin booking_date booking
    else set_checkout booking_date booking in
  let booking :=
    match checkin_timestamp booking, checkout_timestamp booking with
    | Some ci, Some co =>
        let difference := Calendar.datetime_sub co ci in
        set_productive_time
          (quarter_round (seconds_as_hours difference)
           - default_pause_length k)%Q booking
    | _, _ => booking
    end in
  modify (set_data (<[key := booking]> (data k))) ;;;
  save_data ;;;
  print_table [key].

(** [range(days)]. *)
Definition range (n : Z) : list Z := map Z.of_nat (seq 0 (Z.to_nat n)).

(** The loop of [Keeper.generate_day_keys]; the clock is read again in
    every iteration. *)
Fixpoint day_keys_loop (rng : list Z) (key_list : list string)
  : M (list string) :=
  match rng with
  | [] => ret key_list
  | day :: rng' =>
      t <- now ;;
      d <- lift OverflowError (Calendar.datetime_sub_days t day) ;;
      day_keys_loop rng' (key_list ++ [Format.strftime_Ymd d])
  end.

(** [Keeper.generate_day_keys]. *)
Definition generate_day_keys (days : Z) : M (list string) :=
  day_keys_loop (range days) [].

(** The parsed command line ([argparse.Namespace]). *)
Record Args : Type := mkArgs {
  arg_category : option string;
  arg_date : option string;
  arg_checkin : bool;
  arg_checkin_at : option string;
  arg_checkout : bool;
  arg_checkout_at : option string;
  arg_today : bool;
  arg_week : bool;
  arg_month : bool
}.

(** One [if flag: parameter = True; action] step of [__process_args]. *)
Definition step (flag : bool) (action : M unit) (parameter : bool) : M bool :=
  if flag then action ;;; ret true else ret parameter.

(** [Keeper.__process_args]. *)
Definition process_args (args : Args) : M unit :=
  let parameter := false in
  (if str_truthy (arg_date args) then
     d <- lift ValueError (Format.fromisoformat (default "" (arg_date args))) ;;
     modify (set_day_to_work_on d)
   else ret tt) ;;;
  parameter <- step (arg_checkin args) (check true None) parameter ;;
  parameter <- step (str_truthy (arg_checkin_at args))
                    (check true (arg_checkin_at args)) parameter ;;
  parameter <- step (arg_checkout args) (check false None) parameter ;;
  parameter <- step (str_truthy (arg_checkout_at args))
                    (check false (arg_checkout_at args)) parameter ;;
  parameter <- step (arg_today args)
                    (keys <- generate_day_keys 1 ;; print_table keys)
                    parameter ;;
  parameter <- step (arg_week args)
                    (keys <- generate_day_keys 7 ;; print_table keys)
                    parameter ;;
  parameter <- step (arg_month args)
                    (keys <- generate_day_keys 30 ;; print_table keys)
                    parameter ;;
  parameter <- step (str_truthy (arg_category args))
                    (let c := default "" (arg_category args) in
                     if negb (in_BookingCategory c)
                     then print (Line ("Unknown value: " +:+ c))
                     else print (Line c))
                    parameter ;;
  if negb parameter
  then print (Line "No parameter set. Please use '--help' for more information.")
  else ret tt.

(** [Keeper.__load_config]: the settings document is created with the
    defaults when it is missing. *)
Definition load_config (w : World) : Settings * World :=
  match settings_doc w with
  | Some s => (s, w)
  | None =>
      (default_settings,
       mkWorld (Some default_settings) (store_docs w) (stdout w))
  end.

(** [Keeper.__load_data]: an empty store document is created when it is
    missing. *)
Definition load_data (path : string) (w : World)
  : gmap string Booking * World :=
  match store_docs w !! path with
  | Some d => (d, w)
  | None => (∅, mkWorld (settings_doc w) (<[path := ∅]> (store_docs w))
                        (stdout w))
  end.

(** [Keeper.__init__] up to the call of [__process_args]. *)
Definition init (w : World) : Keeper :=
  let '(cfg, w) := load_config w in
  let path := default "keeper.json" (json_keeper_file cfg) in
  let cwh := default 8%Q (json_contracted_working_hours cfg) in
  let dpl := default (1 # 2)%Q (json_default_pause_length cfg) in
  let '(d, w) := load_data path w in
  mkKeeper w 1 cfg path cwh dpl d (clock 0).

(** One run of the program: [Keeper(parser.parse_args())]. *)
Definition run (args : Args) (w : World) : Result unit * World :=
  let '(r, k) := process_args args (init w) in (r, world k).

End Program.

(** The world before the first run: no document exists. *)
Definition empty_world : World := mkWorld None ∅ [].

(** Successive runs of the program, each with its own clock and command
    line; a run that raises leaves the world as it was at that point. *)
Fixpoint runs (l : list ((nat -> Calendar.datetime) * Args)) (w : World)
  : World :=
  match l with
  | [] => w
  | (clock, args) :: l' => runs l' (snd (run clock args w))
  end.

(** ** Definitions used to state and prove the properties *)

Module Aux.
Import Calendar.

(** The month and day that [ord2ymd] derives from the zero-based day of the
    year [n]. *)
Definition month_day (leapyear : bool) (n : Z) : Z * Z :=
  let month := Z.shiftr (n + 50) 5 in
  let preceding :=
    DAYS_BEFORE_MONTH month + (if (2 <? month) && leapyear then 1 else 0) in
  if n <? preceding then
    let month := month - 1 in
    let preceding :=
      preceding
      - (DAYS_IN_MONTH month + (if (month =? 2) && leapyear then 1 else 0)) in
    (month, n - preceding + 1)
  else (month, n - preceding + 1).

Definition month_day_good (leapyear : bool) (n : Z) : bool :=
  let '(m, d) := month_day leapyear n in
  (1 <=? m) && (m <=? 12) && (1 <=? d)
  && (d <=? DAYS_IN_MONTH m + (if (m =? 2) && leapyear then 1 else 0))
  && (DAYS_BEFORE_MONTH m + (if (2 <? m) && leapyear then 1 else 0) + d
      =? n + 1).


(** [frame k k']: going from [k] to [k'] leaves the record store, the
    documents and the attributes of the object alone; only the clock and
    standard output may have advanced. *)
Definition frame (k k' : Keeper) : Prop :=
  data k' = data k
  /\ store_docs (world k') = store_docs (world k)
  /\ settings_doc (world k') = settings_doc (world k)
  /\ day_to_work_on k' = day_to_work_on k
  /\ default_pause_length k' = default_pause_length k
  /\ keeper_file_path k' = keeper_file_path k.

(** A computation that keeps the frame, whatever its outcome. *)
Definition preserves {A} (m : M A) : Prop := forall k, frame k (snd (m k)).

(** A computation that only reads the clock: it changes nothing but the
    number of clock reads. *)
Definition quiet {A} (m : M A) : Prop :=
  forall k, exists n, snd (m k) = set_reads n k.

(** The timestamp [__check] books: the explicit time on the day to work on,
    or the day to work on itself. *)
Definition booking_date_of (k : Keeper) (booking_time : option string)
  : option datetime :=
  if str_truthy booking_time then
    Format.fromisoformat
      (Format.strftime_Ymd (day_to_work_on k) +:+ " "
       +:+ default "" booking_time)
  else Some (day_to_work_on k).

(** The booking [__check] stores for the timestamp [t]. *)
Definition booked (k : Keeper) (checkin : bool) (t : datetime) : Booking :=
  let booking :=
    match data k !! Format.strftime_Ymd (day_to_work_on k) with
    | Some b => b
    | None => Booking_new
    end in
  let booking :=
    if checkin then set_checkin t booking else set_checkout t booking in
  match checkin_timestamp booking, checkout_timestamp booking with
  | Some ci, Some co =>
      set_productive_time
        (quarter_round (seconds_as_hours (datetime_sub co ci))
         - default_pause_length k)%Q booking
  | _, _ => booking
  end.

(** The process after [__check] has stored and saved the booking, before it
    renders the table. *)
Definition checked (k : Keeper) (checkin : bool) (t : datetime) : Keeper :=
  let d := <[Format.strftime_Ymd (day_to_work_on k) := booked k checkin t]>
             (data k) in
  set_world (mkWorld (settings_doc (world k))
                     (<[keeper_file_path k := d]> (store_docs (world k)))
                     (stdout (world k)))
            (set_data d k).

(** The day-key of the day with ordinal [o]. *)
Definition day_key (o : Z) : string :=
  let '(y, m, d) := ord2ymd o in
  Format.strftime_Ymd (mkDatetime y m d 0 0 0 0).

(** Whole seconds elapsed on the time line from [a] to [b] (negative when
    [b] is earlier). *)
Definition elapsed_seconds (a b : datetime) : Z :=
  (abs_us b - abs_us a) / 1000000.

(** The hours between [a] and [b] as the specification words it: the signed
    length of the interval from [a] to [b], in hours. *)
Definition hours_between (a b : datetime) : Q :=
  (inject_Z (abs_us b - abs_us a) / 3600000000)%Q.

(** Two datetimes on the same calendar day. *)
Definition same_date (a b : datetime) : Prop :=
  year a = year b /\ month a = month b /\ day a = day b.

(** The invariant of a booking: a productive time other than zero needs
    both timestamps. *)
Definition booking_inv (b : Booking) : Prop :=
  ~ (productive_time b == 0)%Q ->
  is_Some (checkin_timestamp b) /\ is_Some (checkout_timestamp b).

Definition store_inv (d : gmap string Booking) : Prop :=
  forall key b, d !! key = Some b -> booking_inv b.

(** Every store document of the world satisfies the invariant. *)
Definition world_inv (w : World) : Prop :=
  forall path d, store_docs w !! path = Some d -> store_inv d.

Definition keeper_inv (k : Keeper) : Prop :=
  store_inv (data k) /\ world_inv (world k).

(** A computation that maintains the invariant, whatever its outcome. *)
Definition keeps {A} (m : M A) : Prop :=
  forall k, keeper_inv k -> keeper_inv (snd (m k)).

(** The command line [a] with [--category] replaced. *)
Definition with_category (c : option string) (a : Args) : Args :=
  mkArgs c (arg_date a) (arg_checkin a) (arg_checkin_at a) (arg_checkout a)
         (arg_checkout_at a) (arg_today a) (arg_week a) (arg_month a).

(** Two outcomes that agree on everything but standard output and the
    clock. *)
Definition same_store (x y : Result unit * Keeper) : Prop :=
  fst x = fst y
  /\ data (snd x) = data (snd y)
  /\ store_docs (world (snd x)) = store_docs (world (snd y))
  /\ settings_doc (world (snd x)) = settings_doc (world (snd y)).

(** A command line that asks for one check-in or check-out, with or
    without [--date]. *)
Definition one_check (date : option string) (checkin : bool)
           (booking_time : option string) : Args :=
  mkArgs None date
         (checkin && negb (str_truthy booking_time))
         (if checkin then booking_time else None)
         (negb checkin && negb (str_truthy booking_time))
         (if checkin then None else booking_time)
         false false false.

(** The command lines of the end-to-end scenario of the specification. *)
Definition scenario_in : Args :=
  mkArgs None (Some "2024-01-10") false (Some "09:00") false None
         false false false.
Definition scenario_out : Args :=
  mkArgs None (Some "2024-01-10") false None false (Some "17:30")
         false false false.

(** A predicate on processes that a computation keeps, whatever its
    outcome. *)
Definition keeping {A} (I : Keeper -> Prop) (m : M A) : Prop :=
  forall k, I k -> I (snd (m k)).

(** A predicate on processes that depends on the framed part only. *)
Definition framed (I : Keeper -> Prop) : Prop :=
  forall k k', frame k k' -> I k -> I k'.

(** The process once [__process_args] has taken [--date] into account. *)
Definition resolved (args : Args) (k : Keeper) : Keeper :=
  if str_truthy (arg_date args) then
    match Format.fromisoformat (default "" (arg_date args)) with
    | Some d => set_day_to_work_on d k
    | None => k
    end
  else k.

(** A command line asks for a check-in or a check-out. *)
Definition books (args : Args) : bool :=
  arg_checkin args || str_truthy (arg_checkin_at args)
  || arg_checkout args || str_truthy (arg_checkout_at args).

(** A rational is a whole number of quarters. *)
Definition quarter_multiple (x : Q) : Prop :=
  exists n : Z, (x == inject_Z n * (1 # 4))%Q.

(** Every booking of a store, with its key, satisfies [P]; and so for
    every store document of a world. *)
Definition store_all (P : string -> Booking -> Prop)
           (d : gmap string Booking) : Prop :=
  forall key b, d !! key = Some b -> P key b.

Definition world_all (P : string -> Booking -> Prop) (w : World) : Prop :=
  forall path d, store_docs w !! path = Some d -> store_all P d.

(** The timestamps of a booking lie on the day of its key. *)
Definition on_key_day (key : string) (b : Booking) : Prop :=
  forall t, checkin_timestamp b = Some t \/ checkout_timestamp b = Some t ->
            Format.strftime_Ymd t = key.

(** A key that [print_table] can render in the process [k]: its booking
    has a check-in, or it has no booking and parses as a date. *)
Definition renderable (k : Keeper) (key : string) : Prop :=
  match data k !! key with
  | Some day => is_Some (checkin_timestamp day)
  | None => is_Some (Format.fromisoformat key)
  end.

(** The row of a day without a booking. *)
Definition placeholder_row (key : string) (d : datetime) : list Cell :=
  [CStr (Format.strftime_a d); CStr key; placeholder; placeholder;
   placeholder; placeholder; placeholder; placeholder].

(** The notice for a command line without a parameter. *)
Definition notice : Output :=
  Line "No parameter set. Please use '--help' for more information.".

End Aux.

(** ** Sample clocks and command lines *)

Module Sample.
Import Calendar.

(** A clock that stands at noon of 2024-01-10. *)
Definition clock_noon (i : nat) : datetime := mkDatetime 2024 1 10 12 0 0 0.

(** A clock that stands in the afternoon of 2024-03-05. *)
Definition clock_march (i : nat) : datetime :=
  mkDatetime 2024 3 5 14 22 10 123456.

(** The morning of 2024-01-09 and the afternoon of the next day. *)
Definition clock_jan9 (i : nat) : datetime := mkDatetime 2024 1 9 9 0 0 0.
Definition clock_jan10 (i : nat) : datetime := mkDatetime 2024 1 10 15 0 0 0.

(** A clock that passes midnight after its second reading. *)
Definition clock_midnight (i : nat) : datetime :=
  if (i <=? 1)%nat then mkDatetime 2024 1 10 23 59 59 999999
  else mkDatetime 2024 1 11 0 0 0 1.

Definition checkin_now : Args :=
  mkArgs None None true None false None false false false.
Definition checkout_now : Args :=
  mkArgs None None false None true None false false false.
Definition week : Args :=
  mkArgs None None false None false None false true false.

(** [--date 2024-01-10 --checkin]. *)
Definition checkin_dated : Args :=
  mkArgs None (Some "2024-01-10") true None false None false false false.

(** A check-in at 17:30 followed by a check-out at 09:00. *)
Definition late_in : Args :=
  mkArgs None (Some "2024-01-10") false (Some "17:30") false None
         false false false.
Definition early_out : Args :=
  mkArgs None (Some "2024-01-10") false None false (Some "09:00")
         false false false.

(** The process at its start in the empty world, at noon of 2024-01-10. *)
Definition k0 : Keeper := init clock_noon empty_world.

(** The same process after a check-in at 09:00, and after the check-out at
    17:30 that follows. *)
Definition k1 : Keeper := snd (check clock_noon true (Some "09:00") k0).
Definition k2 : Keeper := snd (check clock_noon false (Some "17:30") k1).

(** The process after a check-in at 17:30 instead. *)
Definition k_late : Keeper := snd (check clock_noon true (Some "17:30") k0).

(** The world after the end-to-end scenario of the specification, and the
    booking it holds for 2024-01-10. *)
Definition w2 : World :=
  runs [(clock_noon, Aux.scenario_in); (clock_noon, Aux.scenario_out)]
       empty_world.
Definition b2 : Booking :=
  mkBooking (Some (mkDatetime 2024 1 10 9 0 0 0))
            (Some (mkDatetime 2024 1 10 17 30 0 0))
            (1 # 2) (64 # 8) MOBILE None.

(** [--date 2024-01-10] and nothing else. *)
Definition date_only : Args :=
  mkArgs None (Some "2024-01-10") false None false None false false false.

End Sample.

(** * Properties *)

(** ** Rounding *)

Section Rounding.
Local Open Scope Q_scope.

Lemma py_round_cases (x : Q) :
  let d := x - inject_Z (Qfloor x) in
  0 <= d < 1 /\
  ((d < 1 # 2 /\ py_round x = Qfloor x)
   \/ (1 # 2 < d /\ py_round x = (Qfloor x + 1)%Z)
   \/ (d == 1 # 2 /\ py_round x = Qfloor x /\ Z.even (Qfloor x) = true)
   \/ (d == 1 # 2 /\ py_round x = (Qfloor x + 1)%Z
       /\ Z.even (Qfloor x) = false)).
Proof.
  intros d. subst d.
  pose proof (Qfloor_le x) as Hlo. pose proof (Qlt_floor x) as Hhi.
  rewrite inject_Z_plus in Hhi. change (inject_Z 1) with 1 in Hhi.
  split; [lra|].
  unfold py_round.
  destruct (Qcompare_spec (x - inject_Z (Qfloor x)) (1 # 2)) as [He|Hl|Hg].
  - destruct (Z.even (Qfloor x)) eqn:Ev; auto 6.
  - auto.
  - auto.
Qed.

Lemma py_round_close (x : Q) : Qabs (inject_Z (py_round x) - x) <= 1 # 2.
Proof.
  destruct (py_round_cases x) as [Hd [[H1 ->]|[[H1 ->]|[[H1 [-> _]]|[H1 [-> _]]]]]];
    try rewrite inject_Z_plus; change (inject_Z 1) with 1;
    apply Qabs_Qle_condition; split; lra.
Qed.

Lemma Qfloor_inject_Z (n : Z) : Qfloor (inject_Z n) = n.
Proof. unfold Qfloor, inject_Z. apply Z.div_1_r. Qed.

Lemma py_round_inject_Z (n : Z) : py_round (inject_Z n) = n.
Proof.
  unfold py_round. rewrite Qfloor_inject_Z.
  destruct (Qcompare_spec (inject_Z n - inject_Z n) (1 # 2)) as [He|Hl|Hg];
    [lra | reflexivity | lra].
Qed.

Lemma py_round_Qeq (x y : Q) : x == y -> py_round x = py_round y.
Proof.
  intros H. unfold py_round.
  assert (Hf : Qfloor x = Qfloor y) by (apply Qfloor_comp; exact H).
  rewrite Hf.
  assert (Hc : (x - inject_Z (Qfloor y) ?= 1 # 2) = (y - inject_Z (Qfloor y) ?= 1 # 2)).
  { apply Qcompare_comp; [rewrite H; reflexivity | reflexivity]. }
  rewrite Hc. reflexivity.
Qed.


Lemma quarter_round_scaled (x : Q) :
  Qabs (inject_Z (py_round (x / (1 # 4))) - 4 * x) <= 1 # 2.
Proof.
  assert (E : x / (1 # 4) == 4 * x) by (field).
  pose proof (py_round_close (x / (1 # 4))) as H.
  rewrite E in H at 2. exact H.
Qed.

Lemma quarter_round_multiple (x : Q) :
  quarter_round x == inject_Z (py_round (x / (1 # 4))) * (1 # 4).
Proof. unfold quarter_round, quarter_round_base. ring. Qed.

Lemma quarter_round_Qeq (x y : Q) :
  x == y -> quarter_round x = quarter_round y.
Proof.
  intros H. unfold quarter_round, quarter_round_base.
  rewrite (py_round_Qeq (x / (1 # 4)) (y / (1 # 4))); [reflexivity|].
  now rewrite H.
Qed.

Lemma quarter_round_of_multiple (n : Z) :
  quarter_round (inject_Z n * (1 # 4)) = ((1 # 4) * inject_Z n).
Proof.
  unfold quarter_round, quarter_round_base.
  rewrite (py_round_Qeq (inject_Z n * (1 # 4) / (1 # 4)) (inject_Z n)) by field.
  now rewrite py_round_inject_Z.
Qed.

Lemma Qabs_int_lt_1 (a b : Z) :
  Qabs (inject_Z a - inject_Z b) < 1 -> a = b.
Proof.
  intros H. apply Qabs_Qlt_condition in H. destruct H as [H1 H2].
  assert (Ha : inject_Z a < inject_Z (b + 1)).
  { rewrite inject_Z_plus. change (inject_Z 1) with 1. lra. }
  assert (Hb : inject_Z b < inject_Z (a + 1)).
  { rewrite inject_Z_plus. change (inject_Z 1) with 1. lra. }
  rewrite <- Zlt_Qlt in Ha, Hb. lia.
Qed.

(** The value [quarter_round x] is a multiple of 0.25, it lies within 0.125
    of [x], no multiple of 0.25 is nearer to [x], and rounding it again
    gives it back. *)
Lemma quarter_round_nearest (x : Q) :
  (exists n : Z, quarter_round x == inject_Z n * (1 # 4))
  /\ Qabs (quarter_round x - x) <= 1 # 8
  /\ (forall m : Z,
        Qabs (quarter_round x - x) <= Qabs (inject_Z m * (1 # 4) - x))
  /\ quarter_round (quarter_round x) == quarter_round x.
Proof.
  pose proof (quarter_round_scaled x) as Hs.
  pose proof (quarter_round_multiple x) as Hm.
  set (n := py_round (x / (1 # 4))) in *.
  assert (Hclose : Qabs (quarter_round x - x) <= 1 # 8).
  { apply Qabs_Qle_condition in Hs. apply Qabs_Qle_condition.
    rewrite Hm. split; lra. }
  split; [exists n; exact Hm|]. split; [exact Hclose|]. split.
  - intros m.
    destruct (Qlt_le_dec (Qabs (inject_Z m * (1 # 4) - x))
                         (Qabs (quarter_round x - x))) as [Hlt|Hle];
      [|exact Hle].
    assert (Hmn : m = n).
    { apply Qabs_int_lt_1.
      assert (H8 : Qabs (inject_Z m * (1 # 4) - x) < 1 # 8) by lra.
      apply Qabs_Qle_condition in Hclose.
      apply Qabs_Qlt_condition in H8. rewrite Hm in Hclose.
      apply Qabs_Qlt_condition. split; lra. }
    subst m. rewrite <- Hm in Hlt. lra.
  - rewrite (quarter_round_Qeq _ _ Hm), quarter_round_of_multiple, Hm. ring.
Qed.

End Rounding.

Section RoundingOrder.
Local Open Scope Q_scope.

Lemma py_round_mono (x y : Q) : x <= y -> (py_round x <= py_round y)%Z.
Proof.
  intros Hxy.
  destruct (Z_le_gt_dec (py_round x) (py_round y)) as [H|H]; [exact H|].
  exfalso.
  destruct (py_round_cases x) as [Hx Cx]. destruct (py_round_cases y) as [Hy Cy].
  cbv zeta in *.
  assert (Hr : inject_Z (py_round y + 1) <= inject_Z (py_round x))
    by (rewrite <- Zle_Qle; lia).
  rewrite inject_Z_plus in Hr. change (inject_Z 1) with 1 in Hr.
  pose proof (py_round_close x) as Dx. pose proof (py_round_close y) as Dy.
  apply Qabs_Qle_condition in Dx, Dy.
  assert (E : x == y) by lra.
  rewrite (py_round_Qeq x y E) in H. lia.
Qed.

Lemma quarter_round_mono (x y : Q) :
  x <= y -> quarter_round x <= quarter_round y.
Proof.
  intros Hxy. unfold quarter_round, quarter_round_base.
  assert (H : (py_round (x / (1 # 4)) <= py_round (y / (1 # 4)))%Z).
  { apply py_round_mono.
    assert (Ex : x / (1 # 4) == 4 * x) by field.
    assert (Ey : y / (1 # 4) == 4 * y) by field.
    rewrite Ex, Ey. lra. }
  rewrite Zle_Qle in H. lra.
Qed.

End RoundingOrder.

Section RoundingDays.
Local Open Scope Q_scope.

Lemma Qfloor_unique (x : Q) (n : Z) :
  inject_Z n <= x -> x < inject_Z (n + 1) -> Qfloor x = n.
Proof.
  intros Hlo Hhi.
  pose proof (Qfloor_le x) as Fl. pose proof (Qlt_floor x) as Fh.
  assert (A : inject_Z n < inject_Z (Qfloor x + 1)) by lra.
  assert (B : inject_Z (Qfloor x) < inject_Z (n + 1)) by lra.
  rewrite <- Zlt_Qlt in A, B. lia.
Qed.

Lemma Qfloor_shift (x : Q) (m : Z) :
  Qfloor (x + inject_Z m) = (Qfloor x + m)%Z.
Proof.
  pose proof (Qfloor_le x) as Fl. pose proof (Qlt_floor x) as Fh.
  apply Qfloor_unique.
  - rewrite inject_Z_plus. lra.
  - rewrite !inject_Z_plus in *. lra.
Qed.

Lemma py_round_shift_even (x : Q) (m : Z) :
  py_round (x + inject_Z (2 * m)) = (py_round x + 2 * m)%Z.
Proof.
  unfold py_round. rewrite Qfloor_shift.
  assert (C : (x + inject_Z (2 * m) - inject_Z (Qfloor x + 2 * m) ?= 1 # 2)
              = (x - inject_Z (Qfloor x) ?= 1 # 2)).
  { apply Qcompare_comp; [|reflexivity]. rewrite inject_Z_plus. ring. }
  rewrite C.
  replace (Z.even (Qfloor x + 2 * m)) with (Z.even (Qfloor x)).
  - destruct (x - inject_Z (Qfloor x) ?= 1 # 2); [|lia..].
    destruct (Z.even (Qfloor x)); lia.
  - rewrite Z.even_add, Z.even_mul. cbn. now destruct (Z.even (Qfloor x)).
Qed.

(** Whole days pass through the rounding unchanged. *)
Lemma quarter_round_shift_days (x : Q) (d : Z) :
  quarter_round (x + 24 * inject_Z d) == quarter_round x + 24 * inject_Z d.
Proof.
  unfold quarter_round, quarter_round_base.
  rewrite (py_round_Qeq ((x + 24 * inject_Z d) / (1 # 4))
                        (x / (1 # 4) + inject_Z (2 * (48 * d)))).
  - rewrite py_round_shift_even, inject_Z_plus, !inject_Z_mult.
    change (inject_Z 2) with 2. change (inject_Z 48) with 48. ring.
  - rewrite !inject_Z_mult.
    change (inject_Z 2) with 2. change (inject_Z 48) with 48. field.
Qed.

(** Hours counted modulo 24 hours are the hours less the whole days. *)
Lemma hours_mod_day (e : Z) :
  inject_Z (e mod 86400) / 3600
  == inject_Z e / 3600 - 24 * inject_Z (e / 86400).
Proof.
  rewrite (Z.div_mod e 86400) at 2 by lia.
  rewrite inject_Z_plus, inject_Z_mult.
  change (inject_Z 86400) with 86400. field.
Qed.

Lemma seconds_as_hours_eq (d : Calendar.timedelta) :
  seconds_as_hours d == inject_Z (Calendar.seconds d) / 3600.
Proof. unfold seconds_as_hours. field. Qed.

End RoundingDays.

(** ** The calendar *)

Module CalendarFacts.
Import Calendar.

Lemma range_In (n i : Z) : 0 <= i < n -> In i (range n).
Proof.
  intros H. unfold range. apply in_map_iff. exists (Z.to_nat i).
  split; [lia|]. apply in_seq. lia.
Qed.

Lemma month_day_table (leapyear : bool) :
  forallb (Aux.month_day_good leapyear)
          (range (365 + (if leapyear then 1 else 0))) = true.
Proof. destruct leapyear; vm_compute; reflexivity. Qed.

Lemma month_day_ok (leapyear : bool) (n : Z) :
  0 <= n < 365 + (if leapyear then 1 else 0) ->
  Aux.month_day_good leapyear n = true.
Proof.
  intros H. pose proof (month_day_table leapyear) as T.
  rewrite forallb_forall in T. apply T, range_In, H.
Qed.

Lemma ord2ymd_unfold (o : Z) :
  ord2ymd o =
  let n := o - 1 in
  let n400 := n / DI400Y in
  let n := n mod DI400Y in
  let n100 := n / DI100Y in
  let n := n mod DI100Y in
  let n4 := n / DI4Y in
  let n := n mod DI4Y in
  let n1 := n / 365 in
  let n := n mod 365 in
  let year := n400 * 400 + 1 + (n100 * 100 + n4 * 4 + n1) in
  if (n1 =? 4) || (n100 =? 4) then (year - 1, 12, 31)
  else
    let '(m, d) :=
      Aux.month_day ((n1 =? 3) && (negb (n4 =? 24) || (n100 =? 3))) n in
    (year, m, d).
Proof.
  unfold ord2ymd, Aux.month_day. cbv zeta.
  repeat match goal with |- context [if ?b then _ else _] => destruct b end;
    reflexivity.
Qed.


Lemma is_leap_spec (y : Z) :
  is_leap y = true <-> (y mod 4 = 0 /\ (y mod 100 <> 0 \/ y mod 400 = 0)).
Proof.
  unfold is_leap.
  rewrite andb_true_iff, orb_true_iff, negb_true_iff, !Z.eqb_eq, Z.eqb_neq.
  tauto.
Qed.

Lemma days_before_year_succ (y : Z) :
  days_before_year (y + 1)
  = days_before_year y + 365 + (if is_leap y then 1 else 0).
Proof.
  pose proof (is_leap_spec y) as L.
  unfold days_before_year. cbv zeta.
  replace (y + 1 - 1) with y by lia.
  destruct (is_leap y).
  - destruct L as [L _]. specialize (L eq_refl).
    Z.div_mod_to_equations. lia.
  - assert (N : ~ (y mod 4 = 0 /\ (y mod 100 <> 0 \/ y mod 400 = 0))).
    { intros H. apply L in H. discriminate. }
    Z.div_mod_to_equations. lia.
Qed.

Lemma year_decomp (a b c e : Z) :
  0 <= b <= 3 -> 0 <= c <= 24 -> 0 <= e <= 3 ->
  let y := a * 400 + 1 + (b * 100 + c * 4 + e) in
  days_before_year y = 146097 * a + 36524 * b + 1461 * c + 365 * e
  /\ is_leap y = (e =? 3) && (negb (c =? 24) || (b =? 3)).
Proof.
  intros Hb Hc He y. subst y. split.
  - unfold days_before_year. cbv zeta. Z.div_mod_to_equations. lia.
  - apply eq_true_iff_eq. rewrite is_leap_spec.
    rewrite andb_true_iff, orb_true_iff, negb_true_iff, !Z.eqb_eq, Z.eqb_neq.
    Z.div_mod_to_equations. lia.
Qed.

Lemma ord2ymd_spec (o y m d : Z) :
  1 <= o <= MAXORDINAL ->
  ord2ymd o = (y, m, d) ->
  valid_date y m d = true /\ ymd2ord y m d = o.
Proof.
  intros Ho. rewrite ord2ymd_unfold. cbv zeta.
  unfold MAXORDINAL, DI400Y, DI100Y, DI4Y in *.
  pose proof (Z.div_mod (o - 1) 146097 ltac:(lia)) as E1.
  pose proof (Z.mod_pos_bound (o - 1) 146097 ltac:(lia)) as B1.
  set (a := (o - 1) / 146097) in *. set (r1 := (o - 1) mod 146097) in *.
  pose proof (Z.div_mod r1 36524 ltac:(lia)) as E2.
  pose proof (Z.mod_pos_bound r1 36524 ltac:(lia)) as B2.
  set (b := r1 / 36524) in *. set (r2 := r1 mod 36524) in *.
  pose proof (Z.div_mod r2 1461 ltac:(lia)) as E3.
  pose proof (Z.mod_pos_bound r2 1461 ltac:(lia)) as B3.
  set (c := r2 / 1461) in *. set (r3 := r2 mod 1461) in *.
  pose proof (Z.div_mod r3 365 ltac:(lia)) as E4.
  pose proof (Z.mod_pos_bound r3 365 ltac:(lia)) as B4.
  set (e := r3 / 365) in *. set (n := r3 mod 365) in *.
  clearbody a r1 b r2 c r3 e n.
  assert (Ha : 0 <= a <= 24) by lia.
  assert (Hb : 0 <= b <= 4) by lia.
  assert (Hc : 0 <= c <= 24) by lia.
  assert (He : 0 <= e <= 4) by lia.
  destruct (Z.eqb_spec e 4) as [He4|He4]; cbn [orb].
  { (* the last day of a leap year that ends a four-year cycle *)
    intros [= <- <- <-].
    assert (Hb3 : b <= 3) by lia.
    assert (Hc23 : c <= 23) by lia.
    destruct (year_decomp a b (c + 1) 0 ltac:(lia) ltac:(lia) ltac:(lia))
      as [D _].
    cbv zeta in D.
    replace (a * 400 + 1 + (b * 100 + (c + 1) * 4 + 0))
      with (a * 400 + 1 + (b * 100 + c * 4 + e) - 1 + 1) in D by lia.
    rewrite days_before_year_succ in D.
    unfold valid_date, ymd2ord, days_before_month, days_in_month,
      MINYEAR, MAXYEAR.
    cbn [DAYS_BEFORE_MONTH DAYS_IN_MONTH Z.eqb Z.ltb Z.compare Pos.compare
         Pos.compare_cont andb].
    split.
    - repeat (apply andb_true_intro; split); try reflexivity; lia.
    - destruct (is_leap _); lia. }
  destruct (Z.eqb_spec b 4) as [Hb4|Hb4].
  { (* the last day of a 400-year cycle *)
    intros [= <- <- <-].
    destruct (year_decomp (a + 1) 0 0 0 ltac:(lia) ltac:(lia) ltac:(lia))
      as [D _].
    cbv zeta in D.
    replace ((a + 1) * 400 + 1 + (0 * 100 + 0 * 4 + 0))
      with (a * 400 + 1 + (b * 100 + c * 4 + e) - 1 + 1) in D by lia.
    rewrite days_before_year_succ in D.
    unfold valid_date, ymd2ord, days_before_month, days_in_month,
      MINYEAR, MAXYEAR.
    cbn [DAYS_BEFORE_MONTH DAYS_IN_MONTH Z.eqb Z.ltb Z.compare Pos.compare
         Pos.compare_cont andb].
    split.
    - repeat (apply andb_true_intro; split); try reflexivity; lia.
    - destruct (is_leap _); lia. }
  destruct (year_decomp a b c e ltac:(lia) ltac:(lia) ltac:(lia)) as [D L].
  cbv zeta in D, L. rewrite <- L.
  set (yy := a * 400 + 1 + (b * 100 + c * 4 + e)) in *.
  assert (Hn : 0 <= n < 365 + (if is_leap yy then 1 else 0))
    by (destruct (is_leap yy); lia).
  pose proof (month_day_ok (is_leap yy) n Hn) as G.
  unfold Aux.month_day_good in G.
  destruct (Aux.month_day (is_leap yy) n) as [mm dd].
  intros [= <- <- <-].
  rewrite !andb_true_iff in G. destruct G as [[[[G1 G2] G3] G4] G5].
  unfold valid_date, ymd2ord, days_before_month, days_in_month,
    MINYEAR, MAXYEAR.
  split.
  - repeat (apply andb_true_intro; split); try assumption.
    + subst yy. lia.
    + subst yy. lia.
    + destruct ((mm =? 2) && is_leap yy) eqn:F.
      * apply andb_true_iff in F. destruct F as [F _].
        apply Z.eqb_eq in F. subst mm. cbn in G4. lia.
      * lia.
  - lia.
Qed.

Lemma days_before_year_mono (y y' : Z) :
  y <= y' -> days_before_year y <= days_before_year y'.
Proof.
  intros H. unfold days_before_year. cbv zeta.
  Z.div_mod_to_equations. lia.
Qed.

Lemma month_cases (m : Z) :
  1 <= m <= 12 ->
  m = 1 \/ m = 2 \/ m = 3 \/ m = 4 \/ m = 5 \/ m = 6 \/ m = 7 \/ m = 8
  \/ m = 9 \/ m = 10 \/ m = 11 \/ m = 12.
Proof. lia. Qed.

Lemma valid_date_bounds (y m d : Z) :
  valid_date y m d = true ->
  1 <= y <= 9999 /\ 1 <= m <= 12 /\ 1 <= d <= days_in_month y m.
Proof.
  unfold valid_date, MINYEAR, MAXYEAR. rewrite !andb_true_iff, !Z.leb_le. lia.
Qed.

Ltac month_split m H :=
  destruct (month_cases m H)
    as [->|[->|[->|[->|[->|[->|[->|[->|[->|[->|[->| ->]]]]]]]]]]].

Lemma day_of_year_bounds (y m d : Z) :
  valid_date y m d = true ->
  1 <= days_before_month y m + d <= 365 + (if is_leap y then 1 else 0).
Proof.
  intros V. apply valid_date_bounds in V. destruct V as [_ [Hm Hd]].
  unfold days_before_month, days_in_month in *.
  month_split m Hm; cbn in Hd |- *; destruct (is_leap y); cbn in Hd |- *; lia.
Qed.

Lemma ymd2ord_inj (y m d y' m' d' : Z) :
  valid_date y m d = true -> valid_date y' m' d' = true ->
  ymd2ord y m d = ymd2ord y' m' d' ->
  y = y' /\ m = m' /\ d = d'.
Proof.
  intros V V' E.
  pose proof (day_of_year_bounds _ _ _ V) as B.
  pose proof (day_of_year_bounds _ _ _ V') as B'.
  unfold ymd2ord in E.
  assert (Hy : y = y').
  { destruct (Z.lt_trichotomy y y') as [Hlt|[Heq|Hgt]]; [|exact Heq|].
    - pose proof (days_before_year_mono (y + 1) y' ltac:(lia)) as M.
      rewrite days_before_year_succ in M. lia.
    - pose proof (days_before_year_mono (y' + 1) y ltac:(lia)) as M.
      rewrite days_before_year_succ in M. lia. }
  subst y'. split; [reflexivity|].
  apply valid_date_bounds in V, V'.
  destruct V as [_ [Hm Hd]]. destruct V' as [_ [Hm' Hd']].
  assert (E' : days_before_month y m + d = days_before_month y m' + d') by lia.
  clear E B B'.
  unfold days_before_month, days_in_month in *.
  month_split m Hm; month_split m' Hm';
    cbn in Hd, Hd', E' |- *; destruct (is_leap y);
    cbn in Hd, Hd', E' |- *; lia.
Qed.

Lemma ymd2ord_range (y m d : Z) :
  valid_date y m d = true -> 1 <= ymd2ord y m d <= MAXORDINAL.
Proof.
  intros V. pose proof (day_of_year_bounds _ _ _ V) as B.
  apply valid_date_bounds in V. destruct V as [Hy _].
  pose proof (days_before_year_mono 1 y ltac:(lia)) as M1.
  pose proof (days_before_year_mono (y + 1) 10000 ltac:(lia)) as M2.
  rewrite days_before_year_succ in M2.
  change (days_before_year 1) with 0 in M1.
  change (days_before_year 10000) with 3652059 in M2.
  unfold ymd2ord, MAXORDINAL. lia.
Qed.

Lemma ord2ymd_ymd2ord (y m d : Z) :
  valid_date y m d = true -> ord2ymd (ymd2ord y m d) = (y, m, d).
Proof.
  intros V. pose proof (ymd2ord_range _ _ _ V) as R.
  destruct (ord2ymd (ymd2ord y m d)) as [[y' m'] d'] eqn:E.
  destruct (ord2ymd_spec _ _ _ _ R E) as [V' E'].
  destruct (ymd2ord_inj _ _ _ _ _ _ V' V E') as [-> [-> ->]]. reflexivity.
Qed.
End CalendarFacts.

(** ** Formatting and parsing *)

Module FormatFacts.
Import Calendar Format.

Lemma digit_val_char (x : Z) :
  0 <= x <= 9 -> digit_val (digit_char x) = Some x.
Proof.
  intros H.
  assert (C : x = 0 \/ x = 1 \/ x = 2 \/ x = 3 \/ x = 4 \/ x = 5 \/ x = 6
              \/ x = 7 \/ x = 8 \/ x = 9) by lia.
  destruct C as [->|[->|[->|[->|[->|[->|[->|[->|[->| ->]]]]]]]]];
    reflexivity.
Qed.

Lemma parse2_digits (n : Z) :
  0 <= n <= 99 ->
  parse2 (digit_char (n / 10 mod 10)) (digit_char (n mod 10)) = Some n.
Proof.
  intros H. unfold parse2.
  rewrite !digit_val_char by (Z.div_mod_to_equations; lia).
  f_equal. Z.div_mod_to_equations. lia.
Qed.

Lemma parse4_digits (n : Z) :
  0 <= n <= 9999 ->
  parse4 (digit_char (n / 1000 mod 10)) (digit_char (n / 100 mod 10))
         (digit_char (n / 10 mod 10)) (digit_char (n mod 10)) = Some n.
Proof.
  intros H. unfold parse4, parse2.
  rewrite !digit_val_char by (Z.div_mod_to_equations; lia).
  f_equal. Z.div_mod_to_equations. lia.
Qed.

Lemma days_in_month_le_31 (y m : Z) : days_in_month y m <= 31.
Proof.
  unfold days_in_month. destruct ((m =? 2) && is_leap y); [lia|].
  unfold DAYS_IN_MONTH.
  repeat match goal with |- context [match ?x with _ => _ end] =>
    destruct x end; lia.
Qed.

(** Parsing a formatted date, possibly followed by a separator and a time. *)
Lemma fromisoformat_strftime_Ymd (t : datetime) (rest : string) :
  valid_date (year t) (month t) (day t) = true ->
  fromisoformat (strftime_Ymd t +:+ rest)
  = match rest with
    | EmptyString => Some (mkDatetime (year t) (month t) (day t) 0 0 0 0)
    | String _ tm =>
        match parse_time tm with
        | Some (h, mi, sec) =>
            if valid_time h mi sec 0
            then Some (mkDatetime (year t) (month t) (day t) h mi sec 0)
            else None
        | None => None
        end
    end.
Proof.
  intros V.
  pose proof (CalendarFacts.valid_date_bounds _ _ _ V) as [Hy [Hm Hd]].
  pose proof (days_in_month_le_31 (year t) (month t)) as Hd'.
  unfold strftime_Ymd, four_digits, two_digits.
  unfold fromisoformat. cbv [String.append].
  change (Ascii.eqb "-" dash) with true. cbn [andb].
  rewrite parse4_digits by lia.
  rewrite !parse2_digits by lia.
  rewrite V. reflexivity.
Qed.

Lemma strftime_Ymd_inj (t t' : datetime) :
  valid_date (year t) (month t) (day t) = true ->
  valid_date (year t') (month t') (day t') = true ->
  strftime_Ymd t = strftime_Ymd t' ->
  year t = year t' /\ month t = month t' /\ day t = day t'.
Proof.
  intros V V' E.
  pose proof (fromisoformat_strftime_Ymd t "" V) as P.
  pose proof (fromisoformat_strftime_Ymd t' "" V') as P'.
  assert (A : forall s, s +:+ "" = s).
  { induction s as [|c s IH]; [reflexivity|].
    change (String c (s +:+ "") = String c s). now rewrite IH. }
  rewrite A in P, P'. rewrite E in P. rewrite P in P'.
  injection P' as H1 H2 H3. repeat split; assumption.
Qed.

End FormatFacts.

(** ** Elapsed time *)

Module ElapsedFacts.
Import Calendar.

Section Elapsed.

Lemma datetime_sub_seconds (a b : datetime) :
  seconds (datetime_sub a b) = Aux.elapsed_seconds b a mod 86400.
Proof.
  unfold datetime_sub, timedelta_new, Aux.elapsed_seconds, abs_us.
  cbn [seconds].
  set (A := toordinal a). set (B := toordinal b).
  set (sa := seconds_of_day a). set (sb := seconds_of_day b).
  set (ua := microsecond a). set (ub := microsecond b).
  replace ((A * 86400 + sa) * 1000000 + ua - ((B * 86400 + sb) * 1000000 + ub))
    with ((ua - ub) + ((A - B) * 86400 + (sa - sb)) * 1000000) by ring.
  rewrite Z.div_add by lia.
  replace ((ua - ub) / 1000000 + ((A - B) * 86400 + (sa - sb)))
    with ((sa - sb + (ua - ub) / 1000000) + (A - B) * 86400) by ring.
  now rewrite Z.mod_add by lia.
Qed.

Lemma datetime_sub_seconds_range (a b : datetime) :
  0 <= seconds (datetime_sub a b) < 86400.
Proof. rewrite datetime_sub_seconds. apply Z.mod_pos_bound. lia. Qed.

Lemma valid_time_bounds (h mi s us : Z) :
  valid_time h mi s us = true ->
  0 <= h < 24 /\ 0 <= mi < 60 /\ 0 <= s < 60 /\ 0 <= us < 1000000.
Proof.
  unfold valid_time. rewrite !andb_true_iff, !Z.leb_le, !Z.ltb_lt. lia.
Qed.

(** On one calendar day the elapsed time stays below 24 hours. *)
Lemma elapsed_same_date (a b : datetime) :
  valid_datetime a = true -> valid_datetime b = true ->
  Aux.same_date a b ->
  abs_us a <= abs_us b ->
  0 <= Aux.elapsed_seconds a b < 86400.
Proof.
  unfold valid_datetime. rewrite !andb_true_iff.
  intros [_ Va] [_ Vb] (Ey & Em & Ed) Hle.
  apply valid_time_bounds in Va, Vb.
  unfold Aux.elapsed_seconds, abs_us, toordinal, seconds_of_day in *.
  rewrite Ey, Em, Ed in *.
  set (o := ymd2ord (year b) (month b) (day b)) in *. clearbody o.
  split.
  - apply Z.div_pos; lia.
  - apply Z.div_lt_upper_bound; lia.
Qed.

End Elapsed.

End ElapsedFacts.

(** ** The state monad *)

Section MonadFacts.
Import Calendar.

Lemma frame_refl (k : Keeper) : Aux.frame k k.
Proof. repeat split. Qed.

Lemma frame_trans (k1 k2 k3 : Keeper) :
  Aux.frame k1 k2 -> Aux.frame k2 k3 -> Aux.frame k1 k3.
Proof.
  unfold Aux.frame. intros (A1 & A2 & A3 & A4 & A5 & A6) (B1 & B2 & B3 & B4 & B5 & B6).
  repeat split; congruence.
Qed.

Lemma preserves_ret {A} (a : A) : Aux.preserves (ret a).
Proof. intros k. apply frame_refl. Qed.

Lemma preserves_raise {A} (e : Exn) : Aux.preserves (@raise A e).
Proof. intros k. apply frame_refl. Qed.

Lemma preserves_get : Aux.preserves get.
Proof. intros k. apply frame_refl. Qed.

Lemma preserves_lift {A} (e : Exn) (o : option A) : Aux.preserves (lift e o).
Proof. destruct o; [apply preserves_ret | apply preserves_raise]. Qed.

Lemma preserves_bind {A B} (m : M A) (f : A -> M B) :
  Aux.preserves m -> (forall a, Aux.preserves (f a)) ->
  Aux.preserves (bind m f).
Proof.
  intros Hm Hf k. unfold bind. specialize (Hm k).
  destruct (m k) as [[a|e] k1]; cbn in *.
  - eapply frame_trans; [exact Hm | apply Hf].
  - exact Hm.
Qed.

Lemma preserves_now clock : Aux.preserves (now clock).
Proof. intros k. repeat split. Qed.

Lemma preserves_print (o : Output) : Aux.preserves (print o).
Proof. intros k. repeat split. Qed.

(** A computation that reads the process without changing it. *)
Lemma preserves_reader {A} (f : Keeper -> M A) :
  (forall k, Aux.preserves (f k)) -> Aux.preserves (bind get f).
Proof. intros H k. unfold bind, get. apply H. Qed.

End MonadFacts.

Create HintDb keeper.

#[local] Hint Resolve preserves_ret preserves_raise preserves_get
  preserves_lift preserves_now preserves_print : keeper.

(** ** Rendering *)

Section Rendering.
Variable clock : nat -> Calendar.datetime.

Lemma preserves_table_row (key : string) :
  Aux.preserves (table_row clock key).
Proof.
  unfold table_row. apply preserves_reader. intros k.
  destruct (data k !! key) as [day|].
  - apply preserves_bind.
    + destruct (float_truthy (productive_time day)); auto with keeper.
      apply preserves_bind; auto with keeper.
      intros t. destruct (checkin_timestamp day); auto with keeper.
    + intros v. destruct (checkin_timestamp day); auto with keeper.
  - apply preserves_bind; auto with keeper.
Qed.

Lemma preserves_table_rows (keys : list string) (table : list (list Cell)) :
  Aux.preserves (table_rows clock keys table).
Proof.
  revert table. induction keys as [|key keys IH]; intros table; cbn.
  - auto with keeper.
  - apply preserves_bind; [apply preserves_table_row | intros row; apply IH].
Qed.

Lemma preserves_print_table (keys : list string) :
  Aux.preserves (print_table clock keys).
Proof.
  unfold print_table. apply preserves_bind;
    [apply preserves_table_rows | auto with keeper].
Qed.

Lemma preserves_day_keys_loop (rng : list Z) (key_list : list string) :
  Aux.preserves (day_keys_loop clock rng key_list).
Proof.
  revert key_list. induction rng as [|day rng IH]; intros key_list; cbn.
  - auto with keeper.
  - apply preserves_bind; auto with keeper. intros t.
    apply preserves_bind; auto with keeper.
Qed.

Lemma preserves_generate_day_keys (n : Z) :
  Aux.preserves (generate_day_keys clock n).
Proof. apply preserves_day_keys_loop. Qed.

End Rendering.

(** ** Rendering, row by row *)

Section Rows.
Import Calendar.
Variable clock : nat -> datetime.

Lemma set_reads_same (k : Keeper) : set_reads (reads k) k = k.
Proof. now destruct k. Qed.

Lemma quiet_ret {A} (a : A) : Aux.quiet (ret a).
Proof. intros k. exists (reads k). cbn. now rewrite set_reads_same. Qed.

Lemma quiet_raise {A} (e : Exn) : Aux.quiet (@raise A e).
Proof. intros k. exists (reads k). cbn. now rewrite set_reads_same. Qed.

Lemma quiet_lift {A} (e : Exn) (o : option A) : Aux.quiet (lift e o).
Proof. destruct o; [apply quiet_ret | apply quiet_raise]. Qed.

Lemma quiet_now : Aux.quiet (now clock).
Proof. intros k. now exists (S (reads k)). Qed.

Lemma quiet_bind {A B} (m : M A) (f : A -> M B) :
  Aux.quiet m -> (forall a, Aux.quiet (f a)) -> Aux.quiet (bind m f).
Proof.
  intros Hm Hf k. unfold bind. destruct (Hm k) as [n Hn].
  destruct (m k) as [[a|e] k1]; cbn in *.
  - destruct (Hf a k1) as [n' Hn']. exists n'. now rewrite Hn', Hn.
  - now exists n.
Qed.

Lemma quiet_reader {A} (f : Keeper -> M A) :
  (forall k, Aux.quiet (f k)) -> Aux.quiet (bind get f).
Proof. intros H k. unfold bind, get. apply H. Qed.

Lemma quiet_table_row (key : string) : Aux.quiet (table_row clock key).
Proof.
  unfold table_row. apply quiet_reader. intros k.
  destruct (data k !! key) as [day|].
  - apply quiet_bind.
    + destruct (float_truthy (productive_time day)); [apply quiet_ret|].
      apply quiet_bind; [apply quiet_now|].
      intros t. destruct (checkin_timestamp day);
        [apply quiet_ret | apply quiet_raise].
    + intros v. destruct (checkin_timestamp day);
        [apply quiet_ret | apply quiet_raise].
  - apply quiet_bind; [apply quiet_lift | intros d; apply quiet_ret].
Qed.

Lemma quiet_table_rows (keys : list string) (table : list (list Cell)) :
  Aux.quiet (table_rows clock keys table).
Proof.
  revert table. induction keys as [|key keys IH]; intros table; cbn.
  - apply quiet_ret.
  - apply quiet_bind; [apply quiet_table_row | intros row; apply IH].
Qed.

(** A row of a booking that has a check-in. *)
Lemma table_row_booking (key : string) (k : Keeper) (day : Booking)
      (ci : datetime) :
  data k !! key = Some day -> checkin_timestamp day = Some ci ->
  table_row clock key k
  = (Ok [CStr (Format.strftime_a ci); CStr key;
         CStr (Format.strftime_HM ci);
         CStr (match checkout_timestamp day with
               | Some co => Format.strftime_HM co
               | None => ""
               end);
         CNum (if float_truthy (productive_time day)
               then productive_time day
               else (quarter_round
                       (seconds_as_hours
                          (datetime_sub (clock (reads k)) ci))
                     - pause day)%Q);
         CNum (pause day);
         CStr (category_value (category day));
         match description day with
         | Some s => CStr s
         | None => CNone
         end],
     if float_truthy (productive_time day) then k
     else set_reads (S (reads k)) k).
Proof.
  intros Hd Hc. unfold table_row, bind, get. rewrite Hd.
  destruct (float_truthy (productive_time day)); cbn; rewrite Hc; reflexivity.
Qed.

(** A booking without a check-in cannot be rendered. *)
Lemma table_row_no_checkin (key : string) (k : Keeper) (day : Booking) :
  data k !! key = Some day -> checkin_timestamp day = None ->
  table_row clock key k
  = if float_truthy (productive_time day)
    then (Raise AttributeError, k)
    else (Raise TypeError, set_reads (S (reads k)) k).
Proof.
  intros Hd Hc. unfold table_row, bind, get. rewrite Hd.
  destruct (float_truthy (productive_time day)); cbn; rewrite Hc; reflexivity.
Qed.

Lemma print_table_single (key : string) (k : Keeper) :
  print_table clock [key] k
  = match table_row clock key k with
    | (Ok row, k') => print (Table [header; row]) k'
    | (Raise e, k') => (Raise e, k')
    end.
Proof.
  unfold print_table. cbn [table_rows]. unfold bind.
  destruct (table_row clock key k) as [[row|e] k']; reflexivity.
Qed.

(** One unrenderable booking makes the whole table fail, and nothing is
    printed. *)
Lemma table_rows_raise (keys : list string) (table : list (list Cell))
      (k : Keeper) (key : string) (day : Booking) :
  In key keys -> data k !! key = Some day -> checkin_timestamp day = None ->
  exists e, fst (table_rows clock keys table k) = Raise e.
Proof.
  revert table k. induction keys as [|key' keys IH]; intros table k Hin Hd Hc.
  - destruct Hin.
  - cbn [table_rows]. unfold bind.
    destruct (table_row clock key' k) as [[row|e] k'] eqn:E.
    + destruct Hin as [->|Hin].
      * rewrite (table_row_no_checkin _ _ _ Hd Hc) in E.
        destruct (float_truthy (productive_time day)); discriminate.
      * apply (IH _ _ Hin); [|exact Hc].
        pose proof (preserves_table_row clock key' k) as F.
        rewrite E in F. destruct F as [F _]. cbn in F. now rewrite F.
    + now exists e.
Qed.

Lemma print_table_raise (keys : list string) (k : Keeper) (key : string)
      (day : Booking) :
  In key keys -> data k !! key = Some day -> checkin_timestamp day = None ->
  exists e, fst (print_table clock keys k) = Raise e
            /\ world (snd (print_table clock keys k)) = world k.
Proof.
  intros Hin Hd Hc.
  destruct (table_rows_raise keys [header] k key day Hin Hd Hc) as [e He].
  destruct (quiet_table_rows keys [header] k) as [n Hn].
  unfold print_table, bind.
  destruct (table_rows clock keys [header] k) as [[rows|e'] k'];
    cbn in He, Hn; [discriminate|].
  injection He as ->. exists e. cbn. split; [reflexivity|]. now rewrite Hn.
Qed.

End Rows.

(** ** Recording a check-in or a check-out *)

Section Check.
Import Calendar.
Variable clock : nat -> datetime.

Abbreviation key_of k := (Format.strftime_Ymd (day_to_work_on k)).

Lemma check_unfold (checkin : bool) (booking_time : option string)
      (k : Keeper) :
  check clock checkin booking_time k
  = match Aux.booking_date_of k booking_time with
    | Some t => print_table clock [key_of k] (Aux.checked k checkin t)
    | None => (Raise ValueError, k)
    end.
Proof.
  unfold check, Aux.booking_date_of, bind, get.
  destruct (str_truthy booking_time).
  - destruct (Format.fromisoformat _); reflexivity.
  - reflexivity.
Qed.

(** What [__check] leaves behind, whatever the rendering does. *)
Lemma check_state (checkin : bool) (booking_time : option string)
      (k : Keeper) (t : datetime) :
  Aux.booking_date_of k booking_time = Some t ->
  data (snd (check clock checkin booking_time k))
  = <[key_of k := Aux.booked k checkin t]> (data k)
  /\ store_docs (world (snd (check clock checkin booking_time k)))
     = <[keeper_file_path k := data (snd (check clock checkin booking_time k))]>
         (store_docs (world k))
  /\ settings_doc (world (snd (check clock checkin booking_time k)))
     = settings_doc (world k)
  /\ stdout (world (snd (check clock checkin booking_time k)))
     = (stdout (world k)
        ++ match fst (check clock checkin booking_time k) with
           | Ok _ =>
               match table_row clock (key_of k) (Aux.checked k checkin t) with
               | (Ok row, _) => [Table [header; row]]
               | _ => []
               end
           | Raise _ => []
           end)%list
  /\ day_to_work_on (snd (check clock checkin booking_time k))
     = day_to_work_on k
  /\ default_pause_length (snd (check clock checkin booking_time k))
     = default_pause_length k
  /\ keeper_file_path (snd (check clock checkin booking_time k))
     = keeper_file_path k.
Proof.
  intros Ht. rewrite check_unfold, Ht.
  assert (Hout : stdout (world (snd (print_table clock [key_of k]
                                       (Aux.checked k checkin t))))
                 = (stdout (world k)
                    ++ match fst (print_table clock [key_of k]
                                    (Aux.checked k checkin t)) with
                       | Ok _ =>
                           match table_row clock (key_of k)
                                   (Aux.checked k checkin t) with
                           | (Ok row, _) => [Table [header; row]]
                           | _ => []
                           end
                       | Raise _ => []
                       end)%list).
  { rewrite print_table_single.
    destruct (quiet_table_row clock (key_of k) (Aux.checked k checkin t))
      as [n Hn].
    destruct (table_row clock (key_of k) (Aux.checked k checkin t))
      as [[row|e] k1]; cbn in Hn |- *; rewrite Hn; cbn.
    - reflexivity.
    - now rewrite app_nil_r. }
  rewrite Hout.
  destruct (preserves_print_table clock [key_of k] (Aux.checked k checkin t))
    as (F1 & F2 & F3 & F4 & F5 & F6).
  rewrite F1, F2, F3, F4, F5, F6. repeat split.
Qed.

Lemma check_invalid_time (checkin : bool) (booking_time : option string)
      (k : Keeper) :
  Aux.booking_date_of k booking_time = None ->
  check clock checkin booking_time k = (Raise ValueError, k).
Proof. intros H. now rewrite check_unfold, H. Qed.

(** [__check] raises [ValueError] only for a time it cannot parse. *)
Lemma check_not_ValueError (checkin : bool) (booking_time : option string)
      (k : Keeper) :
  fst (check clock checkin booking_time k) <> Raise ValueError ->
  exists t, Aux.booking_date_of k booking_time = Some t.
Proof.
  intros H. destruct (Aux.booking_date_of k booking_time) as [t|] eqn:E.
  - now exists t.
  - rewrite check_invalid_time in H by exact E. now destruct H.
Qed.

Lemma booked_fields (k : Keeper) (checkin : bool) (t : datetime) :
  checkin_timestamp (Aux.booked k checkin t)
  = (if checkin then Some t
     else checkin_timestamp (default Booking_new (data k !! key_of k)))
  /\ checkout_timestamp (Aux.booked k checkin t)
     = (if checkin
        then checkout_timestamp (default Booking_new (data k !! key_of k))
        else Some t)
  /\ pause (Aux.booked k checkin t)
     = pause (default Booking_new (data k !! key_of k))
  /\ category (Aux.booked k checkin t)
     = category (default Booking_new (data k !! key_of k))
  /\ description (Aux.booked k checkin t)
     = description (default Booking_new (data k !! key_of k)).
Proof.
  unfold Aux.booked.
  destruct (data k !! key_of k) as [[[ci|] [co|] p x c d]|];
    destruct checkin; cbn; repeat split.
Qed.

Lemma booked_productive_time (k : Keeper) (checkin : bool) (t : datetime) :
  productive_time (Aux.booked k checkin t)
  = match checkin_timestamp (Aux.booked k checkin t),
          checkout_timestamp (Aux.booked k checkin t) with
    | Some ci, Some co =>
        (quarter_round (seconds_as_hours (datetime_sub co ci))
         - default_pause_length k)%Q
    | _, _ => productive_time (default Booking_new (data k !! key_of k))
    end.
Proof.
  unfold Aux.booked.
  destruct (data k !! key_of k) as [[[ci|] [co|] p x c d]|];
    destruct checkin; reflexivity.
Qed.

End Check.

(** ** The invariant of the record store *)

Section Invariant.
Import Calendar.

Abbreviation key_of k := (Format.strftime_Ymd (day_to_work_on k)).

Lemma store_inv_empty : Aux.store_inv ∅.
Proof. intros key b H. now rewrite lookup_empty in H. Qed.

Lemma store_inv_insert (d : gmap string Booking) (key : string) (b : Booking) :
  Aux.store_inv d -> Aux.booking_inv b -> Aux.store_inv (<[key := b]> d).
Proof.
  intros Hd Hb key' b' H. rewrite lookup_insert in H.
  destruct (decide (key = key')).
  - injection H as <-. exact Hb.
  - exact (Hd _ _ H).
Qed.

Lemma world_inv_insert (w : World) (path : string) (d : gmap string Booking) :
  Aux.world_inv w -> Aux.store_inv d ->
  forall p d', <[path := d]> (store_docs w) !! p = Some d' -> Aux.store_inv d'.
Proof.
  intros Hw Hd p d' H. rewrite lookup_insert in H.
  destruct (decide (path = p)).
  - injection H as <-. exact Hd.
  - exact (Hw _ _ H).
Qed.

Lemma booking_inv_new : Aux.booking_inv Booking_new.
Proof. intros H. destruct H. reflexivity. Qed.

Lemma booked_inv (k : Keeper) (checkin : bool) (t : datetime) :
  Aux.store_inv (data k) -> Aux.booking_inv (Aux.booked k checkin t).
Proof.
  intros Hd.
  assert (Hold : Aux.booking_inv (default Booking_new (data k !! key_of k))).
  { destruct (data k !! key_of k) as [old|] eqn:E; cbn.
    - exact (Hd _ _ E).
    - exact booking_inv_new. }
  pose proof (booked_fields k checkin t) as (Fi & Fo & _).
  pose proof (booked_productive_time k checkin t) as Fp.
  unfold Aux.booking_inv in *.
  set (old := default Booking_new (data k !! key_of k)) in *.
  set (b := Aux.booked k checkin t) in *. clearbody old b.
  intros Hnz.
  destruct (checkin_timestamp b) as [ci|] eqn:Ei.
  - destruct (checkout_timestamp b) as [co|] eqn:Eo.
    + split; eexists; reflexivity.
    + rewrite Fp in Hnz. destruct (Hold Hnz) as [_ [co Hco]].
      destruct checkin; congruence.
  - rewrite Fp in Hnz. destruct (Hold Hnz) as [[ci Hci] _].
    destruct checkin; congruence.
Qed.

Lemma keeps_of_preserves {A} (m : M A) : Aux.preserves m -> Aux.keeps m.
Proof.
  intros H k [Hd Hw]. destruct (H k) as (F1 & F2 & _).
  split.
  - now rewrite F1.
  - intros path d. rewrite F2. apply Hw.
Qed.

Lemma keeps_bind {A B} (m : M A) (f : A -> M B) :
  Aux.keeps m -> (forall a, Aux.keeps (f a)) -> Aux.keeps (bind m f).
Proof.
  intros Hm Hf k Hk. unfold bind. specialize (Hm k Hk).
  destruct (m k) as [[a|e] k1]; cbn in *.
  - now apply Hf.
  - exact Hm.
Qed.

Lemma keeps_check clock (checkin : bool) (booking_time : option string) :
  Aux.keeps (check clock checkin booking_time).
Proof.
  intros k [Hd Hw].
  destruct (Aux.booking_date_of k booking_time) as [t|] eqn:E.
  - destruct (check_state clock checkin booking_time k t E)
      as (F1 & F2 & _).
    assert (Hd' : Aux.store_inv
                    (data (snd (check clock checkin booking_time k)))).
    { rewrite F1. apply store_inv_insert; [exact Hd | now apply booked_inv]. }
    split; [exact Hd'|].
    intros path d. rewrite F2. now apply world_inv_insert.
  - rewrite check_invalid_time by exact E. now split.
Qed.

Lemma keeps_step (flag : bool) (action : M unit) (parameter : bool) :
  Aux.keeps action -> Aux.keeps (step flag action parameter).
Proof.
  intros H. unfold step. destruct flag.
  - apply keeps_bind; [exact H|]. intros _. apply keeps_of_preserves.
    apply preserves_ret.
  - apply keeps_of_preserves, preserves_ret.
Qed.

Lemma keeps_render clock (n : Z) :
  Aux.keeps (bind (generate_day_keys clock n) (print_table clock)).
Proof.
  apply keeps_of_preserves, preserves_bind.
  - apply preserves_generate_day_keys.
  - intros keys. apply preserves_print_table.
Qed.

Lemma keeps_process_args clock (args : Args) :
  Aux.keeps (process_args clock args).
Proof.
  unfold process_args.
  apply keeps_bind.
  { destruct (str_truthy (arg_date args)).
    - apply keeps_bind; [apply keeps_of_preserves, preserves_lift|].
      intros d k Hk. exact Hk.
    - apply keeps_of_preserves, preserves_ret. }
  intros _.
  repeat (apply keeps_bind;
          [apply keeps_step;
           first [apply keeps_check | apply keeps_render | idtac] | intros ?]).
  - destruct (negb (in_BookingCategory _));
      apply keeps_of_preserves, preserves_print.
  - destruct (negb _); apply keeps_of_preserves;
      [apply preserves_print | apply preserves_ret].
Qed.

Lemma init_inv clock (w : World) :
  Aux.world_inv w -> Aux.keeper_inv (init clock w).
Proof.
  intros Hw. unfold init, load_config, load_data.
  destruct (settings_doc w) as [s|]; cbn.
  - destruct (store_docs w !! default "keeper.json" (json_keeper_file s))
      as [d|] eqn:E; cbn.
    + split; [exact (Hw _ _ E) | exact Hw].
    + split; [exact store_inv_empty|].
      intros p d'. apply world_inv_insert; [exact Hw | exact store_inv_empty].
  - destruct (store_docs w !! "keeper.json") as [d|] eqn:E; cbn.
    + split; [exact (Hw _ _ E) | exact Hw].
    + split; [exact store_inv_empty|].
      intros p d'. apply world_inv_insert; [exact Hw | exact store_inv_empty].
Qed.

Lemma run_inv clock (args : Args) (w : World) :
  Aux.world_inv w -> Aux.world_inv (snd (run clock args w)).
Proof.
  intros Hw. unfold run.
  pose proof (keeps_process_args clock args _ (init_inv clock w Hw)) as H.
  destruct (process_args clock args (init clock w)) as [r k]. apply H.
Qed.

Lemma runs_inv (l : list ((nat -> datetime) * Args)) (w : World) :
  Aux.world_inv w -> Aux.world_inv (runs l w).
Proof.
  revert w. induction l as [|[clock args] l IH]; intros w Hw; cbn.
  - exact Hw.
  - apply IH, run_inv, Hw.
Qed.

End Invariant.

(** ** Whole runs *)

Section Runs.
Import Calendar.
Variable clock : nat -> datetime.

Abbreviation key_of k := (Format.strftime_Ymd (day_to_work_on k)).

Lemma booked_fresh (k : Keeper) (checkin : bool) (t : datetime) :
  data k !! key_of k = None ->
  Aux.booked k checkin t
  = if checkin then mkBooking (Some t) None (1 # 2) 0 MOBILE None
    else mkBooking None (Some t) (1 # 2) 0 MOBILE None.
Proof. intros H. unfold Aux.booked. rewrite H. now destruct checkin. Qed.

Lemma checked_lookup (k : Keeper) (checkin : bool) (t : datetime) :
  data (Aux.checked k checkin t) !! key_of k = Some (Aux.booked k checkin t).
Proof. cbn. apply lookup_insert_eq. Qed.

(** A check-out on a day without a booking is saved, and then the
    rendering fails. *)
Lemma check_out_without_checkin (booking_time : option string) (k : Keeper)
      (t : datetime) :
  data k !! key_of k = None ->
  Aux.booking_date_of k booking_time = Some t ->
  fst (check clock false booking_time k) = Raise TypeError.
Proof.
  intros Hnone Ht. rewrite check_unfold, Ht, print_table_single.
  rewrite (table_row_no_checkin clock _ _ _ (checked_lookup k false t));
    rewrite booked_fresh by exact Hnone; reflexivity.
Qed.

(** The rendering after a check-in succeeds. *)
Lemma check_in_ok (booking_time : option string) (k : Keeper) (t : datetime) :
  Aux.booking_date_of k booking_time = Some t ->
  fst (check clock true booking_time k) = Ok tt.
Proof.
  intros Ht. rewrite check_unfold, Ht, print_table_single.
  pose proof (booked_fields k true t) as (Fi & _). cbn [negb] in Fi.
  rewrite (table_row_booking clock _ _ _ t (checked_lookup k true t) Fi).
  reflexivity.
Qed.

Lemma init_fields (w : World) :
  day_to_work_on (init clock w) = clock 0
  /\ reads (init clock w) = 1%nat
  /\ stdout (world (init clock w)) = stdout w
  /\ keeper_file_path (init clock w)
     = default "keeper.json"
         (json_keeper_file (default default_settings (settings_doc w)))
  /\ default_pause_length (init clock w)
     = default (1 # 2)%Q
         (json_default_pause_length
            (default default_settings (settings_doc w)))
  /\ data (init clock w)
     = default ∅ (store_docs w !! keeper_file_path (init clock w)).
Proof.
  unfold init, load_config, load_data.
  destruct (settings_doc w) as [s|]; cbn;
    match goal with
    | |- context [store_docs w !! ?p] => destruct (store_docs w !! p) eqn:E
    end; cbn; rewrite ?E; repeat split.
Qed.

Lemma process_args_one_check (checkin : bool) (booking_time : option string)
      (k : Keeper) :
  process_args clock (Aux.one_check None checkin booking_time) k
  = match check clock checkin booking_time k with
    | (Ok _, k') => (Ok tt, k')
    | (Raise e, k') => (Raise e, k')
    end.
Proof.
  unfold process_args, Aux.one_check, step.
  destruct checkin, (str_truthy booking_time) eqn:T;
    cbn -[check]; unfold bind; cbn -[check]; rewrite ?T; cbn -[check];
    try (destruct (check clock _ booking_time k) as [[[]|e] k']; reflexivity).
  - destruct booking_time as [[|c s]|]; try discriminate;
      [change (check clock true (Some "") k) with (check clock true None k)|];
      destruct (check clock true None k) as [[[]|e] k']; reflexivity.
  - destruct booking_time as [[|c s]|]; try discriminate;
      [change (check clock false (Some "") k) with (check clock false None k)|];
      destruct (check clock false None k) as [[[]|e] k']; reflexivity.
Qed.

Lemma process_args_dated_check (s : string) (d : datetime) (checkin : bool)
      (booking_time : option string) (k : Keeper) :
  Format.fromisoformat s = Some d ->
  process_args clock (Aux.one_check (Some s) checkin booking_time) k
  = process_args clock (Aux.one_check None checkin booking_time)
                 (set_day_to_work_on d k).
Proof.
  intros H. destruct s as [|c s]; [discriminate|].
  unfold process_args.
  cbn [arg_date Aux.one_check str_truthy default].
  unfold id, bind at 1. unfold bind at 1. rewrite H. reflexivity.
Qed.

Lemma run_one_check (w : World) (checkin : bool)
      (booking_time : option string) :
  run clock (Aux.one_check None checkin booking_time) w
  = (fst (check clock checkin booking_time (init clock w)),
     world (snd (check clock checkin booking_time (init clock w)))).
Proof.
  unfold run. rewrite process_args_one_check.
  destruct (check clock checkin booking_time (init clock w))
    as [[[]|e] k']; reflexivity.
Qed.

Lemma run_dated_check (w : World) (s : string) (d : datetime)
      (checkin : bool) (booking_time : option string) :
  Format.fromisoformat s = Some d ->
  run clock (Aux.one_check (Some s) checkin booking_time) w
  = (fst (check clock checkin booking_time
            (set_day_to_work_on d (init clock w))),
     world (snd (check clock checkin booking_time
                   (set_day_to_work_on d (init clock w))))).
Proof.
  intros H. unfold run.
  rewrite (process_args_dated_check _ _ _ _ _ H), process_args_one_check.
  destruct (check clock checkin booking_time _) as [[[]|e] k']; reflexivity.
Qed.

End Runs.

(** ** Hours worked *)

Section Hours.
Import Calendar.

Abbreviation key_of k := (Format.strftime_Ymd (day_to_work_on k)).

(** The hours the program derives from two timestamps, on the time line. *)
Lemma quarter_round_sub (a b : datetime) :
  quarter_round (seconds_as_hours (datetime_sub b a))
  = quarter_round (inject_Z (Aux.elapsed_seconds a b mod 86400) / 3600).
Proof.
  apply quarter_round_Qeq.
  now rewrite seconds_as_hours_eq, ElapsedFacts.datetime_sub_seconds.
Qed.

Lemma quarter_round_wrapped (e : Z) :
  (quarter_round (inject_Z (e mod 86400) / 3600)
   == quarter_round (inject_Z e / 3600) - 24 * inject_Z (e / 86400))%Q.
Proof.
  rewrite (quarter_round_Qeq _ _ (hours_mod_day e)).
  assert (E : (inject_Z e / 3600 - 24 * inject_Z (e / 86400)
               == inject_Z e / 3600 + 24 * inject_Z (- (e / 86400)))%Q).
  { rewrite inject_Z_opp. ring. }
  rewrite (quarter_round_Qeq _ _ E), quarter_round_shift_days, inject_Z_opp.
  ring.
Qed.

(** The timestamp [__check] books lies on the day to work on. *)
Lemma booking_date_valid (k : Keeper) (booking_time : option string)
      (t : datetime) :
  valid_datetime (day_to_work_on k) = true ->
  Aux.booking_date_of k booking_time = Some t ->
  valid_datetime t = true /\ Aux.same_date t (day_to_work_on k).
Proof.
  intros V. unfold Aux.booking_date_of.
  destruct (str_truthy booking_time).
  - assert (Vd : valid_date (year (day_to_work_on k))
                   (month (day_to_work_on k)) (day (day_to_work_on k)) = true).
    { unfold valid_datetime in V. now apply andb_true_iff in V. }
    change (" " +:+ default "" booking_time)
      with (String " " (default "" booking_time)).
    rewrite (FormatFacts.fromisoformat_strftime_Ymd _ _ Vd).
    destruct (Format.parse_time _) as [[[h mi] sec]|]; [|discriminate].
    destruct (valid_time h mi sec 0) eqn:Vt; [|discriminate].
    intros [= <-]. unfold valid_datetime, Aux.same_date. cbn.
    rewrite Vd, Vt. repeat split.
  - intros [= <-]. split; [exact V | repeat split].
Qed.

(** What a check-in followed by a check-out stores. *)
Lemma check_in_then_out_state clock (bt_in bt_out : option string)
      (k k1 k2 : Keeper) :
  check clock true bt_in k = (Ok tt, k1) ->
  check clock false bt_out k1 = (Ok tt, k2) ->
  exists ci co,
    Aux.booking_date_of k bt_in = Some ci
    /\ Aux.booking_date_of k bt_out = Some co
    /\ data k2 !! key_of k
       = Some (mkBooking (Some ci) (Some co)
                 (pause (default Booking_new (data k !! key_of k)))
                 (quarter_round (seconds_as_hours (datetime_sub co ci))
                  - default_pause_length k)%Q
                 (category (default Booking_new (data k !! key_of k)))
                 (description (default Booking_new (data k !! key_of k))))
    /\ store_docs (world k2) !! keeper_file_path k = Some (data k2).
Proof.
  intros H1 H2.
  destruct (check_not_ValueError clock true bt_in k) as [ci Hci];
    [now rewrite H1|].
  destruct (check_not_ValueError clock false bt_out k1) as [co Hco];
    [now rewrite H2|].
  destruct (check_state clock true bt_in k ci Hci)
    as (A1 & _ & _ & _ & A4 & A5 & A6).
  destruct (check_state clock false bt_out k1 co Hco)
    as (B1 & B2 & _).
  rewrite H1 in A1, A4, A5, A6. rewrite H2 in B1, B2. cbn [snd] in *.
  assert (Hco' : Aux.booking_date_of k bt_out = Some co).
  { unfold Aux.booking_date_of in *. now rewrite <- A4. }
  exists ci, co. split; [exact Hci|]. split; [exact Hco'|].
  rewrite B2, A6, lookup_insert_eq. split; [|reflexivity].
  rewrite B1, A4, lookup_insert_eq. f_equal.
  unfold Aux.booked at 1. rewrite A4, A5, A1, lookup_insert_eq.
  unfold Aux.booked.
  destruct (data k !! key_of k) as [[i o p x c d]|]; cbn;
    try destruct o; reflexivity.
Qed.

End Hours.

(** ** The rendered table *)

Section Table.
Import Calendar.
Variable clock : nat -> datetime.

Lemma table_row_reads (key : string) (k : Keeper) :
  (reads k <= reads (snd (table_row clock key k)))%nat.
Proof.
  unfold table_row, bind, get.
  destruct (data k !! key) as [day|].
  - destruct (float_truthy (productive_time day));
      destruct (checkin_timestamp day); cbn; lia.
  - destruct (Format.fromisoformat key); cbn; lia.
Qed.

(** The table that [print_table] builds: one row per key, in order, and
    for a key with a booking the row holds the productive-time value in
    the PROD TIME column. *)
Lemma table_rows_spec (keys : list string) :
  forall (table t' : list (list Cell)) (k k' : Keeper),
    table_rows clock keys table k = (Ok t', k') ->
    exists rows,
      t' = (table ++ rows)%list
      /\ length rows = length keys
      /\ (reads k <= reads k')%nat
      /\ forall (i : nat) (key : string) (day : Booking),
           keys !! i = Some key -> data k !! key = Some day ->
           exists ci row n,
             checkin_timestamp day = Some ci
             /\ rows !! i = Some row
             /\ (reads k <= n <= reads k')%nat
             /\ row !! 4%nat
                = Some (CNum
                          (if float_truthy (productive_time day)
                           then productive_time day
                           else (quarter_round
                                   (seconds_as_hours
                                      (datetime_sub (clock n) ci))
                                 - pause day)%Q)).
Proof.
  induction keys as [|key0 keys IH]; intros table t' k k' H.
  - cbn in H. injection H as <- <-. exists []. rewrite app_nil_r.
    repeat split; [lia|]. intros i key day Hi. discriminate.
  - cbn [table_rows] in H. unfold bind in H.
    pose proof (table_row_reads key0 k) as R0.
    pose proof (preserves_table_row clock key0 k) as (F0 & _).
    destruct (table_row clock key0 k) as [[row0|e] k1] eqn:E0;
      [|discriminate].
    cbn [snd] in R0, F0.
    destruct (IH _ _ _ _ H) as (rows & -> & Hlen & R1 & Hrows).
    exists (row0 :: rows). rewrite <- app_assoc. cbn [app length].
    repeat split; [lia | lia |].
    intros [|i] key day Hi Hd.
    + injection Hi as ->.
      destruct (checkin_timestamp day) as [ci|] eqn:Ec.
      * rewrite (table_row_booking clock _ _ _ _ Hd Ec) in E0.
        injection E0 as <- <-.
        eexists ci, _, (reads k).
        split; [reflexivity|]. split; [reflexivity|]. split; [lia|].
        reflexivity.
      * rewrite (table_row_no_checkin clock _ _ _ Hd Ec) in E0.
        destruct (float_truthy (productive_time day)); discriminate.
    + cbn in Hi. rewrite <- F0 in Hd.
      destruct (Hrows i key day Hi Hd) as (ci & row & n & Hc & Hr & Hn & Hv).
      exists ci, row, n. repeat split; [exact Hc | exact Hr | lia | lia |
                                         exact Hv].
Qed.

Lemma print_table_spec (keys : list string) (k k' : Keeper) :
  print_table clock keys k = (Ok tt, k') ->
  exists rows,
    stdout (world k') = (stdout (world k) ++ [Table (header :: rows)])%list
    /\ length rows = length keys
    /\ forall (i : nat) (key : string) (day : Booking),
         keys !! i = Some key -> data k !! key = Some day ->
         exists ci row n,
           checkin_timestamp day = Some ci
           /\ rows !! i = Some row
           /\ (reads k <= n <= reads k')%nat
           /\ row !! 4%nat
              = Some (CNum
                        (if float_truthy (productive_time day)
                         then productive_time day
                         else (quarter_round
                                 (seconds_as_hours
                                    (datetime_sub (clock n) ci))
                               - pause day)%Q)).
Proof.
  unfold print_table, bind. intros H.
  destruct (quiet_table_rows clock keys [header] k) as [m Hm].
  destruct (table_rows clock keys [header] k) as [[t'|e] k1] eqn:E;
    [|discriminate].
  destruct (table_rows_spec _ _ _ _ _ E) as (rows & -> & Hlen & R & Hrows).
  cbn in Hm. subst k1. cbn in H. injection H as <-.
  exists rows. cbn. repeat split; [exact Hlen|]. exact Hrows.
Qed.

End Table.

(** ** The category option *)

Section Category.
Import Calendar.
Variable clock : nat -> datetime.

Lemma same_store_refl (x : Result unit * Keeper) : Aux.same_store x x.
Proof. repeat split. Qed.

Lemma same_store_bind {A} (m : M A) (f g : A -> M unit) (k : Keeper) :
  (forall a k', Aux.same_store (f a k') (g a k')) ->
  Aux.same_store (bind m f k) (bind m g k).
Proof.
  intros H. unfold bind. destruct (m k) as [[a|e] k'].
  - apply H.
  - apply same_store_refl.
Qed.

(** The last two steps of [__process_args]: the category option and the
    notice for an empty command line. *)
Lemma category_step_same_store (c : option string) (parameter : bool)
      (k : Keeper) :
  Aux.same_store
    ((parameter' <- step (str_truthy c)
                      (if negb (in_BookingCategory (default "" c))
                       then print (Line ("Unknown value: " +:+ default "" c))
                       else print (Line (default "" c)))
                      parameter ;;
      if negb parameter'
      then print (Line "No parameter set. Please use '--help' for more information.")
      else ret tt) k)
    ((parameter' <- step false (print (Line "")) parameter ;;
      if negb parameter'
      then print (Line "No parameter set. Please use '--help' for more information.")
      else ret tt) k).
Proof.
  unfold step, bind.
  destruct (str_truthy c), (negb (in_BookingCategory (default "" c))),
    parameter; cbn; repeat split.
Qed.

Lemma process_args_category (args : Args) (c : option string) (k : Keeper) :
  Aux.same_store (process_args clock (Aux.with_category c args) k)
                 (process_args clock (Aux.with_category None args) k).
Proof.
  unfold process_args.
  cbn [Aux.with_category arg_category arg_date arg_checkin arg_checkin_at
       arg_checkout arg_checkout_at arg_today arg_week arg_month].
  do 8 (apply same_store_bind; intros ? ?).
  apply category_step_same_store.
Qed.

Lemma run_category_only (c : string) (w : World) :
  str_truthy (Some c) = true ->
  run clock (mkArgs (Some c) None false None false None false false false) w
  = (Ok tt,
     mkWorld (settings_doc (world (init clock w)))
             (store_docs (world (init clock w)))
             (stdout w
              ++ [Line (if in_BookingCategory c then c
                        else "Unknown value: " +:+ c)])).
Proof.
  intros T. destruct c as [|a s]; [discriminate|].
  unfold run, process_args, step.
  cbn [arg_category arg_date arg_checkin arg_checkin_at arg_checkout
       arg_checkout_at arg_today arg_week arg_month str_truthy].
  unfold bind. cbn [ret default from_option id].
  destruct (init_fields clock w) as (_ & _ & Hs & _).
  destruct (in_BookingCategory (String a s)); cbn; now rewrite Hs.
Qed.

End Category.

(** ** Day-keys *)

Section DayKeys.
Import Calendar.
Variable clock : nat -> datetime.

Lemma timedelta_new_normal (d s us : Z) :
  0 <= s < 86400 -> 0 <= us < 1000000 ->
  timedelta_new d s us = mkTimedelta d s us.
Proof.
  intros Hs Hu. unfold timedelta_new.
  rewrite (Z.div_small us), (Z.mod_small us), Z.add_0_r by lia.
  rewrite (Z.div_small s), (Z.mod_small s), Z.add_0_r by lia.
  reflexivity.
Qed.

Lemma valid_datetime_time (t : datetime) :
  valid_datetime t = true ->
  valid_date (year t) (month t) (day t) = true
  /\ 0 <= hour t < 24 /\ 0 <= minute t < 60 /\ 0 <= second t < 60
  /\ 0 <= microsecond t < 1000000.
Proof.
  unfold valid_datetime. rewrite andb_true_iff. intros [Vd Vt].
  split; [exact Vd|]. now apply ElapsedFacts.valid_time_bounds.
Qed.

Lemma strftime_Ymd_date (y m d h mi s us : Z) :
  Format.strftime_Ymd (mkDatetime y m d h mi s us)
  = Format.strftime_Ymd (mkDatetime y m d 0 0 0 0).
Proof. reflexivity. Qed.

(** Going back [i] days keeps the time of day and moves the ordinal. *)
Lemma datetime_sub_days_spec (t : datetime) (i : Z) :
  valid_datetime t = true ->
  datetime_sub_days t i
  = if (0 <? toordinal t - i) && (toordinal t - i <=? MAXORDINAL)
    then let '(y, m, d) := ord2ymd (toordinal t - i) in
         Some (mkDatetime y m d (hour t) (minute t) (second t)
                          (microsecond t))
    else None.
Proof.
  intros V. apply valid_datetime_time in V.
  destruct V as (_ & Hh & Hm & Hs & Hu).
  unfold datetime_sub_days.
  rewrite timedelta_new_normal by (unfold seconds_of_day; lia).
  cbn [days seconds microseconds].
  destruct ((0 <? toordinal t - i) && (toordinal t - i <=? MAXORDINAL));
    [|reflexivity].
  destruct (ord2ymd (toordinal t - i)) as [[y m] d].
  unfold seconds_of_day. do 2 f_equal.
  - Z.div_mod_to_equations. lia.
  - Z.div_mod_to_equations. lia.
  - Z.div_mod_to_equations. lia.
Qed.

Lemma datetime_sub_days_key (t : datetime) (i : Z) :
  valid_datetime t = true ->
  0 < toordinal t - i <= MAXORDINAL ->
  exists d, datetime_sub_days t i = Some d
            /\ Format.strftime_Ymd d = Aux.day_key (toordinal t - i).
Proof.
  intros V R. rewrite (datetime_sub_days_spec t i V).
  replace (0 <? toordinal t - i) with true by (symmetry; apply Z.ltb_lt; lia).
  replace (toordinal t - i <=? MAXORDINAL) with true
    by (symmetry; apply Z.leb_le; lia).
  cbn [andb]. unfold Aux.day_key.
  destruct (ord2ymd (toordinal t - i)) as [[y m] d].
  eexists. split; reflexivity.
Qed.

Lemma datetime_sub_days_overflow (t : datetime) (i : Z) :
  valid_datetime t = true -> toordinal t <= i ->
  datetime_sub_days t i = None.
Proof.
  intros V R. rewrite (datetime_sub_days_spec t i V).
  replace (0 <? toordinal t - i) with false
    by (symmetry; apply Z.ltb_ge; lia).
  reflexivity.
Qed.

(** The loop of [generate_day_keys] while the clock stays on the day with
    ordinal [T]. *)
Lemma day_keys_loop_spec (T : Z) (len : nat) :
  forall (start : nat) (key_list : list string) (k : Keeper),
    (forall i, (i < len)%nat ->
               valid_datetime (clock (reads k + i)) = true
               /\ toordinal (clock (reads k + i)) = T) ->
    Z.of_nat start + Z.of_nat len <= T -> T <= MAXORDINAL ->
    day_keys_loop clock (map Z.of_nat (seq start len)) key_list k
    = (Ok (key_list
           ++ map (fun j => Aux.day_key (T - Z.of_nat j)) (seq start len))%list,
       set_reads (reads k + len) k).
Proof.
  induction len as [|len IH]; intros start key_list k Hc Hs HT.
  - cbn. rewrite app_nil_r, Nat.add_0_r, set_reads_same. reflexivity.
  - cbn [seq map day_keys_loop]. unfold bind at 1. unfold now at 1.
    destruct (Hc 0%nat ltac:(lia)) as [V0 T0]. rewrite Nat.add_0_r in V0, T0.
    destruct (datetime_sub_days_key (clock (reads k)) (Z.of_nat start) V0)
      as (d & Hd & Hk); [lia|].
    unfold bind at 1. rewrite Hd. cbn [lift ret].
    rewrite IH.
    + rewrite Hk, T0, <- app_assoc. cbn [app reads set_reads].
      now rewrite Nat.add_succ_r.
    + intros i Hi. cbn [reads set_reads].
      replace (S (reads k) + i)%nat with (reads k + S i)%nat by lia.
      apply Hc. lia.
    + lia.
    + exact HT.
Qed.

(** The loop fails as soon as one of the days to go back reaches the
    ordinal of today. *)
Lemma day_keys_loop_overflow (rng : list Z) :
  forall (key_list : list string) (k : Keeper) (T : Z),
    (forall i, valid_datetime (clock i) = true /\ toordinal (clock i) = T) ->
    (exists day, In day rng /\ T <= day) ->
    fst (day_keys_loop clock rng key_list k) = Raise OverflowError.
Proof.
  induction rng as [|day rng IH]; intros key_list k T Hc [bad [Hin Hbad]].
  - destruct Hin.
  - cbn [day_keys_loop]. unfold bind at 1. unfold now at 1.
    destruct (Hc (reads k)) as [V0 T0]. unfold bind at 1.
    destruct (datetime_sub_days (clock (reads k)) day) as [d|] eqn:E.
    + cbn [lift ret]. apply (IH _ _ T Hc).
      destruct Hin as [->|Hin].
      * rewrite datetime_sub_days_overflow in E by (assumption || lia).
        discriminate.
      * now exists bad.
    + reflexivity.
Qed.

Lemma day_key_spec (o : Z) :
  1 <= o <= MAXORDINAL ->
  exists y m d,
    Aux.day_key o = Format.strftime_Ymd (mkDatetime y m d 0 0 0 0)
    /\ valid_date y m d = true /\ ymd2ord y m d = o.
Proof.
  intros R. unfold Aux.day_key.
  destruct (ord2ymd o) as [[y m] d] eqn:E.
  destruct (CalendarFacts.ord2ymd_spec _ _ _ _ R E) as [V O].
  now exists y, m, d.
Qed.

Lemma day_key_inj (o o' : Z) :
  1 <= o <= MAXORDINAL -> 1 <= o' <= MAXORDINAL ->
  Aux.day_key o = Aux.day_key o' -> o = o'.
Proof.
  intros R R' E.
  destruct (day_key_spec o R) as (y & m & d & K & V & O).
  destruct (day_key_spec o' R') as (y' & m' & d' & K' & V' & O').
  rewrite K, K' in E.
  destruct (FormatFacts.strftime_Ymd_inj
              (mkDatetime y m d 0 0 0 0) (mkDatetime y' m' d' 0 0 0 0)
              V V' E) as (Ey & Em & Ed).
  cbn in Ey, Em, Ed. congruence.
Qed.

Lemma day_key_today (t : datetime) :
  valid_datetime t = true ->
  Aux.day_key (toordinal t) = Format.strftime_Ymd t.
Proof.
  intros V. apply valid_datetime_time in V. destruct V as [V _].
  unfold Aux.day_key, toordinal.
  rewrite (CalendarFacts.ord2ymd_ymd2ord _ _ _ V). reflexivity.
Qed.

End DayKeys.

(** * The claims of the specification *)

Section Claims_check.
Import Calendar.

Abbreviation key_of k := (Format.strftime_Ymd (day_to_work_on k)).

(** C4.  In every store document reached from the empty world by any
    sequence of runs of the program, a booking whose productive time is not
    zero has both its check-in and its check-out timestamp; and recording
    only a check-in on a day without a booking leaves the productive time
    at 0 (and no check-out). *)
Theorem productive_time_needs_both_timestamps :
  (forall (l : list ((nat -> datetime) * Args)) (path key : string)
          (d : gmap string Booking) (b : Booking),
      store_docs (runs l empty_world) !! path = Some d ->
      d !! key = Some b ->
      ~ (productive_time b == 0)%Q ->
      is_Some (checkin_timestamp b) /\ is_Some (checkout_timestamp b))
  /\ (forall clock (booking_time : option string) (k : Keeper) (b : Booking),
        data k !! key_of k = None ->
        data (snd (check clock true booking_time k)) !! key_of k = Some b ->
        productive_time b = 0%Q
        /\ is_Some (checkin_timestamp b)
        /\ checkout_timestamp b = None).
Proof.
  split.
  - intros l path key d b Hd Hb.
    assert (W : Aux.world_inv (runs l empty_world)).
    { apply runs_inv. intros p d' H. cbn in H. now rewrite lookup_empty in H. }
    exact (W _ _ Hd _ _ Hb).
  - intros clock bt k b Hnone Hb.
    destruct (Aux.booking_date_of k bt) as [t|] eqn:E.
    + destruct (check_state clock true bt k t E) as (F1 & _).
      rewrite F1, lookup_insert_eq in Hb.
      injection Hb as <-.
      pose proof (booked_fields k true t) as (Fi & Fo & _).
      pose proof (booked_productive_time k true t) as Fp.
      rewrite Fp, Fi, Fo, Hnone. cbn. repeat split. now exists t.
    + rewrite check_invalid_time in Hb by exact E. cbn in Hb. congruence.
Qed.

(** C7.  On a day that has a booking, recording a check-in stores the new
    timestamp as [checkin_timestamp] and leaves [checkout_timestamp] as it
    was; recording a check-out stores it as [checkout_timestamp] and leaves
    [checkin_timestamp] as it was; [pause], [category] and [description]
    are unchanged by either, and the saved document is the updated store. *)
Theorem recheck_overwrites_one_timestamp
        clock (checkin : bool) (booking_time : option string) (k : Keeper)
        (old : Booking) (t : datetime) :
  data k !! key_of k = Some old ->
  Aux.booking_date_of k booking_time = Some t ->
  let k' := snd (check clock checkin booking_time k) in
  exists b,
    data k' !! key_of k = Some b
    /\ store_docs (world k') !! keeper_file_path k = Some (data k')
    /\ (if checkin
        then checkin_timestamp b = Some t
             /\ checkout_timestamp b = checkout_timestamp old
        else checkout_timestamp b = Some t
             /\ checkin_timestamp b = checkin_timestamp old)
    /\ pause b = pause old
    /\ category b = category old
    /\ description b = description old.
Proof.
  intros Hold Ht k'. subst k'.
  destruct (check_state clock checkin booking_time k t Ht) as (F1 & F2 & _).
  pose proof (booked_fields k checkin t) as (Fi & Fo & Fp & Fc & Fd).
  rewrite ?Hold in Fi, Fo, Fp, Fc, Fd.
  cbn [default] in Fi, Fo, Fp, Fc, Fd.
  exists (Aux.booked k checkin t).
  rewrite F2, F1, !lookup_insert_eq.
  repeat split; try assumption.
  destruct checkin; split; assumption.
Qed.

End Claims_check.

Section Claims_runs.
Import Calendar.

Abbreviation key_of k := (Format.strftime_Ymd (day_to_work_on k)).

(** C2 (as amended).  A check-in or check-out recorded without an explicit
    time but with [--date] is stamped with the date-time parsed from the
    [--date] value itself, and stored under that value's own day-key; the
    wall-clock reading taken at process start is the timestamp only when no
    [--date] is given. *)
Theorem check_now_timestamp clock (w : World) (checkin : bool) :
  (forall (s : string) (d : datetime),
      Format.fromisoformat s = Some d ->
      exists docs b,
        store_docs
          (snd (run clock
                  (mkArgs None (Some s) checkin None (negb checkin) None
                          false false false) w))
        !! keeper_file_path (init clock w) = Some docs
        /\ docs !! Format.strftime_Ymd d = Some b
        /\ (if checkin then checkin_timestamp b else checkout_timestamp b)
           = Some d)
  /\ (exists docs b,
        store_docs
          (snd (run clock
                  (mkArgs None None checkin None (negb checkin) None
                          false false false) w))
        !! keeper_file_path (init clock w) = Some docs
        /\ docs !! Format.strftime_Ymd (clock 0%nat) = Some b
        /\ (if checkin then checkin_timestamp b else checkout_timestamp b)
           = Some (clock 0%nat)).
Proof.
  split.
  - intros s d Hs.
    assert (E : mkArgs None (Some s) checkin None (negb checkin) None
                       false false false
                = Aux.one_check (Some s) checkin None)
      by now destruct checkin.
    rewrite E, (run_dated_check clock w s d checkin None Hs). cbn [snd].
    set (k := set_day_to_work_on d (init clock w)).
    destruct (check_state clock checkin None k d eq_refl) as (F1 & F2 & _).
    pose proof (booked_fields k checkin d) as (Fi & Fo & _).
    exists (data (snd (check clock checkin None k))), (Aux.booked k checkin d).
    rewrite F2. change (keeper_file_path k) with (keeper_file_path (init clock w)).
    rewrite lookup_insert_eq. split; [reflexivity|].
    rewrite F1. change (key_of k) with (Format.strftime_Ymd d).
    rewrite lookup_insert_eq. split; [reflexivity|].
    destruct checkin; assumption.
  - assert (E : mkArgs None None checkin None (negb checkin) None
                       false false false
                = Aux.one_check None checkin None)
      by now destruct checkin.
    rewrite E, (run_one_check clock w checkin None). cbn [snd].
    set (k := init clock w).
    assert (Hd : day_to_work_on k = clock 0%nat) by apply init_fields.
    destruct (check_state clock checkin None k (clock 0%nat)) as (F1 & F2 & _).
    { unfold Aux.booking_date_of. cbn. now rewrite Hd. }
    pose proof (booked_fields k checkin (clock 0%nat)) as (Fi & Fo & _).
    exists (data (snd (check clock checkin None k))),
      (Aux.booked k checkin (clock 0%nat)).
    rewrite F2, lookup_insert_eq. split; [reflexivity|].
    rewrite F1, Hd, lookup_insert_eq. split; [reflexivity|].
    destruct checkin; assumption.
Qed.

(** C9.  Rendering is partial.  A list of keys that contains the key of a
    booking without a check-in timestamp makes [print_table] raise, and
    nothing is printed.  Such a booking is reachable: [--checkout] on a day
    that has no booking saves the booking, with the check-out only, to the
    store document and then fails with [TypeError] while rendering it. *)
Theorem render_fails_without_checkin clock :
  (forall (keys : list string) (k : Keeper) (key : string) (day : Booking),
      In key keys -> data k !! key = Some day ->
      checkin_timestamp day = None ->
      exists e, fst (print_table clock keys k) = Raise e
                /\ world (snd (print_table clock keys k)) = world k)
  /\ (forall (w : World),
        data (init clock w) !! Format.strftime_Ymd (clock 0%nat) = None ->
        let r := run clock (mkArgs None None false None true None
                                   false false false) w in
        fst r = Raise TypeError
        /\ store_docs (snd r) !! keeper_file_path (init clock w)
           = Some (<[Format.strftime_Ymd (clock 0%nat) :=
                       mkBooking None (Some (clock 0%nat)) (1 # 2) 0 MOBILE None]>
                     (data (init clock w)))
        /\ stdout (snd r) = stdout w).
Proof.
  split.
  - intros keys k key day. apply print_table_raise.
  - intros w Hnone r. subst r.
    change (mkArgs None None false None true None false false false)
      with (Aux.one_check None false None).
    rewrite run_one_check. cbn [fst snd].
    set (k := init clock w) in *.
    assert (Hd : day_to_work_on k = clock 0%nat) by apply init_fields.
    assert (Hs : stdout (world k) = stdout w) by apply init_fields.
    assert (Ht : Aux.booking_date_of k None = Some (clock 0%nat)).
    { unfold Aux.booking_date_of. cbn. now rewrite Hd. }
    rewrite <- Hd in Hnone.
    pose proof (check_out_without_checkin clock None k _ Hnone Ht) as R.
    destruct (check_state clock false None k _ Ht) as (F1 & F2 & _ & F4 & _).
    rewrite R in F4. rewrite R, F2, F4, F1, lookup_insert_eq.
    rewrite (booked_fresh k false _ Hnone), Hd, Hs, app_nil_r.
    repeat split.
Qed.

End Claims_runs.

Section Claims_hours.
Import Calendar.

Abbreviation key_of k := (Format.strftime_Ymd (day_to_work_on k)).

(** C1 (as amended).  After a check-in and then a check-out on one day-key,
    both timestamps are present and saved, and when the check-out timestamp
    is not earlier than the check-in timestamp the stored productive time
    is [quarter_round] of the whole seconds elapsed between them, in hours,
    minus the process-wide default pause length.  In particular, on an
    empty store a check-in at 09:00 and a check-out at 17:30 on 2024-01-10
    give productive time 8, pause 0.5 and category MOBILE. *)
Theorem check_in_then_out_productive_time :
  (forall clock (bt_in bt_out : option string) (k k1 k2 : Keeper),
      valid_datetime (day_to_work_on k) = true ->
      check clock true bt_in k = (Ok tt, k1) ->
      check clock false bt_out k1 = (Ok tt, k2) ->
      (exists b,
          data k2 !! key_of k = Some b
          /\ store_docs (world k2) !! keeper_file_path k = Some (data k2)
          /\ is_Some (checkin_timestamp b)
          /\ is_Some (checkout_timestamp b))
      /\ (forall (b : Booking) (ci co : datetime),
            data k2 !! key_of k = Some b ->
            checkin_timestamp b = Some ci ->
            checkout_timestamp b = Some co ->
            abs_us ci <= abs_us co ->
            (productive_time b
             == quarter_round (inject_Z (Aux.elapsed_seconds ci co) / 3600)
                - default_pause_length k)%Q))
  /\ (forall clock1 clock2,
        exists b,
          store_docs (runs [(clock1, Aux.scenario_in); (clock2, Aux.scenario_out)]
                           empty_world) !! "keeper.json"
          ≫= (fun d => d !! "2024-01-10") = Some b
          /\ checkin_timestamp b = Some (mkDatetime 2024 1 10 9 0 0 0)
          /\ checkout_timestamp b = Some (mkDatetime 2024 1 10 17 30 0 0)
          /\ (productive_time b == 8)%Q
          /\ pause b = (1 # 2)%Q
          /\ category b = MOBILE).
Proof.
  split.
  - intros clock bt_in bt_out k k1 k2 V H1 H2.
    destruct (check_in_then_out_state clock _ _ _ _ _ H1 H2)
      as (ci & co & Hci & Hco & Hb & Hs).
    split.
    { eexists. split; [exact Hb|]. split; [exact Hs|].
      split; eexists; reflexivity. }
    intros b ci' co' Hb' Hi Ho Hle. rewrite Hb in Hb'.
    injection Hb' as <-. cbn in Hi, Ho. injection Hi as <-.
    injection Ho as <-. cbn [productive_time].
    destruct (booking_date_valid k _ _ V Hci) as [Vi Si].
    destruct (booking_date_valid k _ _ V Hco) as [Vo So].
    assert (S : Aux.same_date ci co).
    { unfold Aux.same_date in *. intuition congruence. }
    pose proof (ElapsedFacts.elapsed_same_date ci co Vi Vo S Hle) as B.
    rewrite quarter_round_sub, Z.mod_small by exact B. reflexivity.
  - intros clock1 clock2. eexists. vm_compute. repeat split.
Qed.

(** C10.  The productive time that [__check] stores and the live estimate
    of the renderer are computed from the seconds component of the
    difference of the timestamps: the whole seconds elapsed, modulo 24
    hours.  Whole days are discarded, so the value is the rounding of the
    true elapsed hours less 24 hours for every whole day, which is another
    value as soon as the later timestamp is 24 hours or more after the
    earlier one, or before it. *)
Theorem hours_discard_whole_days clock :
  (forall (checkin : bool) (booking_time : option string) (k : Keeper)
          (b : Booking) (ci co : datetime),
      fst (check clock checkin booking_time k) <> Raise ValueError ->
      data (snd (check clock checkin booking_time k)) !! key_of k = Some b ->
      checkin_timestamp b = Some ci -> checkout_timestamp b = Some co ->
      (productive_time b
       == quarter_round
            (inject_Z (Aux.elapsed_seconds ci co mod 86400) / 3600)
          - default_pause_length k)%Q
      /\ (productive_time b
          == quarter_round (inject_Z (Aux.elapsed_seconds ci co) / 3600)
             - 24 * inject_Z (Aux.elapsed_seconds ci co / 86400)
             - default_pause_length k)%Q)
  /\ (forall (key : string) (k : Keeper) (day : Booking) (ci : datetime),
        data k !! key = Some day ->
        checkin_timestamp day = Some ci ->
        float_truthy (productive_time day) = false ->
        exists row k' v,
          table_row clock key k = (Ok row, k')
          /\ row !! 4%nat = Some (CNum v)
          /\ (v == quarter_round
                     (inject_Z
                        (Aux.elapsed_seconds ci (clock (reads k)) mod 86400)
                      / 3600)
                   - pause day)%Q
          /\ (v == quarter_round
                     (inject_Z (Aux.elapsed_seconds ci (clock (reads k)))
                      / 3600)
                   - 24 * inject_Z
                            (Aux.elapsed_seconds ci (clock (reads k)) / 86400)
                   - pause day)%Q).
Proof.
  split.
  - intros checkin bt k b ci co Hok Hb Hi Ho.
    destruct (check_not_ValueError clock _ _ _ Hok) as [t Ht].
    destruct (check_state clock checkin bt k t Ht) as (F1 & _).
    rewrite F1, lookup_insert_eq in Hb. injection Hb as <-.
    rewrite booked_productive_time, Hi, Ho, quarter_round_sub.
    split; [reflexivity|]. now rewrite quarter_round_wrapped.
  - intros key k day ci Hd Hc Hz.
    rewrite (table_row_booking clock _ _ _ _ Hd Hc), Hz.
    eexists _, _, _. split; [reflexivity|]. split; [reflexivity|].
    rewrite quarter_round_sub.
    split; [reflexivity|]. now rewrite quarter_round_wrapped.
Qed.

(** C3 (as amended).  In the table that [print_table] prints, the row of
    every key with a booking shows in the PROD TIME column the persisted
    productive time when that is not zero, and otherwise the live estimate:
    [quarter_round] of the whole seconds from the check-in timestamp to
    now, modulo 24 hours and in hours, minus the pause field of the
    booking itself.  The persisted productive time is computed with the
    process-wide default pause length instead. *)
Theorem displayed_productive_time clock :
  (forall (keys : list string) (k k' : Keeper),
      print_table clock keys k = (Ok tt, k') ->
      exists rows,
        stdout (world k') = (stdout (world k) ++ [Table (header :: rows)])%list
        /\ header !! 4%nat = Some (CStr "PROD TIME")
        /\ length rows = length keys
        /\ forall (i : nat) (key : string) (day : Booking),
             keys !! i = Some key -> data k !! key = Some day ->
             exists ci row n,
               checkin_timestamp day = Some ci
               /\ rows !! i = Some row
               /\ (reads k <= n <= reads k')%nat
               /\ row !! 4%nat
                  = Some (CNum
                            (if float_truthy (productive_time day)
                             then productive_time day
                             else (quarter_round
                                     (inject_Z
                                        (Aux.elapsed_seconds ci (clock n)
                                         mod 86400) / 3600)
                                   - pause day)%Q)))
  /\ (forall (checkin : bool) (booking_time : option string) (k : Keeper)
             (b : Booking) (ci co : datetime),
        fst (check clock checkin booking_time k) <> Raise ValueError ->
        data (snd (check clock checkin booking_time k)) !! key_of k = Some b ->
        checkin_timestamp b = Some ci -> checkout_timestamp b = Some co ->
        productive_time b
        = (quarter_round
             (inject_Z (Aux.elapsed_seconds ci co mod 86400) / 3600)
           - default_pause_length k)%Q).
Proof.
  split.
  - intros keys k k' H.
    destruct (print_table_spec clock keys k k' H) as (rows & Ho & Hl & Hr).
    exists rows. split; [exact Ho|]. split; [reflexivity|].
    split; [exact Hl|].
    intros i key day Hi Hd.
    destruct (Hr i key day Hi Hd) as (ci & row & n & Hc & Hrow & Hn & Hv).
    exists ci, row, n. rewrite quarter_round_sub in Hv. auto.
  - intros checkin bt k b ci co Hok Hb Hi Ho.
    destruct (check_not_ValueError clock _ _ _ Hok) as [t Ht].
    destruct (check_state clock checkin bt k t Ht) as (F1 & _).
    rewrite F1, lookup_insert_eq in Hb. injection Hb as <-.
    now rewrite booked_productive_time, Hi, Ho, quarter_round_sub.
Qed.

End Claims_hours.

Section Claims_keys.
Import Calendar.

(** C6 (as amended).  For every [n] from 1 up to the ordinal of today, and
    provided the clock stays on today's date during the call,
    [generate_day_keys n] returns exactly [n] day-keys, pairwise distinct,
    the first one today's, the [i]-th one the key of the calendar day [i]
    days before today; in particular [generate_day_keys 1] is the list of
    today's key alone. *)
Theorem generate_day_keys_consecutive
        clock (k : Keeper) (n : Z) (today : datetime) :
  valid_datetime today = true ->
  1 <= n <= toordinal today ->
  (forall i, (i < Z.to_nat n)%nat ->
             valid_datetime (clock (reads k + i)%nat) = true
             /\ Aux.same_date (clock (reads k + i)%nat) today) ->
  exists keys,
    generate_day_keys clock n k
    = (Ok keys, set_reads (reads k + Z.to_nat n) k)
    /\ Z.of_nat (length keys) = n
    /\ NoDup keys
    /\ keys !! 0%nat = Some (Format.strftime_Ymd today)
    /\ (n = 1 -> keys = [Format.strftime_Ymd today])
    /\ forall i, (i < Z.to_nat n)%nat ->
         exists d,
           keys !! i = Some (Format.strftime_Ymd d)
           /\ valid_datetime d = true
           /\ toordinal d = toordinal today - Z.of_nat i.
Proof.
  intros V Hn Hc.
  set (T := toordinal today) in *.
  assert (HT : 1 <= T <= MAXORDINAL).
  { apply valid_datetime_time in V. destruct V as [V _].
    apply CalendarFacts.ymd2ord_range, V. }
  set (f := fun j : nat => Aux.day_key (T - Z.of_nat j)).
  assert (Hloop : generate_day_keys clock n k
                  = (Ok (map f (seq 0 (Z.to_nat n))),
                     set_reads (reads k + Z.to_nat n) k)).
  { unfold generate_day_keys, range.
    rewrite (day_keys_loop_spec clock T); [reflexivity| |lia|lia].
    intros i Hi. destruct (Hc i Hi) as [Vi (Ey & Em & Ed)].
    split; [exact Vi|]. unfold T, toordinal. now rewrite Ey, Em, Ed. }
  assert (Hlookup : forall i, (i < Z.to_nat n)%nat ->
                              map f (seq 0 (Z.to_nat n)) !! i = Some (f i)).
  { intros i Hi. change (map f (seq 0 (Z.to_nat n)))
      with (f <$> seq 0 (Z.to_nat n)).
    rewrite list_lookup_fmap, lookup_seq_lt by exact Hi. reflexivity. }
  exists (map f (seq 0 (Z.to_nat n))).
  split; [exact Hloop|]. split.
  { rewrite length_map, length_seq. lia. }
  split.
  { change (map f (seq 0 (Z.to_nat n))) with (f <$> seq 0 (Z.to_nat n)).
    apply NoDup_ListNoDup.
    apply NoDup_fmap_2_strong; [|apply NoDup_seq].
    intros x y Hx Hy E. apply elem_of_seq in Hx, Hy.
    apply day_key_inj in E; lia. }
  split.
  { rewrite Hlookup by lia. unfold f. cbn [Z.of_nat]. rewrite Z.sub_0_r.
    unfold T. now rewrite (day_key_today today V). }
  split.
  { intros ->. change (Z.to_nat 1) with 1%nat. cbn [seq map].
    unfold f. cbn [Z.of_nat]. rewrite Z.sub_0_r.
    unfold T. now rewrite (day_key_today today V). }
  intros i Hi. rewrite (Hlookup i Hi). unfold f.
  destruct (day_key_spec (T - Z.of_nat i) ltac:(lia))
    as (y & m & d & K & Vd & O).
  exists (mkDatetime y m d 0 0 0 0). rewrite K.
  split; [reflexivity|]. split; [|exact O].
  unfold valid_datetime. cbn. now rewrite Vd.
Qed.

(** C8.  A [--category] value outside the enumeration is answered with a
    warning line and the run ends normally; a valid value is echoed.  In
    both cases the store documents are those the process started with, and
    on every command line the category option changes neither the outcome
    of the run nor the record store, in memory or saved. *)
Theorem category_is_soft_and_inert clock :
  (forall (c : string) (w : World),
      str_truthy (Some c) = true ->
      let r := run clock (mkArgs (Some c) None false None false None
                                 false false false) w in
      fst r = Ok tt
      /\ store_docs (snd r) = store_docs (world (init clock w))
      /\ stdout (snd r)
         = (stdout w
            ++ [Line (if in_BookingCategory c then c
                      else "Unknown value: " +:+ c)])%list)
  /\ (forall (args : Args) (c : option string) (k : Keeper),
        let x := process_args clock (Aux.with_category c args) k in
        let y := process_args clock (Aux.with_category None args) k in
        fst x = fst y
        /\ data (snd x) = data (snd y)
        /\ store_docs (world (snd x)) = store_docs (world (snd y))).
Proof.
  split.
  - intros c w T r. subst r. rewrite (run_category_only clock c w T).
    repeat split.
  - intros args c k x y. subst x y.
    destruct (process_args_category clock args c k) as (A & B & C & _).
    auto.
Qed.

End Claims_keys.
(** ** The rounding call *)

Section RoundingCall.
Local Open Scope Q_scope.

Lemma quarter_quotient (x : Q) : Qabs (x / (1 # 4)) == 4 * Qabs x.
Proof.
  assert (E : x / (1 # 4) == 4 * x) by field.
  rewrite E, Qabs_Qmult. reflexivity.
Qed.

Lemma quarter_max : inject_Z FLOAT_MAX / 4 == inject_Z FLOAT_MAX * (1 # 4).
Proof. field. Qed.

Lemma quarter_round_call_in (x : Q) :
  Qabs x <= inject_Z FLOAT_MAX / 4 ->
  quarter_round_call x = Ok (quarter_round x).
Proof.
  intros H. rewrite quarter_max in H. unfold quarter_round_call.
  assert (L : Qle_bool (Qabs (x / (1 # 4))) (inject_Z FLOAT_MAX) = true).
  { apply Qle_bool_iff. rewrite quarter_quotient.
    set (F := inject_Z FLOAT_MAX) in *. lra. }
  now rewrite L.
Qed.

Lemma quarter_round_call_out (x : Q) :
  inject_Z FLOAT_MAX / 4 < Qabs x ->
  quarter_round_call x = Raise OverflowError.
Proof.
  intros H. rewrite quarter_max in H. unfold quarter_round_call.
  destruct (Qle_bool (Qabs (x / (1 # 4))) (inject_Z FLOAT_MAX)) eqn:L;
    [|reflexivity].
  apply Qle_bool_iff in L. rewrite quarter_quotient in L.
  set (F := inject_Z FLOAT_MAX) in *. lra.
Qed.

(** Rounding does not leave the range of the call. *)
Lemma quarter_round_in_range (x : Q) :
  Qabs x <= inject_Z FLOAT_MAX / 4 ->
  Qabs (quarter_round x) <= inject_Z FLOAT_MAX / 4.
Proof.
  intros H. rewrite quarter_max in *.
  assert (Hx : - (inject_Z FLOAT_MAX * (1 # 4)) <= x
               /\ x <= inject_Z FLOAT_MAX * (1 # 4)).
  { apply Qabs_Qle_condition in H.
    set (F := inject_Z FLOAT_MAX) in *. split; lra. }
  destruct Hx as [Lo Hi].
  assert (Lo' : inject_Z (- FLOAT_MAX) * (1 # 4) <= x)
    by (rewrite inject_Z_opp; set (F := inject_Z FLOAT_MAX) in *; lra).
  apply quarter_round_mono in Lo', Hi.
  rewrite quarter_round_of_multiple in Lo', Hi.
  rewrite inject_Z_opp in Lo'.
  apply Qabs_Qle_condition.
  set (F := inject_Z FLOAT_MAX) in *. split; lra.
Qed.

(** The hours of a [timedelta] are below 24: the calls of [__check] and
    [print_table] never leave the range. *)
Lemma quarter_round_call_hours (a b : Calendar.datetime) :
  quarter_round_call (seconds_as_hours (Calendar.datetime_sub b a))
  = Ok (quarter_round (seconds_as_hours (Calendar.datetime_sub b a))).
Proof.
  apply quarter_round_call_in.
  pose proof (ElapsedFacts.datetime_sub_seconds_range b a) as R.
  pose proof (seconds_as_hours_eq (Calendar.datetime_sub b a)) as E.
  set (h := seconds_as_hours _) in *.
  set (s := Calendar.seconds _) in *.
  assert (B : 0 <= inject_Z s /\ inject_Z s <= 86400).
  { split; [change 0 with (inject_Z 0) | change 86400 with (inject_Z 86400)];
      rewrite <- Zle_Qle; lia. }
  assert (E' : h == inject_Z s * (1 # 3600)) by (rewrite E; reflexivity).
  assert (Big : 24 <= inject_Z FLOAT_MAX * (1 # 4)).
  { apply Qle_bool_iff. vm_compute. reflexivity. }
  rewrite quarter_max.
  apply Qabs_Qle_condition. split; lra.
Qed.

(** C5.  For every [x] up to a quarter of the largest float in magnitude,
    the call [quarter_round x] returns a multiple of 0.25 that lies within
    0.125 of [x], no multiple of 0.25 is nearer to [x], and the call on the
    result returns the result again; for every [x] beyond that bound the
    call raises [OverflowError]. *)
Theorem quarter_round_call_nearest_idempotent (x : Q) :
  (Qabs x <= inject_Z FLOAT_MAX / 4 ->
   exists q : Q,
     quarter_round_call x = Ok q
     /\ (exists n : Z, q == inject_Z n * (1 # 4))
     /\ Qabs (q - x) <= 1 # 8
     /\ (forall m : Z, Qabs (q - x) <= Qabs (inject_Z m * (1 # 4) - x))
     /\ exists q' : Q, quarter_round_call q = Ok q' /\ q' == q)
  /\ (inject_Z FLOAT_MAX / 4 < Qabs x ->
      quarter_round_call x = Raise OverflowError).
Proof.
  split; [|apply quarter_round_call_out].
  intros H. exists (quarter_round x).
  destruct (quarter_round_nearest x) as (Hn & Hc & Hm & Hi).
  split; [now apply quarter_round_call_in|].
  split; [exact Hn|]. split; [exact Hc|]. split; [exact Hm|].
  exists (quarter_round (quarter_round x)). split; [|exact Hi].
  apply quarter_round_call_in. now apply quarter_round_in_range.
Qed.

End RoundingCall.


(** * Counterexamples to the claims as the specification words them *)

Section Counterexamples.
Import Calendar Sample.

(** C1 as stated fails when the check-out is earlier in the day than the
    check-in: after a check-in at 17:30 and a check-out at 09:00 the
    stored productive time is 15, which is [quarter_round] of the hours
    between the two timestamps minus the default pause (0.5) in neither
    direction. *)
Lemma check_in_then_out_counterexample :
  exists b ci co,
    store_docs (runs [(clock_noon, late_in); (clock_noon, early_out)]
                     empty_world) !! "keeper.json"
    ≫= (fun d => d !! "2024-01-10") = Some b
    /\ checkin_timestamp b = Some ci
    /\ checkout_timestamp b = Some co
    /\ (productive_time b == 15)%Q
    /\ (quarter_round (Aux.hours_between ci co) - (1 # 2) == -9)%Q
    /\ ~ (productive_time b
          == quarter_round (Aux.hours_between ci co) - (1 # 2))%Q
    /\ ~ (productive_time b
          == quarter_round (Aux.hours_between co ci) - (1 # 2))%Q.
Proof.
  eexists _, _, _. split; [vm_compute; reflexivity|].
  split; [reflexivity|]. split; [reflexivity|].
  repeat split; try (vm_compute; reflexivity);
    intros H; vm_compute in H; discriminate H.
Qed.

(** C2 as stated fails: [--date 2024-01-10 --checkin], run in the
    afternoon of 2024-03-05, stamps the booking with midnight of
    2024-01-10, not with the wall clock. *)
Lemma check_now_timestamp_counterexample :
  exists b,
    store_docs (snd (run clock_march checkin_dated empty_world))
    !! "keeper.json" ≫= (fun d => d !! "2024-01-10") = Some b
    /\ checkin_timestamp b = Some (mkDatetime 2024 1 10 0 0 0 0)
    /\ checkin_timestamp b <> Some (clock_march 0).
Proof.
  eexists. split; [vm_compute; reflexivity|].
  split; [reflexivity | discriminate].
Qed.

(** C3 as stated fails for a check-in of the day before: with a check-in
    at 09:00 on 2024-01-09 and no check-out, the week view of 15:00 on
    2024-01-10 shows 5.5 hours for that day, while 30 hours lie between
    the check-in and now. *)
Lemma displayed_productive_time_counterexample :
  exists rows row v,
    stdout (runs [(clock_jan9, checkin_now); (clock_jan10, week)]
                 empty_world) !! 1%nat = Some (Table rows)
    /\ rows !! 2%nat = Some row
    /\ row !! 1%nat = Some (CStr "2024-01-09")
    /\ row !! 4%nat = Some (CNum v)
    /\ (v == 11 # 2)%Q
    /\ (Aux.hours_between (clock_jan9 0) (clock_jan10 0) == 30)%Q
    /\ ~ (v == quarter_round
                 (Aux.hours_between (clock_jan9 0) (clock_jan10 0))
               - (1 # 2))%Q.
Proof.
  eexists _, _, _. split; [vm_compute; reflexivity|].
  split; [reflexivity|]. split; [reflexivity|]. split; [reflexivity|].
  split; [reflexivity|]. split; [reflexivity|].
  intros H; vm_compute in H; discriminate H.
Qed.

(** C6 as stated fails in two ways.  Going back further than the first day
    of the calendar overflows: at noon of 2024-01-10, whose ordinal is
    738895, [generate_day_keys 1000000] raises [OverflowError].  And when
    midnight passes between two readings of the clock, the keys repeat. *)
Lemma generate_day_keys_counterexample :
  toordinal (clock_noon 0) = 738895
  /\ fst (generate_day_keys clock_noon 1000000 k0) = Raise OverflowError
  /\ fst (generate_day_keys clock_midnight 2 (init clock_midnight empty_world))
     = Ok ["2024-01-10"; "2024-01-10"]
  /\ ~ NoDup ["2024-01-10"; "2024-01-10"].
Proof.
  split; [reflexivity|]. split.
  - unfold generate_day_keys.
    apply (day_keys_loop_overflow clock_noon _ _ _ 738895).
    + intros i. split; reflexivity.
    + exists 738895. split; [apply CalendarFacts.range_In; lia | lia].
  - split; [vm_compute; reflexivity|].
    intros H. inversion H as [|x l Hin _]. apply Hin. now left.
Qed.

(** C5 as stated fails for a large [x]: [2^1023] is a finite float, four
    times it is not, and the call raises [OverflowError] instead of
    returning a multiple of 0.25. *)
Lemma quarter_round_call_counterexample :
  (0 <= inject_Z (2 ^ 1023) <= inject_Z FLOAT_MAX)%Q
  /\ quarter_round_call (inject_Z (2 ^ 1023)) = Raise OverflowError
  /\ ~ exists q : Q, quarter_round_call (inject_Z (2 ^ 1023)) = Ok q.
Proof.
  assert (R : quarter_round_call (inject_Z (2 ^ 1023)) = Raise OverflowError)
    by (vm_compute; reflexivity).
  split; [split; apply Qle_bool_iff; vm_compute; reflexivity|].
  split; [exact R|].
  intros [q Hq]. rewrite R in Hq. discriminate Hq.
Qed.

End Counterexamples.

(** * The theorems at concrete inputs *)

Section Witnesses.
Import Calendar Sample.

Lemma check_in_then_out_witness :
  valid_datetime (day_to_work_on k0) = true
  /\ check clock_noon true (Some "09:00") k0 = (Ok tt, k1)
  /\ check clock_noon false (Some "17:30") k1 = (Ok tt, k2)
  /\ exists b,
       data k2 !! "2024-01-10" = Some b
       /\ abs_us (mkDatetime 2024 1 10 9 0 0 0)
          <= abs_us (mkDatetime 2024 1 10 17 30 0 0)
       /\ (productive_time b
           == quarter_round
                (inject_Z (Aux.elapsed_seconds
                             (mkDatetime 2024 1 10 9 0 0 0)
                             (mkDatetime 2024 1 10 17 30 0 0)) / 3600)
              - default_pause_length k0)%Q.
Proof.
  assert (V : valid_datetime (day_to_work_on k0) = true) by reflexivity.
  assert (H1 : check clock_noon true (Some "09:00") k0 = (Ok tt, k1))
    by (vm_compute; reflexivity).
  assert (H2 : check clock_noon false (Some "17:30") k1 = (Ok tt, k2))
    by (vm_compute; reflexivity).
  assert (L : abs_us (mkDatetime 2024 1 10 9 0 0 0)
              <= abs_us (mkDatetime 2024 1 10 17 30 0 0))
    by (vm_compute; discriminate).
  split; [exact V|]. split; [exact H1|]. split; [exact H2|].
  eexists. split; [vm_compute; reflexivity|]. split; [exact L|].
  apply (proj2 (proj1 check_in_then_out_productive_time
                  clock_noon (Some "09:00") (Some "17:30") k0 k1 k2
                  V H1 H2));
    [vm_compute; reflexivity | reflexivity | reflexivity | exact L].
Defined.

Lemma check_now_timestamp_witness :
  Format.fromisoformat "2024-01-10" = Some (mkDatetime 2024 1 10 0 0 0 0)
  /\ exists docs b,
       store_docs (snd (run clock_march checkin_dated empty_world))
       !! keeper_file_path (init clock_march empty_world) = Some docs
       /\ docs !! Format.strftime_Ymd (mkDatetime 2024 1 10 0 0 0 0) = Some b
       /\ checkin_timestamp b = Some (mkDatetime 2024 1 10 0 0 0 0).
Proof.
  assert (H : Format.fromisoformat "2024-01-10"
              = Some (mkDatetime 2024 1 10 0 0 0 0)) by reflexivity.
  split; [exact H|].
  exact (proj1 (check_now_timestamp clock_march empty_world true)
               "2024-01-10" (mkDatetime 2024 1 10 0 0 0 0) H).
Defined.

Lemma displayed_productive_time_witness :
  print_table clock_noon ["2024-01-10"] k1
  = (Ok tt, snd (print_table clock_noon ["2024-01-10"] k1))
  /\ exists rows,
       stdout (world (snd (print_table clock_noon ["2024-01-10"] k1)))
       = (stdout (world k1) ++ [Table (header :: rows)])%list
       /\ length rows = 1%nat.
Proof.
  assert (H : print_table clock_noon ["2024-01-10"] k1
              = (Ok tt, snd (print_table clock_noon ["2024-01-10"] k1)))
    by (vm_compute; reflexivity).
  split; [exact H|].
  destruct (proj1 (displayed_productive_time clock_noon) _ _ _ H)
    as (rows & Ho & _ & Hl & _).
  exists rows. split; [exact Ho | exact Hl].
Defined.

Lemma productive_time_needs_both_timestamps_witness :
  let b := mkBooking (Some (mkDatetime 2024 1 10 9 0 0 0))
                     (Some (mkDatetime 2024 1 10 17 30 0 0))
                     (1 # 2) (64 # 8) MOBILE None in
  let d : gmap string Booking := <["2024-01-10" := b]> ∅ in
  store_docs (runs [(clock_noon, Aux.scenario_in);
                    (clock_noon, Aux.scenario_out)] empty_world)
  !! "keeper.json" = Some d
  /\ d !! "2024-01-10" = Some b
  /\ ~ (productive_time b == 0)%Q
  /\ is_Some (checkin_timestamp b) /\ is_Some (checkout_timestamp b).
Proof.
  intros b d.
  assert (Hd : store_docs (runs [(clock_noon, Aux.scenario_in);
                                 (clock_noon, Aux.scenario_out)] empty_world)
               !! "keeper.json" = Some d) by (vm_compute; reflexivity).
  assert (Hb : d !! "2024-01-10" = Some b) by (vm_compute; reflexivity).
  assert (Hz : ~ (productive_time b == 0)%Q)
    by (intros H; vm_compute in H; discriminate H).
  split; [exact Hd|]. split; [exact Hb|]. split; [exact Hz|].
  exact (proj1 productive_time_needs_both_timestamps _ _ _ _ _ Hd Hb Hz).
Defined.

Lemma generate_day_keys_witness :
  valid_datetime (clock_noon 0) = true
  /\ 1 <= 7 <= toordinal (clock_noon 0)
  /\ exists keys,
       generate_day_keys clock_noon 7 k0
       = (Ok keys, set_reads (reads k0 + Z.to_nat 7) k0)
       /\ Z.of_nat (length keys) = 7
       /\ NoDup keys
       /\ keys !! 0%nat = Some (Format.strftime_Ymd (clock_noon 0)).
Proof.
  assert (V : valid_datetime (clock_noon 0) = true) by reflexivity.
  assert (R : 1 <= 7 <= toordinal (clock_noon 0))
    by (split; vm_compute; discriminate).
  split; [exact V|]. split; [exact R|].
  destruct (generate_day_keys_consecutive clock_noon k0 7 (clock_noon 0) V R)
    as (keys & H1 & H2 & H3 & H4 & _).
  - intros i _. split; [reflexivity | repeat split].
  - exists keys. auto.
Defined.

Lemma recheck_witness :
  exists old,
    data k1 !! Format.strftime_Ymd (day_to_work_on k1) = Some old
    /\ Aux.booking_date_of k1 (Some "10:00")
       = Some (mkDatetime 2024 1 10 10 0 0 0)
    /\ exists b,
         data (snd (check clock_noon true (Some "10:00") k1))
         !! Format.strftime_Ymd (day_to_work_on k1) = Some b
         /\ checkin_timestamp b = Some (mkDatetime 2024 1 10 10 0 0 0)
         /\ checkout_timestamp b = checkout_timestamp old
         /\ pause b = pause old
         /\ category b = category old
         /\ description b = description old.
Proof.
  eexists.
  refine (let Ho := _ in let Ht := _ in conj Ho (conj Ht _)).
  destruct (recheck_overwrites_one_timestamp
              clock_noon true (Some "10:00") k1 _ _ Ho Ht)
    as (b & Hb & _ & [Hi Hc] & Hp & Hg & Hd).
  exists b. auto 10.
  Unshelve.
  - vm_compute; reflexivity.
  - vm_compute; reflexivity.
Defined.

Lemma category_witness :
  str_truthy (Some "mobile") = true
  /\ fst (run clock_noon (mkArgs (Some "mobile") None false None false None
                                 false false false) empty_world) = Ok tt
  /\ stdout (snd (run clock_noon
                     (mkArgs (Some "mobile") None false None false None
                             false false false) empty_world))
     = [Line "Unknown value: mobile"].
Proof.
  assert (T : str_truthy (Some "mobile") = true) by reflexivity.
  split; [exact T|].
  destruct (proj1 (category_is_soft_and_inert clock_noon)
                  "mobile" empty_world T) as (A & _ & B).
  split; [exact A | exact B].
Defined.

Lemma render_fails_witness :
  data (init clock_noon empty_world)
  !! Format.strftime_Ymd (clock_noon 0) = None
  /\ fst (run clock_noon checkout_now empty_world) = Raise TypeError
  /\ stdout (snd (run clock_noon checkout_now empty_world)) = [].
Proof.
  assert (H : data (init clock_noon empty_world)
              !! Format.strftime_Ymd (clock_noon 0) = None)
    by (vm_compute; reflexivity).
  split; [exact H|].
  destruct (proj2 (render_fails_without_checkin clock_noon) empty_world H)
    as (A & _ & B).
  split; [exact A | exact B].
Defined.

Lemma hours_discard_whole_days_witness :
  fst (check clock_noon false (Some "09:00") k_late) <> Raise ValueError
  /\ (Aux.elapsed_seconds (mkDatetime 2024 1 10 17 30 0 0)
                          (mkDatetime 2024 1 10 9 0 0 0) = -30600
      /\ Aux.elapsed_seconds (mkDatetime 2024 1 10 17 30 0 0)
                             (mkDatetime 2024 1 10 9 0 0 0) / 86400 = -1)
  /\ exists b,
       data (snd (check clock_noon false (Some "09:00") k_late))
       !! Format.strftime_Ymd (day_to_work_on k_late) = Some b
       /\ checkin_timestamp b = Some (mkDatetime 2024 1 10 17 30 0 0)
       /\ checkout_timestamp b = Some (mkDatetime 2024 1 10 9 0 0 0)
       /\ (productive_time b == 15)%Q
       /\ (productive_time b
           == quarter_round
                (inject_Z (Aux.elapsed_seconds
                             (mkDatetime 2024 1 10 17 30 0 0)
                             (mkDatetime 2024 1 10 9 0 0 0) mod 86400)
                 / 3600)
              - default_pause_length k_late)%Q
       /\ (productive_time b
           == quarter_round
                (inject_Z (Aux.elapsed_seconds
                             (mkDatetime 2024 1 10 17 30 0 0)
                             (mkDatetime 2024 1 10 9 0 0 0)) / 3600)
              - 24 * inject_Z (Aux.elapsed_seconds
                                 (mkDatetime 2024 1 10 17 30 0 0)
                                 (mkDatetime 2024 1 10 9 0 0 0) / 86400)
              - default_pause_length k_late)%Q.
Proof.
  assert (H : fst (check clock_noon false (Some "09:00") k_late)
              <> Raise ValueError) by (vm_compute; discriminate).
  split; [exact H|].
  split; [split; vm_compute; reflexivity|].
  eexists.
  split; [vm_compute; reflexivity|].
  split; [reflexivity|]. split; [reflexivity|].
  split; [vm_compute; reflexivity|].
  apply (proj1 (hours_discard_whole_days clock_noon)
               false (Some "09:00") k_late _
               (mkDatetime 2024 1 10 17 30 0 0)
               (mkDatetime 2024 1 10 9 0 0 0) H
               ltac:(vm_compute; reflexivity) eq_refl eq_refl).
Defined.

Lemma quarter_round_call_witness :
  (Qabs (17 # 2) <= inject_Z FLOAT_MAX / 4)%Q
  /\ exists q : Q,
       quarter_round_call (17 # 2) = Ok q
       /\ (exists n : Z, q == inject_Z n * (1 # 4))%Q
       /\ (Qabs (q - (17 # 2)) <= 1 # 8)%Q
       /\ (forall m : Z,
             Qabs (q - (17 # 2)) <= Qabs (inject_Z m * (1 # 4) - (17 # 2)))%Q
       /\ exists q' : Q, quarter_round_call q = Ok q' /\ (q' == q)%Q.
Proof.
  assert (H : (Qabs (17 # 2) <= inject_Z FLOAT_MAX / 4)%Q)
    by (apply Qle_bool_iff; vm_compute; reflexivity).
  split; [exact H|].
  exact (proj1 (quarter_round_call_nearest_idempotent (17 # 2)) H).
Defined.

End Witnesses.

(** * Further properties of the program *)

(** ** Predicates kept by a whole command line *)

Section Keeping.
Import Calendar.
Variable clock : nat -> datetime.
Variable I : Keeper -> Prop.
Hypothesis I_framed : Aux.framed I.

Lemma keeping_of_preserves {A} (m : M A) :
  Aux.preserves m -> Aux.keeping I m.
Proof. intros H k Hk. exact (I_framed _ _ (H k) Hk). Qed.

Lemma keeping_bind {A B} (m : M A) (f : A -> M B) :
  Aux.keeping I m -> (forall a, Aux.keeping I (f a)) ->
  Aux.keeping I (bind m f).
Proof.
  intros Hm Hf k Hk. unfold bind. specialize (Hm k Hk).
  destruct (m k) as [[a|e] k1]; cbn in *.
  - now apply Hf.
  - exact Hm.
Qed.

Lemma keeping_step (flag : bool) (action : M unit) (parameter : bool) :
  (flag = true -> Aux.keeping I action) ->
  Aux.keeping I (step flag action parameter).
Proof.
  intros H. unfold step. destruct flag.
  - apply keeping_bind; [exact (H eq_refl)|]. intros _.
    apply keeping_of_preserves, preserves_ret.
  - apply keeping_of_preserves, preserves_ret.
Qed.

Lemma keeping_render (n : Z) :
  Aux.keeping I (bind (generate_day_keys clock n) (print_table clock)).
Proof.
  apply keeping_of_preserves, preserves_bind.
  - apply preserves_generate_day_keys.
  - intros keys. apply preserves_print_table.
Qed.

Lemma keeping_bind_from {A B} (m : M A) (f : A -> M B) (k : Keeper) :
  I (snd (m k)) -> (forall a, Aux.keeping I (f a)) -> I (snd (bind m f k)).
Proof.
  intros Hm Hf. unfold bind. destruct (m k) as [[a|e] k1]; cbn in *.
  - now apply Hf.
  - exact Hm.
Qed.

(** What holds once [--date] is resolved, and is kept by [__check] if the
    command line books at all, holds at the end of [__process_args],
    whatever the outcome. *)
Lemma process_args_keeping (args : Args) (k : Keeper) :
  (Aux.books args = true ->
   forall checkin booking_time,
     Aux.keeping I (check clock checkin booking_time)) ->
  I (Aux.resolved args k) -> I (snd (process_args clock args k)).
Proof.
  intros I_check Hk. unfold process_args. apply keeping_bind_from.
  { unfold Aux.resolved in Hk. destruct (str_truthy (arg_date args)).
    - unfold bind.
      destruct (Format.fromisoformat (default "" (arg_date args))) as [d|];
        exact Hk.
    - exact Hk. }
  intros _. unfold Aux.books in I_check.
  apply keeping_bind;
    [apply keeping_step; intros F; apply I_check; now rewrite F | intros ?].
  apply keeping_bind;
    [apply keeping_step; intros F; apply I_check; rewrite F;
     now rewrite ?orb_true_r | intros ?].
  apply keeping_bind;
    [apply keeping_step; intros F; apply I_check; rewrite F;
     now rewrite ?orb_true_r | intros ?].
  apply keeping_bind;
    [apply keeping_step; intros F; apply I_check; rewrite F;
     now rewrite ?orb_true_r | intros ?].
  repeat (apply keeping_bind;
          [apply keeping_step; intros _;
           first [apply keeping_render | idtac] | intros ?]).
  - destruct (negb (in_BookingCategory _));
      apply keeping_of_preserves, preserves_print.
  - destruct (negb _); apply keeping_of_preserves;
      [apply preserves_print | apply preserves_ret].
Qed.

End Keeping.

(** ** What a run does to the documents *)

Section Documents.
Import Calendar.
Variable clock : nat -> datetime.

Abbreviation key_of k := (Format.strftime_Ymd (day_to_work_on k)).

(** The two ways [__check] can go. *)
Lemma check_cases (checkin : bool) (booking_time : option string)
      (k : Keeper) :
  check clock checkin booking_time k = (Raise ValueError, k)
  \/ exists t,
       Aux.booking_date_of k booking_time = Some t
       /\ data (snd (check clock checkin booking_time k))
          = <[key_of k := Aux.booked k checkin t]> (data k)
       /\ store_docs (world (snd (check clock checkin booking_time k)))
          = <[keeper_file_path k :=
                <[key_of k := Aux.booked k checkin t]> (data k)]>
              (store_docs (world k))
       /\ settings_doc (world (snd (check clock checkin booking_time k)))
          = settings_doc (world k)
       /\ day_to_work_on (snd (check clock checkin booking_time k))
          = day_to_work_on k
       /\ default_pause_length (snd (check clock checkin booking_time k))
          = default_pause_length k
       /\ keeper_file_path (snd (check clock checkin booking_time k))
          = keeper_file_path k.
Proof.
  destruct (Aux.booking_date_of k booking_time) as [t|] eqn:E.
  - right. exists t.
    destruct (check_state clock checkin booking_time k t E)
      as (F1 & F2 & F3 & _ & F5 & F6 & F7).
    rewrite F1 in F2. auto 10.
  - left. now apply check_invalid_time.
Qed.

Lemma init_synced (w : World) :
  store_docs (world (init clock w)) !! keeper_file_path (init clock w)
  = Some (data (init clock w))
  /\ settings_doc (world (init clock w))
     = Some (default default_settings (settings_doc w))
  /\ forall p, p <> keeper_file_path (init clock w) ->
               store_docs (world (init clock w)) !! p = store_docs w !! p.
Proof.
  unfold init, load_config, load_data.
  destruct (settings_doc w) as [s|] eqn:Es; cbn;
    match goal with
    | |- context [store_docs w !! ?p] => destruct (store_docs w !! p) eqn:E
    end; cbn; rewrite ?E, ?lookup_insert_eq; repeat split; try assumption;
    try (intros p Hp; now rewrite lookup_insert_ne).
Qed.

Lemma resolved_fields (args : Args) (k : Keeper) :
  world (Aux.resolved args k) = world k
  /\ data (Aux.resolved args k) = data k
  /\ keeper_file_path (Aux.resolved args k) = keeper_file_path k
  /\ default_pause_length (Aux.resolved args k) = default_pause_length k.
Proof.
  unfold Aux.resolved. destruct (str_truthy (arg_date args)); [|auto].
  destruct (Format.fromisoformat _); auto.
Qed.

Lemma run_settings (args : Args) (w : World) :
  settings_doc (snd (run clock args w))
  = Some (default default_settings (settings_doc w)).
Proof.
  unfold run.
  pose proof (process_args_keeping clock
                (fun k => settings_doc (world k)
                          = Some (default default_settings (settings_doc w))))
    as H.
  specialize (H ltac:(intros k k' (_ & _ & F & _) Hk; now rewrite F)
                args (init clock w)).
  destruct (process_args clock args (init clock w)) as [r k]. apply H.
  - intros _ checkin bt k0 Hk.
    destruct (check_cases checkin bt k0) as [E|(t & _ & _ & _ & F & _)].
    + now rewrite E.
    + now rewrite F.
  - destruct (resolved_fields args (init clock w)) as (-> & _).
    apply init_synced.
Qed.

(** X2.  A run touches one store document only, the one the settings
    name: every other document is left as it was, and the named one
    exists afterwards. *)
Theorem run_touches_one_document (args : Args) (w : World) :
  (forall p, p <> keeper_file_path (init clock w) ->
             store_docs (snd (run clock args w)) !! p = store_docs w !! p)
  /\ is_Some (store_docs (snd (run clock args w))
              !! keeper_file_path (init clock w)).
Proof.
  unfold run.
  pose proof (process_args_keeping clock
                (fun k => keeper_file_path k = keeper_file_path (init clock w)
                          /\ (forall p, p <> keeper_file_path (init clock w) ->
                                        store_docs (world k) !! p
                                        = store_docs w !! p)
                          /\ is_Some (store_docs (world k)
                                      !! keeper_file_path (init clock w))))
    as H.
  specialize (H ltac:(intros k k' (_ & F2 & _ & _ & _ & F6) Hk;
                      now rewrite F2, F6) args (init clock w)).
  destruct (process_args clock args (init clock w)) as [r k]. apply H.
  - intros _ checkin bt k0 (Hp & Ho & Hs).
    destruct (check_cases checkin bt k0)
      as [E|(t & _ & _ & F2 & _ & _ & _ & F6)].
    + now rewrite E.
    + rewrite F2, F6, Hp. split; [reflexivity|]. split.
      * intros p Hne. rewrite lookup_insert_ne by congruence. now apply Ho.
      * rewrite lookup_insert_eq. now eexists.
  - destruct (resolved_fields args (init clock w)) as (-> & _ & -> & _).
    destruct (init_synced w) as (S1 & _ & S3).
    split; [reflexivity|]. split; [exact S3|]. rewrite S1. now eexists.
Qed.

Lemma run_store (args : Args) (w : World) :
  store_docs (snd (run clock args w)) !! keeper_file_path (init clock w)
  = Some (data (snd (process_args clock args (init clock w))))
  /\ forall clock', data (init clock' (snd (run clock args w)))
                    = data (snd (process_args clock args (init clock w))).
Proof.
  assert (S : store_docs (snd (run clock args w))
              !! keeper_file_path (init clock w)
              = Some (data (snd (process_args clock args (init clock w))))).
  { unfold run.
    pose proof (process_args_keeping clock
                  (fun k => keeper_file_path k
                            = keeper_file_path (init clock w)
                            /\ store_docs (world k) !! keeper_file_path k
                               = Some (data k))) as H.
    specialize (H ltac:(intros k k' (F1 & F2 & _ & _ & _ & F6) Hk;
                        now rewrite F1, F2, F6) args (init clock w)).
    destruct (process_args clock args (init clock w)) as [r k]. cbn [snd].
    destruct H as [Hp Hs].
    - intros _ checkin bt k0 (Hp & Hs).
      destruct (check_cases checkin bt k0)
        as [E|(t & _ & F1 & F2 & _ & _ & _ & F6)].
      + now rewrite E.
      + rewrite F1, F2, F6. split; [exact Hp|]. apply lookup_insert_eq.
    - destruct (resolved_fields args (init clock w)) as (-> & -> & -> & _).
      split; [reflexivity|]. apply init_synced.
    - now rewrite <- Hp. }
  split; [exact S|]. intros clock'.
  destruct (init_fields clock' (snd (run clock args w)))
    as (_ & _ & _ & Hp' & _ & Hd').
  destruct (init_fields clock w) as (_ & _ & _ & Hp & _).
  rewrite Hd', Hp', run_settings. cbn [default from_option id].
  rewrite <- Hp, S. reflexivity.
Qed.

(** X1.  A run never changes the settings document: it is left as it was,
    or, when there was none, holds the defaults. *)
Theorem run_keeps_settings (args : Args) (w : World) :
  settings_doc (snd (run clock args w))
  = Some (default default_settings (settings_doc w)).
Proof. apply run_settings. Qed.

(** X3.  When a run ends without an exception, the saved store document
    is the in-memory store the process ended with; so the next run starts
    from exactly that store.  (In the model this holds after a failed run
    as well; the statement is kept to the runs in which the source cannot
    have failed between the update of a booking and the save.) *)
Theorem run_saves_what_it_holds (args : Args) (w : World) :
  fst (run clock args w) = Ok tt ->
  store_docs (snd (run clock args w)) !! keeper_file_path (init clock w)
  = Some (data (snd (process_args clock args (init clock w))))
  /\ forall clock', data (init clock' (snd (run clock args w)))
                    = data (snd (process_args clock args (init clock w))).
Proof. intros _. apply run_store. Qed.

(** The store a run starts from and the store it leaves, as documents. *)
Lemma run_before_after (args : Args) (w : World) :
  data (init clock w)
  = default ∅ (store_docs w !! keeper_file_path (init clock w))
  /\ data (snd (process_args clock args (init clock w)))
     = default ∅ (store_docs (snd (run clock args w))
                  !! keeper_file_path (init clock w)).
Proof.
  split; [apply init_fields|].
  destruct (run_store args w) as [-> _]. reflexivity.
Qed.

(** X4.  With no [--date], or with one the model parses, a run changes
    the booking of one day at most, the day to work on once [--date] is
    resolved: in the saved store every other day-key is bound as before
    the run.  (The hypothesis on [--date] keeps the statement to the dates
    on which [Aux.resolved] is the day the source works on.) *)
Theorem run_changes_one_day (args : Args) (w : World) (key : string) :
  str_truthy (arg_date args) = false
  \/ is_Some (Format.fromisoformat (default "" (arg_date args))) ->
  key <> Format.strftime_Ymd
           (day_to_work_on (Aux.resolved args (init clock w))) ->
  default ∅ (store_docs (snd (run clock args w))
             !! keeper_file_path (init clock w)) !! key
  = default ∅ (store_docs w !! keeper_file_path (init clock w)) !! key.
Proof.
  intros _ Hne. destruct (run_before_after args w) as [<- <-].
  set (k0 := Aux.resolved args (init clock w)) in *.
  pose proof (process_args_keeping clock
                (fun k => day_to_work_on k = day_to_work_on k0
                          /\ data k !! key = data k0 !! key)) as H.
  specialize (H ltac:(intros k k' (F1 & _ & _ & F4 & _) Hk;
                      now rewrite F1, F4) args (init clock w)).
  destruct H as [_ H].
  - intros _ checkin bt k (Hd & Hk).
    destruct (check_cases checkin bt k)
      as [E|(t & _ & F1 & _ & _ & F4 & _)].
    + now rewrite E.
    + rewrite F1, F4. split; [exact Hd|].
      rewrite lookup_insert_ne; [exact Hk|]. now rewrite Hd.
  - split; reflexivity.
  - rewrite H. unfold k0. now destruct (resolved_fields args (init clock w))
      as (_ & -> & _).
Qed.

(** X5.  A run never deletes a booking and never clears a timestamp: a
    day-key bound before the run is bound after it, to a booking that
    still has the timestamps it had, and the same pause, category and
    description. *)
Theorem run_keeps_bookings (args : Args) (w : World) (key : string)
        (b : Booking) :
  default ∅ (store_docs w !! keeper_file_path (init clock w)) !! key
  = Some b ->
  exists b',
    default ∅ (store_docs (snd (run clock args w))
               !! keeper_file_path (init clock w)) !! key = Some b'
    /\ (is_Some (checkin_timestamp b) -> is_Some (checkin_timestamp b'))
    /\ (is_Some (checkout_timestamp b) -> is_Some (checkout_timestamp b'))
    /\ pause b' = pause b
    /\ category b' = category b
    /\ description b' = description b.
Proof.
  destruct (run_before_after args w) as [<- <-]. intros Hb.
  pose proof (process_args_keeping clock
                (fun k => exists b',
                     data k !! key = Some b'
                     /\ (is_Some (checkin_timestamp b)
                         -> is_Some (checkin_timestamp b'))
                     /\ (is_Some (checkout_timestamp b)
                         -> is_Some (checkout_timestamp b'))
                     /\ pause b' = pause b
                     /\ category b' = category b
                     /\ description b' = description b)) as H.
  apply (H ltac:(intros k k' (F1 & _) Hk; now rewrite F1) args).
  - intros _ checkin bt k (b' & Hk & Hi & Ho & Hp & Hc & Hd).
    destruct (check_cases checkin bt k) as [E|(t & _ & F1 & _)].
    + rewrite E. now exists b'.
    + rewrite F1. destruct (decide (key_of k = key)) as [<-|Hne].
      * exists (Aux.booked k checkin t). rewrite lookup_insert_eq.
        pose proof (booked_fields k checkin t) as (Gi & Go & Gp & Gc & Gd).
        rewrite Hk in Gi, Go, Gp, Gc, Gd. cbn [default from_option id] in *.
        split; [reflexivity|]. rewrite Gi, Go, Gp, Gc, Gd.
        destruct checkin; repeat split; auto; intros _; now eexists.
      * exists b'. rewrite lookup_insert_ne by exact Hne. auto 10.
  - destruct (resolved_fields args (init clock w)) as (_ & -> & _).
    exists b. auto 10.
Qed.

(** X6.  A command line that asks for no check-in and no check-out never
    writes: whatever the outcome, the store documents are those the
    process started with, which are the documents of before the run when
    the store document existed. *)
Theorem run_without_check_never_writes (args : Args) (w : World) :
  Aux.books args = false ->
  store_docs (snd (run clock args w)) = store_docs (world (init clock w))
  /\ (is_Some (store_docs w !! keeper_file_path (init clock w)) ->
      store_docs (snd (run clock args w)) = store_docs w).
Proof.
  intros Hb.
  assert (S : store_docs (snd (run clock args w))
              = store_docs (world (init clock w))).
  { unfold run.
    pose proof (process_args_keeping clock
                  (fun k => store_docs (world k)
                            = store_docs (world (init clock w)))) as H.
    specialize (H ltac:(intros k k' (_ & F2 & _) Hk; now rewrite F2)
                  args (init clock w)).
    destruct (process_args clock args (init clock w)) as [r k]. apply H.
    - rewrite Hb. discriminate.
    - now destruct (resolved_fields args (init clock w)) as (-> & _). }
  split; [exact S|]. intros [d Hd]. rewrite S.
  destruct (init_fields clock w) as (_ & _ & _ & Hp & _).
  rewrite Hp in Hd. unfold init, load_config, load_data.
  destruct (settings_doc w) as [s|]; cbn in Hd |- *; now rewrite Hd.
Qed.

End Documents.

(** ** More on recording *)

Section Recording.
Import Calendar.
Variable clock : nat -> datetime.

Abbreviation key_of k := (Format.strftime_Ymd (day_to_work_on k)).

Lemma check_raises (checkin : bool) (booking_time : option string)
      (k : Keeper) (t : datetime) :
  Aux.booking_date_of k booking_time = Some t ->
  fst (check clock checkin booking_time k)
  = match checkin_timestamp (Aux.booked k checkin t) with
    | Some _ => Ok tt
    | None => if float_truthy (productive_time (Aux.booked k checkin t))
              then Raise AttributeError else Raise TypeError
    end.
Proof.
  intros Ht. rewrite check_unfold, Ht, print_table_single.
  destruct (checkin_timestamp (Aux.booked k checkin t)) as [ci|] eqn:E.
  - now rewrite (table_row_booking clock _ _ _ ci
                   (checked_lookup k checkin t) E).
  - rewrite (table_row_no_checkin clock _ _ _
               (checked_lookup k checkin t) E).
    now destruct (float_truthy _).
Qed.

Lemma booked_again (k k1 : Keeper) (checkin : bool) (t : datetime) :
  data k1 !! key_of k1 = Some (Aux.booked k checkin t) ->
  default_pause_length k1 = default_pause_length k ->
  Aux.booked k1 checkin t = Aux.booked k checkin t.
Proof.
  intros Hd Hp. unfold Aux.booked at 1. rewrite Hd, Hp. unfold Aux.booked.
  destruct (data k !! key_of k) as [[[ci|] [co|] p x c d]|];
    destruct checkin; reflexivity.
Qed.

End Recording.

Section RecordingProperties.
Import Calendar.
Variable clock : nat -> datetime.

Abbreviation key_of k := (Format.strftime_Ymd (day_to_work_on k)).

(** X7.  Within the range of the call, [quarter_round] preserves order:
    more hours never round to fewer. *)
Theorem quarter_round_monotone (x y : Q) :
  (Qabs x <= inject_Z FLOAT_MAX / 4)%Q ->
  (Qabs y <= inject_Z FLOAT_MAX / 4)%Q ->
  (x <= y)%Q ->
  exists qx qy : Q,
    quarter_round_call x = Ok qx
    /\ quarter_round_call y = Ok qy
    /\ (qx <= qy)%Q.
Proof.
  intros Hx Hy Hxy. exists (quarter_round x), (quarter_round y).
  split; [now apply quarter_round_call_in|].
  split; [now apply quarter_round_call_in|].
  now apply quarter_round_mono.
Qed.

(** X8.  [__check] raises [ValueError] only before it has touched
    anything: whenever it does, the process is exactly as it was, nothing
    is stored, saved or printed. *)
Theorem ValueError_changes_nothing
        (checkin : bool) (booking_time : option string) (k : Keeper) :
  fst (check clock checkin booking_time k) = Raise ValueError ->
  snd (check clock checkin booking_time k) = k.
Proof.
  intros H.
  destruct (Aux.booking_date_of k booking_time) as [t|] eqn:E.
  - rewrite (check_raises clock checkin booking_time k t E) in H.
    destruct (checkin_timestamp _); [discriminate|].
    destruct (float_truthy _); discriminate.
  - now rewrite check_invalid_time.
Qed.

(** X9.  Recording the same check-in or check-out a second time changes
    nothing in the store, in memory or saved. *)
Theorem check_twice_is_check_once
        (checkin : bool) (booking_time : option string) (k : Keeper) :
  data (snd (check clock checkin booking_time
               (snd (check clock checkin booking_time k))))
  = data (snd (check clock checkin booking_time k))
  /\ store_docs (world (snd (check clock checkin booking_time
                              (snd (check clock checkin booking_time k)))))
     = store_docs (world (snd (check clock checkin booking_time k))).
Proof.
  destruct (check_cases clock checkin booking_time k)
    as [E|(t & Ht & F1 & F2 & _ & F4 & F5 & F6)].
  - rewrite E. cbn [snd]. now rewrite E.
  - set (k1 := snd (check clock checkin booking_time k)) in *.
    assert (Ht1 : Aux.booking_date_of k1 booking_time = Some t).
    { unfold Aux.booking_date_of in *. now rewrite F4. }
    destruct (check_cases clock checkin booking_time k1)
      as [E|(t' & Ht' & G1 & G2 & _)].
    + rewrite check_unfold, Ht1 in E.
      pose proof (check_raises clock checkin booking_time k1 t Ht1) as R.
      rewrite check_unfold, Ht1, E in R. cbn in R.
      destruct (checkin_timestamp _); [discriminate|].
      destruct (float_truthy _); discriminate.
    + rewrite Ht1 in Ht'. injection Ht' as <-.
      assert (B : Aux.booked k1 checkin t = Aux.booked k checkin t).
      { apply booked_again; [|exact F5].
        rewrite F4, F1. apply lookup_insert_eq. }
      rewrite G1, G2, B, F4, F6, F2, F1, !insert_insert_eq. split; reflexivity.
Qed.

(** X10.  With a default pause that is a whole number of quarter hours
    between 0 and 24, as the 0.5 of the defaults is, the productive time
    that a successful [__check] stores for a day with both timestamps is
    a whole number of quarter hours, between minus the pause and 24 less
    the pause.  (For such a pause the subtraction of the pause is exact in
    floating point too.) *)
Theorem stored_productive_time_range
        (checkin : bool) (booking_time : option string) (k : Keeper)
        (b : Booking) :
  fst (check clock checkin booking_time k) = Ok tt ->
  data (snd (check clock checkin booking_time k)) !! key_of k = Some b ->
  is_Some (checkin_timestamp b) -> is_Some (checkout_timestamp b) ->
  Aux.quarter_multiple (default_pause_length k) ->
  (0 <= default_pause_length k <= 24)%Q ->
  Aux.quarter_multiple (productive_time b)
  /\ (- default_pause_length k <= productive_time b
      <= 24 - default_pause_length k)%Q.
Proof.
  intros Hok Hb [ci Hi] [co Ho] [m Hm] _.
  assert (Hne : fst (check clock checkin booking_time k) <> Raise ValueError)
    by (rewrite Hok; discriminate).
  destruct (check_not_ValueError clock _ _ _ Hne) as [t Ht].
  destruct (check_state clock checkin booking_time k t Ht) as (F1 & _).
  rewrite F1, lookup_insert_eq in Hb. injection Hb as <-.
  rewrite booked_productive_time, Hi, Ho, quarter_round_sub.
  set (s := Aux.elapsed_seconds ci co mod 86400).
  assert (Hs : 0 <= s < 86400) by (apply Z.mod_pos_bound; lia).
  set (h := (inject_Z s / 3600)%Q).
  assert (Hh : (0 <= h <= 24)%Q).
  { unfold h. destruct Hs as [H0 H1]. apply Z.lt_le_incl in H1.
    rewrite Zle_Qle in H0, H1.
    change (inject_Z 0) with 0%Q in H0.
    change (inject_Z 86400) with 86400%Q in H1.
    split.
    - apply Qle_shift_div_l; [reflexivity | lra].
    - apply Qle_shift_div_r; [reflexivity | lra]. }
  split.
  - exists (py_round (h / (1 # 4)) - m).
    rewrite (quarter_round_multiple h), Hm.
    unfold Z.sub. rewrite inject_Z_plus, inject_Z_opp. ring.
  - pose proof (quarter_round_mono 0 h (proj1 Hh)) as L.
    pose proof (quarter_round_mono h 24 (proj2 Hh)) as U.
    change (quarter_round 0) with (0 # 4)%Q in L.
    assert (E24 : (quarter_round 24 == 24)%Q) by reflexivity.
    assert (E0 : (0 # 4 == 0)%Q) by reflexivity.
    split; lra.
Qed.

(** X11.  A check-in on a day that has no booking yet succeeds, be it now
    or at a time the model parses ([HH:MM] or [HH:MM:SS]), with no
    [--date] or with one the model parses: the run ends without an
    exception, the saved store binds the day to a booking with that
    check-in and the defaults, and one table is printed, with the header
    and the row of the day, which shows the day-key, the time just
    recorded and no check-out. *)
Theorem check_in_succeeds_and_prints
        (w : World) (date booking_time : option string) (d t : datetime) :
  match date with
  | Some s => Format.fromisoformat s = Some d
  | None => d = clock 0%nat
  end ->
  Aux.booking_date_of (set_day_to_work_on d (init clock w)) booking_time
  = Some t ->
  default ∅ (store_docs w !! keeper_file_path (init clock w))
  !! Format.strftime_Ymd d = None ->
  fst (run clock (Aux.one_check date true booking_time) w) = Ok tt
  /\ (exists docs,
        store_docs (snd (run clock (Aux.one_check date true booking_time) w))
        !! keeper_file_path (init clock w) = Some docs
        /\ docs !! Format.strftime_Ymd d
           = Some (mkBooking (Some t) None (1 # 2) 0 MOBILE None))
  /\ exists row,
       stdout (snd (run clock (Aux.one_check date true booking_time) w))
       = (stdout w ++ [Table [header; row]])%list
       /\ length row = length header
       /\ row !! 1%nat = Some (CStr (Format.strftime_Ymd d))
       /\ row !! 2%nat = Some (CStr (Format.strftime_HM t))
       /\ row !! 3%nat = Some (CStr "").
Proof.
  intros Hd Ht Hnone.
  set (k := set_day_to_work_on d (init clock w)) in *.
  assert (R : run clock (Aux.one_check date true booking_time) w
              = (fst (check clock true booking_time k),
                 world (snd (check clock true booking_time k)))).
  { destruct date as [s|].
    - exact (run_dated_check clock w s d true booking_time Hd).
    - rewrite run_one_check. subst d. unfold k.
      destruct (init_fields clock w) as (E & _).
      replace (set_day_to_work_on (clock 0%nat) (init clock w))
        with (init clock w); [reflexivity|].
      rewrite <- E. now destruct (init clock w). }
  rewrite R. cbn [fst snd].
  assert (Hk : data k !! key_of k = None).
  { destruct (init_fields clock w) as (_ & _ & _ & _ & _ & E).
    unfold k. cbn [data set_day_to_work_on day_to_work_on].
    rewrite E. exact Hnone. }
  pose proof (booked_fresh k true t Hk) as B. cbn [negb] in B.
  pose proof (check_in_ok clock booking_time k t Ht) as O.
  destruct (check_state clock true booking_time k t Ht)
    as (F1 & F2 & _ & F4 & _).
  split; [exact O|]. split.
  - eexists. split.
    + rewrite F2. apply lookup_insert_eq.
    + rewrite F1, B. apply lookup_insert_eq.
  - rewrite O in F4.
    assert (Hci : checkin_timestamp (Aux.booked k true t) = Some t)
      by now rewrite B.
    rewrite (table_row_booking clock _ _ _ t
               (checked_lookup k true t) Hci) in F4.
    assert (Sw : stdout (world k) = stdout w)
      by (destruct (init_fields clock w) as (_ & _ & E & _); exact E).
    rewrite Sw in F4.
    eexists. split; [exact F4|].
    rewrite B. repeat split.
Qed.

End RecordingProperties.

(** ** Parsing a day-key back *)

Section ParseBack.
Import Calendar Format.

Lemma digit_char_val (c : ascii) (x : Z) :
  digit_val c = Some x -> 0 <= x <= 9 /\ digit_char x = c.
Proof.
  unfold digit_val, digit_char.
  destruct ((48 <=? Z.of_nat (nat_of_ascii c))
            && (Z.of_nat (nat_of_ascii c) <=? 57)) eqn:E; [|discriminate].
  apply andb_true_iff in E. destruct E as [E1 E2].
  apply Z.leb_le in E1, E2. intros [= <-]. split; [lia|].
  replace (48 + Z.to_nat (Z.of_nat (nat_of_ascii c) - 48))%nat
    with (nat_of_ascii c) by lia.
  apply ascii_nat_embedding.
Qed.

Lemma two_digits_parse2 (a b : ascii) (n : Z) :
  parse2 a b = Some n ->
  0 <= n <= 99 /\ two_digits n = String a (String b "").
Proof.
  unfold parse2.
  destruct (digit_val a) as [x|] eqn:Ea; [|discriminate].
  destruct (digit_val b) as [y|] eqn:Eb; [|discriminate].
  apply digit_char_val in Ea, Eb. destruct Ea as [Hx <-], Eb as [Hy <-].
  intros [= <-]. split; [lia|]. unfold two_digits.
  replace ((x * 10 + y) / 10 mod 10) with x
    by (Z.div_mod_to_equations; lia).
  replace ((x * 10 + y) mod 10) with y by (Z.div_mod_to_equations; lia).
  reflexivity.
Qed.

Lemma four_digits_parse4 (a b c d : ascii) (n : Z) :
  parse4 a b c d = Some n ->
  four_digits n = String a (String b (String c (String d ""))).
Proof.
  unfold parse4.
  destruct (parse2 a b) as [x|] eqn:Ea; [|discriminate].
  destruct (parse2 c d) as [y|] eqn:Eb; [|discriminate].
  apply two_digits_parse2 in Ea, Eb.
  destruct Ea as [Hx Ex], Eb as [Hy Ey]. intros [= <-].
  unfold four_digits, two_digits in *.
  injection Ex as Ex1 Ex2. injection Ey as Ey1 Ey2.
  replace ((x * 100 + y) / 1000 mod 10) with (x / 10 mod 10)
    by (Z.div_mod_to_equations; lia).
  replace ((x * 100 + y) / 100 mod 10) with (x mod 10)
    by (Z.div_mod_to_equations; lia).
  replace ((x * 100 + y) / 10 mod 10) with (y / 10 mod 10)
    by (Z.div_mod_to_equations; lia).
  replace ((x * 100 + y) mod 10) with (y mod 10)
    by (Z.div_mod_to_equations; lia).
  now rewrite Ex1, Ex2, Ey1, Ey2.
Qed.

(** What [fromisoformat] accepts starts with the day-key of its result. *)
Lemma fromisoformat_prefix
      (y1 y2 y3 y4 d1 m1 m2 d2 a1 a2 : ascii) (rest : string) (t : datetime) :
  fromisoformat
    (String y1 (String y2 (String y3 (String y4 (String d1 (String m1
       (String m2 (String d2 (String a1 (String a2 rest)))))))))) = Some t ->
  strftime_Ymd t
  = String y1 (String y2 (String y3 (String y4 (String d1 (String m1
      (String m2 (String d2 (String a1 (String a2 ""))))))))).
Proof.
  unfold fromisoformat.
  destruct (Ascii.eqb d1 dash) eqn:D1; [|discriminate].
  destruct (Ascii.eqb d2 dash) eqn:D2; [|discriminate].
  apply Ascii.eqb_eq in D1, D2. subst d1 d2. cbn [andb].
  destruct (parse4 y1 y2 y3 y4) as [y|] eqn:Ey; [|discriminate].
  destruct (parse2 m1 m2) as [m|] eqn:Em; [|discriminate].
  destruct (parse2 a1 a2) as [d|] eqn:Ed; [|discriminate].
  destruct (valid_date y m d); [|discriminate].
  apply four_digits_parse4 in Ey.
  apply two_digits_parse2 in Em, Ed. destruct Em as [_ Em], Ed as [_ Ed].
  assert (K : forall h mi s us,
             strftime_Ymd (mkDatetime y m d h mi s us)
             = String y1 (String y2 (String y3 (String y4 (String dash
                 (String m1 (String m2 (String dash
                    (String a1 (String a2 "")))))))))).
  { intros. unfold strftime_Ymd. cbn [year month day].
    rewrite Ey, Em, Ed. reflexivity. }
  destruct rest as [|sep tm].
  - intros [= <-]. apply K.
  - destruct (parse_time tm) as [[[h mi] s]|]; [|discriminate].
    destruct (valid_time h mi s 0); [|discriminate].
    intros [= <-]. apply K.
Qed.

End ParseBack.

(** ** Invariants of the stored bookings *)

Section StoreInvariants.
Import Calendar.

Abbreviation key_of k := (Format.strftime_Ymd (day_to_work_on k)).

Lemma booking_date_key (k : Keeper) (booking_time : option string)
      (t : datetime) :
  Aux.booking_date_of k booking_time = Some t ->
  Format.strftime_Ymd t = key_of k.
Proof.
  unfold Aux.booking_date_of. destruct (str_truthy booking_time).
  - unfold Format.strftime_Ymd at 1, Format.four_digits, Format.two_digits.
    cbv [String.append]. intros H.
    apply fromisoformat_prefix in H. rewrite H.
    unfold Format.strftime_Ymd, Format.four_digits, Format.two_digits.
    cbv [String.append]. reflexivity.
  - now intros [= <-].
Qed.

Variable P : string -> Booking -> Prop.
Hypothesis P_booked :
  forall (k : Keeper) (checkin : bool) (booking_time : option string)
         (t : datetime),
    Aux.booking_date_of k booking_time = Some t ->
    (forall b, data k !! key_of k = Some b -> P (key_of k) b) ->
    P (key_of k) (Aux.booked k checkin t).

Lemma store_all_insert (d : gmap string Booking) (key : string)
      (b : Booking) :
  Aux.store_all P d -> P key b -> Aux.store_all P (<[key := b]> d).
Proof.
  intros Hd Hb key' b' H. rewrite lookup_insert in H.
  destruct (decide (key = key')) as [<-|].
  - injection H as <-. exact Hb.
  - exact (Hd _ _ H).
Qed.

Lemma run_all clock (args : Args) (w : World) :
  Aux.world_all P w -> Aux.world_all P (snd (run clock args w)).
Proof.
  intros Hw. unfold run.
  pose proof (process_args_keeping clock
                (fun k => Aux.store_all P (data k)
                          /\ Aux.world_all P (world k))) as H.
  specialize (H ltac:(intros k k' (F1 & F2 & _) [Hd Hk]; split;
                      [now rewrite F1
                      | intros p d; rewrite F2; apply Hk])
                args (init clock w)).
  destruct (process_args clock args (init clock w)) as [r k]. apply H.
  - intros _ checkin bt k0 [Hd Hk].
    destruct (check_cases clock checkin bt k0)
      as [E|(t & Ht & F1 & F2 & _)].
    + now rewrite E.
    + assert (Hd' : Aux.store_all P
                      (<[key_of k0 := Aux.booked k0 checkin t]> (data k0))).
      { apply store_all_insert; [exact Hd|].
        apply (P_booked _ _ _ _ Ht). intros b. apply Hd. }
      unfold Aux.world_all. rewrite F1, F2. split; [exact Hd'|].
      intros p d. rewrite lookup_insert.
      destruct (decide (keeper_file_path k0 = p)).
      * intros [= <-]. exact Hd'.
      * apply Hk.
  - destruct (resolved_fields args (init clock w)) as (-> & -> & _).
    destruct (init_synced clock w) as (S1 & _ & S3).
    assert (Hi : Aux.world_all P (world (init clock w))).
    { intros p d.
      destruct (decide (p = keeper_file_path (init clock w))) as [->|Hne].
      - rewrite S1. intros [= <-].
        destruct (init_fields clock w) as (_ & _ & _ & _ & _ & ->).
        destruct (store_docs w !! _) as [d0|] eqn:E; cbn.
        + exact (Hw _ _ E).
        + intros key b Hb. now rewrite lookup_empty in Hb.
      - rewrite (S3 p Hne). apply Hw. }
    split; [|exact Hi]. exact (Hi _ _ S1).
Qed.

Lemma runs_all (l : list ((nat -> datetime) * Args)) (w : World) :
  Aux.world_all P w -> Aux.world_all P (runs l w).
Proof.
  revert w. induction l as [|[clock args] l IH]; intros w Hw; cbn.
  - exact Hw.
  - apply IH, run_all, Hw.
Qed.

End StoreInvariants.

Section StoreInvariantTheorems.
Import Calendar.

Lemma world_all_empty (P : string -> Booking -> Prop) :
  Aux.world_all P empty_world.
Proof. intros p d H. cbn in H. now rewrite lookup_empty in H. Qed.

(** X12.  The timestamps of a booking always lie on the day of its key:
    in every store document reached from the empty world by any sequence
    of runs, with any clocks and command lines, the day-key of a check-in
    or check-out timestamp is the key the booking is stored under. *)
Theorem timestamps_lie_on_key_day
        (l : list ((nat -> datetime) * Args)) (path key : string)
        (d : gmap string Booking) (b : Booking) (t : datetime) :
  store_docs (runs l empty_world) !! path = Some d ->
  d !! key = Some b ->
  checkin_timestamp b = Some t \/ checkout_timestamp b = Some t ->
  Format.strftime_Ymd t = key.
Proof.
  intros Hd Hb Ht.
  refine (runs_all Aux.on_key_day _ l empty_world
                   (world_all_empty _) path d Hd key b Hb t Ht).
  intros k checkin bt t0 Ht0 Hold t1 H1.
  pose proof (booked_fields k checkin t0) as (Fi & Fo & _).
  pose proof (booking_date_key k bt t0 Ht0) as K.
  rewrite Fi, Fo in H1.
  destruct (data k !! Format.strftime_Ymd (day_to_work_on k))
    as [old|] eqn:E; cbn [default from_option id] in H1.
  - specialize (Hold old eq_refl t1).
    destruct checkin, H1 as [H1|H1]; try (injection H1 as <-; exact K);
      apply Hold; auto.
  - destruct checkin, H1 as [H1|H1]; try (injection H1 as <-; exact K);
      discriminate.
Qed.

(** X13.  No code path sets the pause, the category or the description of
    a booking: in every store document reached from the empty world by
    any sequence of runs, every booking has pause 0.5, category MOBILE and
    no description. *)
Theorem bookings_keep_their_defaults
        (l : list ((nat -> datetime) * Args)) (path key : string)
        (d : gmap string Booking) (b : Booking) :
  store_docs (runs l empty_world) !! path = Some d ->
  d !! key = Some b ->
  pause b = (1 # 2)%Q /\ category b = MOBILE /\ description b = None.
Proof.
  intros Hd Hb.
  refine (runs_all (fun _ b => pause b = (1 # 2)%Q /\ category b = MOBILE
                               /\ description b = None)
                   _ l empty_world (world_all_empty _) path d Hd key b Hb).
  intros k checkin bt t0 _ Hold.
  pose proof (booked_fields k checkin t0) as (_ & _ & Fp & Fc & Fd).
  rewrite Fp, Fc, Fd.
  destruct (data k !! Format.strftime_Ymd (day_to_work_on k)) as [old|];
    cbn [default from_option id].
  - now apply Hold.
  - repeat split.
Qed.

End StoreInvariantTheorems.

(** ** Reports *)

Section Reports.
Import Calendar.
Variable clock : nat -> datetime.

Lemma table_row_absent (key : string) (k : Keeper) (d : datetime) :
  data k !! key = None -> Format.fromisoformat key = Some d ->
  table_row clock key k = (Ok (Aux.placeholder_row key d), k).
Proof.
  intros Hd Hk. unfold table_row, bind, get. now rewrite Hd, Hk.
Qed.

Lemma table_row_renderable (key : string) (k : Keeper) :
  Aux.renderable k key ->
  exists row, fst (table_row clock key k) = Ok row
              /\ forall d, data k !! key = None ->
                           Format.fromisoformat key = Some d ->
                           row = Aux.placeholder_row key d.
Proof.
  unfold Aux.renderable. destruct (data k !! key) as [day|] eqn:E.
  - intros [ci Hci]. rewrite (table_row_booking clock _ _ _ _ E Hci).
    eexists. split; [reflexivity|]. discriminate.
  - intros [d Hd]. rewrite (table_row_absent _ _ _ E Hd).
    eexists. split; [reflexivity|]. intros d' _ Hd'. congruence.
Qed.

Lemma renderable_frame (k k' : Keeper) (key : string) :
  data k' = data k -> Aux.renderable k key -> Aux.renderable k' key.
Proof. unfold Aux.renderable. now intros ->. Qed.

Lemma table_rows_total (keys : list string) :
  forall (table : list (list Cell)) (k : Keeper),
    Forall (Aux.renderable k) keys ->
    exists rows,
      fst (table_rows clock keys table k) = Ok (table ++ rows)%list
      /\ length rows = length keys
      /\ forall (i : nat) (key : string) (d : datetime),
           keys !! i = Some key -> data k !! key = None ->
           Format.fromisoformat key = Some d ->
           rows !! i = Some (Aux.placeholder_row key d).
Proof.
  induction keys as [|key0 keys IH]; intros table k Hall.
  - exists []. cbn. rewrite app_nil_r. repeat split.
    intros i key d Hi. discriminate.
  - inversion Hall as [|x l H0 Hall']; subst x l; clear Hall;
      rename Hall' into Hall.
    cbn [table_rows]. unfold bind.
    destruct (table_row_renderable key0 k H0) as (row0 & R0 & P0).
    pose proof (preserves_table_row clock key0 k) as (F0 & _).
    destruct (table_row clock key0 k) as [[r|e] k1]; cbn in R0, F0;
      [|discriminate].
    injection R0 as ->.
    destruct (IH (table ++ [row0])%list k1) as (rows & R & L & Pl).
    { eapply Forall_impl; [|exact Hall].
      intros key. now apply renderable_frame. }
    exists (row0 :: rows). rewrite <- app_assoc in R.
    split; [exact R|]. split; [cbn; lia|].
    intros [|i] key d Hi Hd Hk.
    + injection Hi as ->. cbn. f_equal. now apply P0.
    + cbn in Hi |- *. rewrite <- F0 in Hd. now apply (Pl i key d).
Qed.

Lemma print_table_total (keys : list string) (k : Keeper) :
  Forall (Aux.renderable k) keys ->
  fst (print_table clock keys k) = Ok tt
  /\ exists rows,
       stdout (world (snd (print_table clock keys k)))
       = (stdout (world k) ++ [Table (header :: rows)])%list
       /\ length rows = length keys
       /\ forall (i : nat) (key : string) (d : datetime),
            keys !! i = Some key -> data k !! key = None ->
            Format.fromisoformat key = Some d ->
            rows !! i = Some (Aux.placeholder_row key d).
Proof.
  intros Hall.
  destruct (table_rows_total keys [header] k Hall) as (rows & R & L & Pl).
  destruct (quiet_table_rows clock keys [header] k) as [n Hn].
  unfold print_table, bind.
  destruct (table_rows clock keys [header] k) as [[t|e] k1];
    cbn in R, Hn; [|discriminate].
  injection R as ->. subst k1. cbn. split; [reflexivity|].
  exists rows. auto.
Qed.

(** The loop of [generate_day_keys]: its two outcomes. *)
Lemma day_keys_loop_outcome (rng : list Z) :
  forall (key_list : list string) (k : Keeper),
    match day_keys_loop clock rng key_list k with
    | (Ok keys, k') =>
        length keys = (length key_list + length rng)%nat
        /\ k' = set_reads (reads k + length rng) k
    | (Raise e, k') =>
        e = OverflowError /\ exists m, k' = set_reads m k
    end.
Proof.
  induction rng as [|day rng IH]; intros key_list k.
  - cbn. rewrite !Nat.add_0_r, set_reads_same. split; reflexivity.
  - cbn [day_keys_loop]. unfold bind at 1. unfold now at 1.
    unfold bind at 1.
    destruct (datetime_sub_days (clock (reads k)) day) as [d|]; cbn [lift ret raise].
    + specialize (IH (key_list ++ [Format.strftime_Ymd d])%list
                     (set_reads (S (reads k)) k)).
      destruct (day_keys_loop clock rng _ _) as [[keys|e] k'].
      * destruct IH as [L ->]. rewrite length_app in L.
        cbn [length] in L |- *. split; [lia|].
        replace (reads k + S (length rng))%nat
          with (S (reads k) + length rng)%nat by lia.
        reflexivity.
      * destruct IH as [-> [m ->]]. split; [reflexivity|]. now exists m.
    + split; [reflexivity|]. now exists (S (reads k)).
Qed.

Lemma generate_day_keys_result (n : Z) (k : Keeper) :
  match generate_day_keys clock n k with
  | (Ok keys, k') =>
      length keys = Z.to_nat n /\ k' = set_reads (reads k + Z.to_nat n) k
  | (Raise e, k') => e = OverflowError /\ exists m, k' = set_reads m k
  end.
Proof.
  unfold generate_day_keys.
  pose proof (day_keys_loop_outcome (range n) [] k) as H.
  unfold range in *. rewrite length_map, length_seq in H. exact H.
Qed.

(** The loop succeeds while the days to go back stay within the calendar,
    and the keys it returns parse as dates. *)
Lemma day_keys_loop_ok (rng : list Z) :
  forall (key_list : list string) (k : Keeper),
    (forall i, valid_datetime (clock i) = true) ->
    (forall i day, In day rng -> 0 <= day < toordinal (clock i)) ->
    exists keys,
      fst (day_keys_loop clock rng key_list k) = Ok (key_list ++ keys)%list
      /\ Forall (fun key => is_Some (Format.fromisoformat key)) keys.
Proof.
  induction rng as [|day rng IH]; intros key_list k Hv Hr.
  - exists []. cbn. rewrite app_nil_r. split; [reflexivity | constructor].
  - cbn [day_keys_loop]. unfold bind at 1. unfold now at 1.
    unfold bind at 1.
    pose proof (Hv (reads k)) as V.
    assert (R : 0 < toordinal (clock (reads k)) - day <= MAXORDINAL).
    { specialize (Hr (reads k) day (or_introl eq_refl)).
      apply valid_datetime_time in V. destruct V as [V _].
      pose proof (CalendarFacts.ymd2ord_range _ _ _ V) as B.
      unfold toordinal in *. lia. }
    destruct (datetime_sub_days_key _ _ V R) as (d & Hd & Hk).
    rewrite Hd. cbn [lift ret].
    destruct (IH (key_list ++ [Format.strftime_Ymd d])%list
                 (set_reads (S (reads k)) k) Hv) as (keys & Hl & Hp).
    { intros i day' Hin. apply Hr. now right. }
    exists (Format.strftime_Ymd d :: keys). rewrite <- app_assoc in Hl.
    split; [exact Hl|]. constructor; [|exact Hp].
    rewrite Hk.
    destruct (day_key_spec (toordinal (clock (reads k)) - day) ltac:(lia))
      as (y & m & dd & K & Vd & _).
    rewrite K.
    pose proof (FormatFacts.fromisoformat_strftime_Ymd
                  (mkDatetime y m dd 0 0 0 0) "" Vd) as Pf.
    assert (A : forall s, s +:+ "" = s).
    { induction s as [|c s IHs]; [reflexivity|].
      change (String c (s +:+ "") = String c s). now rewrite IHs. }
    rewrite A in Pf. rewrite Pf. now eexists.
Qed.

(** The keys the loop returns are day-keys of the days it went back. *)
Lemma day_keys_loop_days (rng : list Z) :
  forall (key_list : list string) (k : Keeper),
    (forall i, valid_datetime (clock i) = true) ->
    (forall i day, In day rng -> 0 <= day < toordinal (clock i)) ->
    exists keys,
      fst (day_keys_loop clock rng key_list k) = Ok (key_list ++ keys)%list
      /\ Forall (fun key =>
                   is_Some (Format.fromisoformat key)
                   /\ exists i day,
                        In day rng
                        /\ key = Aux.day_key (toordinal (clock i) - day))
                keys.
Proof.
  induction rng as [|day rng IH]; intros key_list k Hv Hr.
  - exists []. cbn. rewrite app_nil_r. split; [reflexivity | constructor].
  - cbn [day_keys_loop]. unfold bind at 1. unfold now at 1.
    unfold bind at 1.
    pose proof (Hv (reads k)) as V.
    assert (R : 0 < toordinal (clock (reads k)) - day <= MAXORDINAL).
    { specialize (Hr (reads k) day (or_introl eq_refl)).
      apply valid_datetime_time in V. destruct V as [V _].
      pose proof (CalendarFacts.ymd2ord_range _ _ _ V) as B.
      unfold toordinal in *. lia. }
    destruct (datetime_sub_days_key _ _ V R) as (d & Hd & Hk).
    rewrite Hd. cbn [lift ret].
    destruct (IH (key_list ++ [Format.strftime_Ymd d])%list
                 (set_reads (S (reads k)) k) Hv) as (keys & Hl & Hp).
    { intros i day' Hin. apply Hr. now right. }
    exists (Format.strftime_Ymd d :: keys). rewrite <- app_assoc in Hl.
    split; [exact Hl|]. constructor.
    + split.
      * destruct (day_keys_loop_ok [day] [] k Hv) as (ks & Hks & Hf).
        { intros i day' [<-|[]]. apply Hr. now left. }
        cbn [day_keys_loop] in Hks. unfold bind at 1 in Hks.
        unfold now at 1 in Hks. unfold bind at 1 in Hks.
        rewrite Hd in Hks. cbn in Hks. injection Hks as <-.
        now inversion Hf.
      * exists (reads k), day. split; [now left | exact Hk].
    + eapply Forall_impl; [|exact Hp].
      intros key (Hkey & i & day' & Hin & E).
      split; [exact Hkey|]. exists i, day'. split; [now right | exact E].
Qed.

(** X14.  [print_table] succeeds on every list of keys that have no
    booking and parse as dates: it prints one table, the header and one
    row per key in order, and the row of a key is the weekday of the key,
    the key, and six placeholders. *)
Theorem print_table_succeeds (keys : list string) (k : Keeper) :
  Forall (fun key => data k !! key = None
                     /\ is_Some (Format.fromisoformat key)) keys ->
  fst (print_table clock keys k) = Ok tt
  /\ exists rows,
       stdout (world (snd (print_table clock keys k)))
       = (stdout (world k) ++ [Table (header :: rows)])%list
       /\ length rows = length keys
       /\ forall (i : nat) (key : string) (d : datetime),
            keys !! i = Some key ->
            Format.fromisoformat key = Some d ->
            rows !! i = Some (Aux.placeholder_row key d).
Proof.
  intros Hall.
  assert (Hr : Forall (Aux.renderable k) keys).
  { eapply Forall_impl; [|exact Hall]. intros key [Hn Hp].
    unfold Aux.renderable. now rewrite Hn. }
  destruct (print_table_total keys k Hr) as (R & rows & Ho & Hl & Hp).
  split; [exact R|]. exists rows. split; [exact Ho|]. split; [exact Hl|].
  intros i key d Hi Hd. apply (Hp i key d Hi); [|exact Hd].
  rewrite Forall_lookup in Hall. exact (proj1 (Hall i key Hi)).
Qed.

(** X15.  [generate_day_keys n] either returns exactly [n] keys (none for
    [n <= 0]) after reading the clock once per key, or raises
    [OverflowError]; in both cases it changes nothing but the number of
    clock reads. *)
Theorem generate_day_keys_outcome (n : Z) (k : Keeper) :
  match generate_day_keys clock n k with
  | (Ok keys, k') =>
      length keys = Z.to_nat n /\ k' = set_reads (reads k + Z.to_nat n) k
  | (Raise e, k') => e = OverflowError /\ exists m, k' = set_reads m k
  end.
Proof. apply generate_day_keys_result. Qed.

(** X16.  A report of [n] days ([--today], [--week], [--month]) succeeds
    whenever the clock gives valid dates at least [n] days into the
    calendar and none of the [n] days back from a reading of the clock
    has a booking: it prints one table with the header and [n] rows, each
    the weekday of a day, its key, and six placeholders. *)
Theorem report_succeeds (n : Z) (k : Keeper) :
  0 <= n ->
  (forall i, valid_datetime (clock i) = true /\ n <= toordinal (clock i)) ->
  (forall i day, 0 <= day < n ->
                 data k !! Aux.day_key (toordinal (clock i) - day) = None) ->
  let r := (keys <- generate_day_keys clock n ;; print_table clock keys) k in
  fst r = Ok tt
  /\ exists rows,
       stdout (world (snd r))
       = (stdout (world k) ++ [Table (header :: rows)])%list
       /\ length rows = Z.to_nat n
       /\ Forall (fun row => exists key d,
                               Format.fromisoformat key = Some d
                               /\ row = Aux.placeholder_row key d) rows.
Proof.
  intros Hn Hc Hd r. subst r. unfold bind.
  destruct (day_keys_loop_days (range n) [] k) as (keys & Hk & Hp).
  { intros i. apply Hc. }
  { intros i day Hin. unfold range in Hin. apply in_map_iff in Hin.
    destruct Hin as (j & <- & Hj). apply in_seq in Hj.
    destruct (Hc i) as [_ Hi]. lia. }
  pose proof (generate_day_keys_result n k) as O.
  unfold generate_day_keys in *.
  destruct (day_keys_loop clock (range n) [] k) as [[ks|e] k1];
    cbn in Hk; [|discriminate].
  injection Hk as ->. destruct O as [L ->].
  set (k' := set_reads (reads k + Z.to_nat n) k) in *.
  assert (Hfree : Forall (fun key => data k' !! key = None
                                     /\ is_Some (Format.fromisoformat key))
                         keys).
  { eapply Forall_impl; [|exact Hp].
    intros key (Hkey & i & day & Hin & ->). split; [|exact Hkey].
    unfold k'. cbn [data set_reads]. apply Hd.
    unfold range in Hin. apply in_map_iff in Hin.
    destruct Hin as (j & <- & Hj). apply in_seq in Hj. lia. }
  assert (Hall : Forall (Aux.renderable k') keys).
  { eapply Forall_impl; [|exact Hfree]. intros key [Hnone Hkey].
    unfold Aux.renderable. now rewrite Hnone. }
  destruct (print_table_total keys _ Hall) as (R & rows & Ho & Hl & Hrow).
  split; [exact R|]. exists rows. split; [exact Ho|].
  split; [now rewrite Hl|].
  apply Forall_lookup. intros i row Hi.
  assert (Hlt : (i < length keys)%nat)
    by (rewrite <- Hl; eapply lookup_lt_Some; exact Hi).
  destruct (lookup_lt_is_Some_2 keys i Hlt) as [key Hkey].
  rewrite Forall_lookup in Hfree.
  destruct (Hfree i key Hkey) as [Hnone [d Hd']].
  exists key, d. split; [exact Hd'|].
  rewrite (Hrow i key d Hkey Hnone Hd') in Hi. now injection Hi as <-.
Qed.

End Reports.

(** ** Command lines *)

Section CommandLines.
Import Calendar.
Variable clock : nat -> datetime.

(** X17.  A command line with none of the eight action options prints the
    no-parameter notice and nothing else, and writes nothing; [--date]
    alone does not count as a parameter. *)
Theorem no_parameter_notice (args : Args) (w : World) :
  Aux.books args = false ->
  arg_today args = false -> arg_week args = false ->
  arg_month args = false ->
  str_truthy (arg_category args) = false ->
  str_truthy (arg_date args) = false
  \/ is_Some (Format.fromisoformat (default "" (arg_date args))) ->
  run clock args w
  = (Ok tt,
     mkWorld (settings_doc (world (init clock w)))
             (store_docs (world (init clock w)))
             (stdout w ++ [Aux.notice])).
Proof.
  destruct args as [c d ci cia co coa t wk m]. unfold Aux.books.
  cbn [arg_category arg_date arg_checkin arg_checkin_at arg_checkout
       arg_checkout_at arg_today arg_week arg_month].
  intros Hb -> -> -> Hc Hd.
  apply orb_false_iff in Hb. destruct Hb as [Hb Hcoa].
  apply orb_false_iff in Hb. destruct Hb as [Hb ->].
  apply orb_false_iff in Hb. destruct Hb as [-> Hcia].
  destruct (init_fields clock w) as (_ & _ & Hs & _).
  unfold run, process_args, step.
  cbn [arg_category arg_date arg_checkin arg_checkin_at arg_checkout
       arg_checkout_at arg_today arg_week arg_month].
  rewrite Hc, Hcia, Hcoa. unfold bind.
  destruct Hd as [->|[t Ht]].
  - cbn. now rewrite Hs.
  - rewrite Ht. destruct (str_truthy d); cbn; now rewrite Hs.
Qed.

(** What [__check] stores depends on the store, the documents, the day to
    work on, the default pause and the path only. *)
Lemma check_store_congr (checkin : bool) (booking_time : option string)
      (clock' : nat -> datetime) (k k' : Keeper) :
  data k = data k' ->
  store_docs (world k) = store_docs (world k') ->
  day_to_work_on k = day_to_work_on k' ->
  default_pause_length k = default_pause_length k' ->
  keeper_file_path k = keeper_file_path k' ->
  data (snd (check clock checkin booking_time k))
  = data (snd (check clock' checkin booking_time k'))
  /\ store_docs (world (snd (check clock checkin booking_time k)))
     = store_docs (world (snd (check clock' checkin booking_time k'))).
Proof.
  intros Hd Hs Hw Hp Hf.
  assert (Ht : Aux.booking_date_of k booking_time
               = Aux.booking_date_of k' booking_time)
    by (unfold Aux.booking_date_of; now rewrite Hw).
  destruct (Aux.booking_date_of k booking_time) as [t|] eqn:E.
  - symmetry in Ht.
    destruct (check_state clock checkin booking_time k t E) as (F1 & F2 & _).
    destruct (check_state clock' checkin booking_time k' t Ht)
      as (G1 & G2 & _).
    assert (B : Aux.booked k checkin t = Aux.booked k' checkin t)
      by (unfold Aux.booked; now rewrite Hd, Hw, Hp).
    rewrite F2, G2, F1, G1, B, Hd, Hw, Hs, Hf. split; reflexivity.
  - symmetry in Ht. rewrite !check_invalid_time by assumption.
    split; assumption.
Qed.

Lemma process_args_in_out (s a b : string) (d : datetime) (k : Keeper) :
  Format.fromisoformat s = Some d ->
  str_truthy (Some a) = true -> str_truthy (Some b) = true ->
  snd (process_args clock
         (mkArgs None (Some s) false (Some a) false (Some b)
                 false false false) k)
  = match check clock true (Some a) (set_day_to_work_on d k) with
    | (Ok _, k1) => snd (check clock false (Some b) k1)
    | (Raise _, k1) => k1
    end.
Proof.
  intros Hs Ha Hb. destruct s as [|c s]; [discriminate|].
  unfold process_args, step.
  cbn [arg_category arg_date arg_checkin arg_checkin_at arg_checkout
       arg_checkout_at arg_today arg_week arg_month].
  rewrite Ha, Hb. cbn [str_truthy default from_option]. unfold id.
  unfold bind. rewrite Hs. cbn [lift ret modify].
  destruct (check clock true (Some a) (set_day_to_work_on d k))
    as [[[]|e] k1]; [|reflexivity].
  cbn -[check].
  destruct (check clock false (Some b) k1) as [[[]|e] k2]; reflexivity.
Qed.

(** X18.  With a [--date] and a check-in time the model parses, on a day
    that has no booking yet, a check-in and a check-out given on one
    command line store what two successive runs store, one for the
    check-in and one for the check-out, whatever the clocks and whatever
    the check-out time: the resulting store documents are the same.  (The
    day is taken without a booking so that the check-in meets no stored
    timestamp.) *)
Theorem one_run_or_two (clock1 clock2 : nat -> datetime) (w : World)
        (s a b : string) (d : datetime) :
  Format.fromisoformat s = Some d ->
  str_truthy (Some a) = true -> str_truthy (Some b) = true ->
  is_Some (Format.fromisoformat (Format.strftime_Ymd d +:+ " " +:+ a)) ->
  default ∅ (store_docs w !! keeper_file_path (init clock w))
  !! Format.strftime_Ymd d = None ->
  store_docs
    (snd (run clock (mkArgs None (Some s) false (Some a) false (Some b)
                            false false false) w))
  = store_docs
      (runs [(clock1, mkArgs None (Some s) false (Some a) false None
                             false false false);
             (clock2, mkArgs None (Some s) false None false (Some b)
                             false false false)] w).
Proof.
  intros Hs Ha Hb [t Ht] _. cbn [runs].
  assert (E1 : mkArgs None (Some s) false (Some a) false None
                      false false false
               = Aux.one_check (Some s) true (Some a))
    by (unfold Aux.one_check; now rewrite Ha).
  assert (E2 : mkArgs None (Some s) false None false (Some b)
                      false false false
               = Aux.one_check (Some s) false (Some b))
    by (unfold Aux.one_check; now rewrite Hb).
  rewrite E2, (run_dated_check clock2 _ s d false (Some b) Hs). cbn [snd].
  set (w1 := snd (run clock1 (mkArgs None (Some s) false (Some a) false None
                                     false false false) w)).
  (* the single run *)
  unfold run at 1.
  pose proof (process_args_in_out s a b d (init clock w) Hs Ha Hb) as P.
  destruct (process_args clock _ (init clock w)) as [r kf]. cbn [snd] in P |- *.
  subst kf.
  set (k0 := set_day_to_work_on d (init clock w)) in *.
  assert (T0 : Aux.booking_date_of k0 (Some a) = Some t)
    by (unfold Aux.booking_date_of; now rewrite Ha).
  pose proof (check_in_ok clock (Some a) k0 t T0) as Ok0.
  destruct (check clock true (Some a) k0) as [[[]|e] k1] eqn:C1;
    [|discriminate].
  (* the first of the two runs *)
  set (k0' := set_day_to_work_on d (init clock1 w)).
  assert (W1 : w1 = world (snd (check clock1 true (Some a) k0'))).
  { unfold w1. rewrite E1, (run_dated_check clock1 _ s d true (Some a) Hs).
    reflexivity. }
  assert (I0 : data k0 = data k0'
               /\ store_docs (world k0) = store_docs (world k0')
               /\ default_pause_length k0 = default_pause_length k0'
               /\ keeper_file_path k0 = keeper_file_path k0').
  { unfold k0, k0', init, load_config, load_data.
    destruct (settings_doc w); cbn;
      match goal with
      | |- context [store_docs w !! ?p] => destruct (store_docs w !! p)
      end; repeat split. }
  destruct I0 as (Id & Is & Ip & If).
  destruct (check_store_congr true (Some a) clock1 k0 k0' Id Is eq_refl Ip If)
    as [D1 S1].
  rewrite C1 in D1, S1. cbn [snd] in D1, S1.
  destruct (check_state clock true (Some a) k0 t T0)
    as (_ & S1' & St1 & _ & Dw1 & Dp1 & Df1).
  rewrite C1 in S1', St1, Dw1, Dp1, Df1. cbn [snd] in *.
  (* the process of the second run starts where the first one ended *)
  set (k1' := snd (check clock1 true (Some a) k0')) in *.
  assert (J : data (init clock2 w1) = data k1
              /\ store_docs (world (init clock2 w1)) = store_docs (world k1)
              /\ default_pause_length (init clock2 w1)
                 = default_pause_length k1
              /\ keeper_file_path (init clock2 w1) = keeper_file_path k1).
  { assert (Sd : settings_doc w1
                 = Some (default default_settings (settings_doc w)))
      by apply run_settings.
    assert (Sw : store_docs w1 = store_docs (world k1))
      by (rewrite W1; now rewrite S1).
    assert (Pk : keeper_file_path k1
                 = default "keeper.json"
                     (json_keeper_file
                        (default default_settings (settings_doc w)))).
    { rewrite Df1. unfold k0. cbn. apply init_fields. }
    assert (Dk : default_pause_length k1
                 = default (1 # 2)%Q
                     (json_default_pause_length
                        (default default_settings (settings_doc w)))).
    { rewrite Dp1. unfold k0. cbn. apply init_fields. }
    assert (L : store_docs w1 !! keeper_file_path k1 = Some (data k1)).
    { rewrite Sw, S1', Df1. apply lookup_insert_eq. }
    unfold init, load_config, load_data. rewrite Sd.
    cbn [default from_option id] in *. rewrite <- Pk, L. cbn.
    rewrite Sw, Pk, Dk. repeat split. }
  destruct J as (Jd & Js & Jp & Jf).
  destruct (check_store_congr false (Some b) clock2 k1
              (set_day_to_work_on d (init clock2 w1)))
    as [_ R]; cbn [data world default_pause_length keeper_file_path
                   day_to_work_on set_day_to_work_on]; auto.
Qed.

End CommandLines.

(** ** The further properties at concrete inputs *)

Section MoreWitnesses.
Import Calendar Sample.

Lemma run_touches_one_document_witness :
  "other.json" <> keeper_file_path (init clock_noon w2)
  /\ store_docs (snd (run clock_noon checkin_now w2)) !! "other.json"
     = store_docs w2 !! "other.json".
Proof.
  assert (H : "other.json" <> keeper_file_path (init clock_noon w2))
    by (intros E; vm_compute in E; discriminate E).
  split; [exact H|].
  exact (proj1 (run_touches_one_document clock_noon checkin_now w2) _ H).
Defined.

Lemma run_saves_what_it_holds_witness :
  fst (run clock_noon checkin_now empty_world) = Ok tt
  /\ store_docs (snd (run clock_noon checkin_now empty_world))
     !! keeper_file_path (init clock_noon empty_world)
     = Some (data (snd (process_args clock_noon checkin_now
                          (init clock_noon empty_world)))).
Proof.
  assert (H : fst (run clock_noon checkin_now empty_world) = Ok tt)
    by (vm_compute; reflexivity).
  split; [exact H|].
  exact (proj1 (run_saves_what_it_holds clock_noon checkin_now empty_world H)).
Defined.

Lemma run_changes_one_day_witness :
  str_truthy (arg_date checkin_now) = false
  /\ "2024-01-09"
     <> Format.strftime_Ymd
          (day_to_work_on (Aux.resolved checkin_now (init clock_noon w2)))
  /\ default ∅ (store_docs (snd (run clock_noon checkin_now w2))
                !! keeper_file_path (init clock_noon w2)) !! "2024-01-09"
     = default ∅ (store_docs w2 !! keeper_file_path (init clock_noon w2))
       !! "2024-01-09".
Proof.
  assert (D : str_truthy (arg_date checkin_now) = false) by reflexivity.
  assert (H : "2024-01-09"
              <> Format.strftime_Ymd
                   (day_to_work_on
                      (Aux.resolved checkin_now (init clock_noon w2))))
    by (intros E; vm_compute in E; discriminate E).
  split; [exact D|]. split; [exact H|].
  exact (run_changes_one_day clock_noon checkin_now w2 "2024-01-09"
           (or_introl D) H).
Defined.

Lemma run_keeps_bookings_witness :
  default ∅ (store_docs w2 !! keeper_file_path (init clock_noon w2))
  !! "2024-01-10" = Some b2
  /\ exists b',
       default ∅ (store_docs (snd (run clock_noon checkin_now w2))
                  !! keeper_file_path (init clock_noon w2)) !! "2024-01-10"
       = Some b'
       /\ pause b' = pause b2.
Proof.
  assert (H : default ∅ (store_docs w2
                         !! keeper_file_path (init clock_noon w2))
              !! "2024-01-10" = Some b2) by (vm_compute; reflexivity).
  split; [exact H|].
  destruct (run_keeps_bookings clock_noon checkin_now w2 "2024-01-10" b2 H)
    as (b' & Hb & _ & _ & Hp & _).
  exists b'. split; [exact Hb | exact Hp].
Defined.

Lemma run_without_check_never_writes_witness :
  Aux.books week = false
  /\ store_docs (snd (run clock_noon week w2))
     = store_docs (world (init clock_noon w2)).
Proof.
  assert (H : Aux.books week = false) by reflexivity.
  split; [exact H|].
  exact (proj1 (run_without_check_never_writes clock_noon week w2 H)).
Defined.

Lemma quarter_round_monotone_witness :
  (Qabs (33 # 8) <= inject_Z FLOAT_MAX / 4)%Q
  /\ (Qabs (17 # 2) <= inject_Z FLOAT_MAX / 4)%Q
  /\ ((33 # 8) <= (17 # 2))%Q
  /\ exists qx qy : Q,
       quarter_round_call (33 # 8) = Ok qx
       /\ quarter_round_call (17 # 2) = Ok qy
       /\ (qx <= qy)%Q.
Proof.
  assert (H1 : (Qabs (33 # 8) <= inject_Z FLOAT_MAX / 4)%Q)
    by (apply Qle_bool_iff; vm_compute; reflexivity).
  assert (H2 : (Qabs (17 # 2) <= inject_Z FLOAT_MAX / 4)%Q)
    by (apply Qle_bool_iff; vm_compute; reflexivity).
  assert (H3 : ((33 # 8) <= (17 # 2))%Q)
    by (apply Qle_bool_iff; vm_compute; reflexivity).
  split; [exact H1|]. split; [exact H2|]. split; [exact H3|].
  exact (quarter_round_monotone _ _ H1 H2 H3).
Defined.

Lemma ValueError_changes_nothing_witness :
  fst (check clock_noon true (Some "25:00") k0) = Raise ValueError
  /\ snd (check clock_noon true (Some "25:00") k0) = k0.
Proof.
  assert (H : fst (check clock_noon true (Some "25:00") k0)
              = Raise ValueError) by (vm_compute; reflexivity).
  split; [exact H|].
  exact (ValueError_changes_nothing clock_noon _ _ _ H).
Defined.

Lemma stored_productive_time_range_witness :
  fst (check clock_noon false (Some "17:30") k1) = Ok tt
  /\ data (snd (check clock_noon false (Some "17:30") k1))
     !! Format.strftime_Ymd (day_to_work_on k1) = Some b2
  /\ is_Some (checkin_timestamp b2) /\ is_Some (checkout_timestamp b2)
  /\ Aux.quarter_multiple (default_pause_length k1)
  /\ (0 <= default_pause_length k1 <= 24)%Q
  /\ Aux.quarter_multiple (productive_time b2)
  /\ (- default_pause_length k1 <= productive_time b2
      <= 24 - default_pause_length k1)%Q.
Proof.
  assert (H : fst (check clock_noon false (Some "17:30") k1) = Ok tt)
    by (vm_compute; reflexivity).
  assert (Hb : data (snd (check clock_noon false (Some "17:30") k1))
               !! Format.strftime_Ymd (day_to_work_on k1) = Some b2)
    by (vm_compute; reflexivity).
  assert (Hi : is_Some (checkin_timestamp b2)) by (eexists; reflexivity).
  assert (Ho : is_Some (checkout_timestamp b2)) by (eexists; reflexivity).
  assert (Hm : Aux.quarter_multiple (default_pause_length k1))
    by (exists 2; vm_compute; reflexivity).
  assert (Hr : (0 <= default_pause_length k1 <= 24)%Q)
    by (split; apply Qle_bool_iff; vm_compute; reflexivity).
  split; [exact H|]. split; [exact Hb|]. split; [exact Hi|].
  split; [exact Ho|]. split; [exact Hm|]. split; [exact Hr|].
  exact (stored_productive_time_range clock_noon _ _ _ _ H Hb Hi Ho Hm Hr).
Defined.

Lemma check_in_succeeds_and_prints_witness :
  Format.fromisoformat "2024-01-10" = Some (mkDatetime 2024 1 10 0 0 0 0)
  /\ Aux.booking_date_of
       (set_day_to_work_on (mkDatetime 2024 1 10 0 0 0 0)
          (init clock_march empty_world)) (Some "09:00")
     = Some (mkDatetime 2024 1 10 9 0 0 0)
  /\ default ∅ (store_docs empty_world
                !! keeper_file_path (init clock_march empty_world))
     !! Format.strftime_Ymd (mkDatetime 2024 1 10 0 0 0 0) = None
  /\ fst (run clock_march
            (Aux.one_check (Some "2024-01-10") true (Some "09:00"))
            empty_world) = Ok tt.
Proof.
  assert (Hd : Format.fromisoformat "2024-01-10"
               = Some (mkDatetime 2024 1 10 0 0 0 0)) by reflexivity.
  assert (Ht : Aux.booking_date_of
                 (set_day_to_work_on (mkDatetime 2024 1 10 0 0 0 0)
                    (init clock_march empty_world)) (Some "09:00")
               = Some (mkDatetime 2024 1 10 9 0 0 0))
    by (vm_compute; reflexivity).
  assert (Hn : default ∅ (store_docs empty_world
                          !! keeper_file_path (init clock_march empty_world))
               !! Format.strftime_Ymd (mkDatetime 2024 1 10 0 0 0 0) = None)
    by (vm_compute; reflexivity).
  split; [exact Hd|]. split; [exact Ht|]. split; [exact Hn|].
  exact (proj1 (check_in_succeeds_and_prints clock_march empty_world
                  (Some "2024-01-10") (Some "09:00") _ _ Hd Ht Hn)).
Defined.

Lemma timestamps_lie_on_key_day_witness :
  store_docs
    (runs [(clock_noon, Aux.scenario_in);
                    (clock_noon, Aux.scenario_out)] empty_world)
  !! "keeper.json" = Some (<["2024-01-10" := b2]> ∅)
  /\ (<["2024-01-10" := b2]> ∅ : gmap string Booking) !! "2024-01-10"
     = Some b2
  /\ checkin_timestamp b2 = Some (mkDatetime 2024 1 10 9 0 0 0)
  /\ Format.strftime_Ymd (mkDatetime 2024 1 10 9 0 0 0) = "2024-01-10".
Proof.
  assert (Hd : store_docs
    (runs [(clock_noon, Aux.scenario_in);
                    (clock_noon, Aux.scenario_out)] empty_world)
  !! "keeper.json"
               = Some (<["2024-01-10" := b2]> ∅))
    by (vm_compute; reflexivity).
  assert (Hb : (<["2024-01-10" := b2]> ∅ : gmap string Booking)
               !! "2024-01-10" = Some b2) by (vm_compute; reflexivity).
  split; [exact Hd|]. split; [exact Hb|]. split; [reflexivity|].
  exact (timestamps_lie_on_key_day _ _ _ _ _ _ Hd Hb (or_introl eq_refl)).
Defined.

Lemma bookings_keep_their_defaults_witness :
  store_docs
    (runs [(clock_noon, Aux.scenario_in);
                    (clock_noon, Aux.scenario_out)] empty_world)
  !! "keeper.json" = Some (<["2024-01-10" := b2]> ∅)
  /\ (<["2024-01-10" := b2]> ∅ : gmap string Booking) !! "2024-01-10"
     = Some b2
  /\ pause b2 = (1 # 2)%Q /\ category b2 = MOBILE /\ description b2 = None.
Proof.
  assert (Hd : store_docs
    (runs [(clock_noon, Aux.scenario_in);
                    (clock_noon, Aux.scenario_out)] empty_world)
  !! "keeper.json"
               = Some (<["2024-01-10" := b2]> ∅))
    by (vm_compute; reflexivity).
  assert (Hb : (<["2024-01-10" := b2]> ∅ : gmap string Booking)
               !! "2024-01-10" = Some b2) by (vm_compute; reflexivity).
  split; [exact Hd|]. split; [exact Hb|].
  exact (bookings_keep_their_defaults _ _ _ _ _ Hd Hb).
Defined.

Lemma print_table_succeeds_witness :
  Forall (fun key => data k1 !! key = None
                     /\ is_Some (Format.fromisoformat key))
         ["2024-01-09"; "2024-01-08"]
  /\ fst (print_table clock_noon ["2024-01-09"; "2024-01-08"] k1) = Ok tt.
Proof.
  assert (H : Forall (fun key => data k1 !! key = None
                                 /\ is_Some (Format.fromisoformat key))
                     ["2024-01-09"; "2024-01-08"])
    by (apply Forall_cons; [|apply Forall_cons; [|apply Forall_nil]];
        (split; [vm_compute; reflexivity | eexists; vm_compute; reflexivity])).
  split; [exact H|].
  exact (proj1 (print_table_succeeds clock_noon _ _ H)).
Defined.

Lemma report_succeeds_witness :
  0 <= 7
  /\ (forall i, valid_datetime (clock_noon i) = true
                /\ 7 <= toordinal (clock_noon i))
  /\ (forall (i : nat) day,
        0 <= day < 7 ->
        data k0 !! Aux.day_key (toordinal (clock_noon i) - day) = None)
  /\ fst ((keys <- generate_day_keys clock_noon 7 ;;
           print_table clock_noon keys) k0) = Ok tt.
Proof.
  assert (H0 : 0 <= 7) by lia.
  assert (Hc : forall i, valid_datetime (clock_noon i) = true
                         /\ 7 <= toordinal (clock_noon i))
    by (intros i; split; [reflexivity | vm_compute; discriminate]).
  assert (Hd : forall (i : nat) day,
             0 <= day < 7 ->
             data k0 !! Aux.day_key (toordinal (clock_noon i) - day) = None).
  { intros i day _.
    assert (E : data k0 = ∅) by (vm_compute; reflexivity).
    rewrite E. apply lookup_empty. }
  split; [exact H0|]. split; [exact Hc|]. split; [exact Hd|].
  exact (proj1 (report_succeeds clock_noon 7 k0 H0 Hc Hd)).
Defined.

Lemma no_parameter_notice_witness :
  Aux.books date_only = false
  /\ is_Some (Format.fromisoformat (default "" (arg_date date_only)))
  /\ fst (run clock_noon date_only empty_world) = Ok tt
  /\ stdout (snd (run clock_noon date_only empty_world)) = [Aux.notice].
Proof.
  assert (Hb : Aux.books date_only = false) by reflexivity.
  assert (Hd : is_Some (Format.fromisoformat
                          (default "" (arg_date date_only))))
    by (eexists; reflexivity).
  split; [exact Hb|]. split; [exact Hd|].
  rewrite (no_parameter_notice clock_noon date_only empty_world Hb
             eq_refl eq_refl eq_refl eq_refl (or_intror Hd)).
  split; reflexivity.
Defined.

Lemma one_run_or_two_witness :
  Format.fromisoformat "2024-01-10" = Some (mkDatetime 2024 1 10 0 0 0 0)
  /\ is_Some (Format.fromisoformat
                (Format.strftime_Ymd (mkDatetime 2024 1 10 0 0 0 0)
                 +:+ " " +:+ "09:00"))
  /\ default ∅ (store_docs empty_world
                !! keeper_file_path (init clock_march empty_world))
     !! Format.strftime_Ymd (mkDatetime 2024 1 10 0 0 0 0) = None
  /\ store_docs
       (snd (run clock_march
               (mkArgs None (Some "2024-01-10") false (Some "09:00") false
                       (Some "17:30") false false false) empty_world))
     = store_docs
         (runs [(clock_noon,
                 mkArgs None (Some "2024-01-10") false (Some "09:00") false
                        None false false false);
                (clock_noon,
                 mkArgs None (Some "2024-01-10") false None false
                        (Some "17:30") false false false)] empty_world).
Proof.
  assert (Hs : Format.fromisoformat "2024-01-10"
               = Some (mkDatetime 2024 1 10 0 0 0 0)) by reflexivity.
  assert (Ha : is_Some (Format.fromisoformat
                          (Format.strftime_Ymd (mkDatetime 2024 1 10 0 0 0 0)
                           +:+ " " +:+ "09:00")))
    by (eexists; vm_compute; reflexivity).
  assert (Hn : default ∅ (store_docs empty_world
                          !! keeper_file_path (init clock_march empty_world))
               !! Format.strftime_Ymd (mkDatetime 2024 1 10 0 0 0 0) = None)
    by (vm_compute; reflexivity).
  split; [exact Hs|]. split; [exact Ha|]. split; [exact Hn|].
  exact (one_run_or_two clock_march clock_noon clock_noon empty_world
           "2024-01-10" "09:00" "17:30" _ Hs eq_refl eq_refl Ha Hn).
Defined.

End MoreWitnesses.

(** * Examples *)

Example fromisoformat_date :
  Format.fromisoformat "2024-01-10"
  = Some (Calendar.mkDatetime 2024 1 10 0 0 0 0).
Proof. reflexivity. Qed.

Example fromisoformat_datetime :
  Format.fromisoformat "2024-01-10 17:30"
  = Some (Calendar.mkDatetime 2024 1 10 17 30 0 0).
Proof. reflexivity. Qed.

Example fromisoformat_rejects :
  Format.fromisoformat "10.01.2024" = None
  /\ Format.fromisoformat "2023-02-29" = None
  /\ Format.fromisoformat "2024-01-10 24:00" = None.
Proof. repeat split; reflexivity. Qed.

Example strftime_examples :
  let t := Calendar.mkDatetime 2024 1 10 9 5 0 0 in
  Format.strftime_Ymd t = "2024-01-10"
  /\ Format.strftime_HM t = "09:05"
  /\ Format.strftime_a t = "Wed".
Proof. repeat split; reflexivity. Qed.

Example quarter_round_examples :
  (quarter_round (17 # 2) == 17 # 2)%Q
  /\ (quarter_round (1 # 8) == 0)%Q
  /\ (quarter_round (3 # 8) == 1 # 2)%Q
  /\ (quarter_round (5369 # 1000) == 21 # 4)%Q.
Proof. repeat split; reflexivity. Qed.

Example category_membership :
  in_BookingCategory "MOBILE" = true /\ in_BookingCategory "mobile" = false.
Proof. split; reflexivity. Qed.

(** The week view of a store that holds today's booking only: seven rows
    under the header, today's first, the other six placeholders. *)
Example week_view_example :
  exists today rest,
    stdout (runs [(Sample.clock_noon, Sample.checkin_now);
                  (Sample.clock_noon, Sample.week)] empty_world) !! 1%nat
    = Some (Table (header :: today :: rest))
    /\ today !! 1%nat = Some (CStr "2024-01-10")
    /\ today !! 2%nat = Some (CStr "12:00")
    /\ length rest = 6%nat
    /\ Forall (fun row => row !! 2%nat = Some placeholder) rest.
Proof.
  eexists _, _. split; [vm_compute; reflexivity|].
  repeat split. repeat constructor.
Qed.
